(** * Human folder analysis: a Rocq model of [human_folder_analysis.py]

    The development embeds the scanning and aggregation engine of
    [human_folder_analysis.py] and proves the properties its written
    specification states about it.

    Conventions of the embedding:
    - Python [int] is [Z]; [len] is [Z.of_nat (length _)].
    - Python [str] is [string]; [str.lower] acts on the letters [A]..[Z].
    - a Python [dict] / [Counter] is an association list kept in insertion
      order with pairwise distinct keys, because iteration order matters to
      [Counter.most_common] and to [sorted(d.items(), ...)].
    - the directory tree is an inductive type; [os.walk] is a function on it. *)

From Stdlib Require Import ZArith Bool List String Ascii Lia.
From Stdlib Require Import Permutation Sorted DecimalString.
Import ListNotations.

Local Open Scope string_scope.
Local Open Scope list_scope.
Local Open Scope Z_scope.

(* ================================================================= *)
(** ** Python string primitives *)

Module PyStr.

Definition dot : ascii := "."%char.

(** [c.lower()] for one character: only [A]..[Z] change. *)
Definition lower_char (c : ascii) : ascii :=
  let n := nat_of_ascii c in
  if ((65 <=? n)%nat && (n <=? 90)%nat)%bool then ascii_of_nat (n + 32) else c.

(** [s.lower()] *)
Fixpoint lower (s : string) : string :=
  match s with
  | EmptyString => EmptyString
  | String c t => String (lower_char c) (lower t)
  end.

(** [s.endswith(suf)]: some tail of [s] is [suf]. *)
Fixpoint endswith (s suf : string) : bool :=
  (s =? suf)%string ||
  match s with
  | EmptyString => false
  | String _ t => endswith t suf
  end.

(** [s.lstrip(c)] for a one-character set. *)
Fixpoint lstrip (c : ascii) (s : string) : string :=
  match s with
  | EmptyString => EmptyString
  | String a t => if Ascii.eqb a c then lstrip c t else s
  end.

(** [s.split(c)] for a one-character separator; never returns [[]]. *)
Fixpoint split (c : ascii) (s : string) : list string :=
  match s with
  | EmptyString => [EmptyString]
  | String a t =>
      if Ascii.eqb a c then EmptyString :: split c t
      else match split c t with
           | h :: r => String a h :: r
           | [] => [String a EmptyString]
           end
  end.

(** [sep.join(parts)] is [String.concat sep parts]. *)
Definition join (sep : string) (parts : list string) : string :=
  String.concat sep parts.

(** [s.rfind(c)]: index of the last occurrence, [None] for Python's [-1]. *)
Fixpoint rfind (c : ascii) (s : string) : option nat :=
  match s with
  | EmptyString => None
  | String a t =>
      match rfind c t with
      | Some i => Some (S i)
      | None => if Ascii.eqb a c then Some 0%nat else None
      end
  end.

(** [s[:n]] and [s[n:]] *)
Fixpoint take (n : nat) (s : string) : string :=
  match n, s with
  | O, _ => EmptyString
  | S _, EmptyString => EmptyString
  | S m, String a t => String a (take m t)
  end.

Fixpoint drop (n : nat) (s : string) : string :=
  match n, s with
  | O, _ => s
  | S _, EmptyString => EmptyString
  | S m, String _ t => drop m t
  end.

(** every character of [s] is [c] *)
Fixpoint all_char (c : ascii) (s : string) : bool :=
  match s with
  | EmptyString => true
  | String a t => Ascii.eqb a c && all_char c t
  end.

(** [c in s] *)
Fixpoint contains (c : ascii) (s : string) : bool :=
  match s with
  | EmptyString => false
  | String a t => Ascii.eqb a c || contains c t
  end.

(** [s[-1]] of a non-empty string *)
Fixpoint last_char (s : string) : option ascii :=
  match s with
  | EmptyString => None
  | String a EmptyString => Some a
  | String _ t => last_char t
  end.

End PyStr.

(* ================================================================= *)
(** ** [os.path] and [pathlib] on a single file name

    Every file name handed to these functions comes from the [files] list of
    [os.walk], so it is one path component: it holds no path separator, and
    [Path(fname).name] is [fname] itself. *)

Module OsPath.
Import PyStr.

(** [os.path.splitext(p)] of a separator-free [p] ([sepIndex = -1]):
    split at the last dot, unless only dots precede it. *)
Definition splitext (p : string) : string * string :=
  match rfind dot p with
  | Some dotIndex =>
      if negb (all_char dot (take dotIndex p))
      then (take dotIndex p, drop dotIndex p)
      else (p, EmptyString)
  | None => (p, EmptyString)
  end.

(** [Path(name).suffixes], as pathlib defines it:
    [[] if name.endswith('.') else
     ['.' + suffix for suffix in name.lstrip('.').split('.')[1:]]]. *)
Definition suffixes (name : string) : list string :=
  if endswith name "." then []
  else map (fun suffix => String.append "." suffix) (tl (split dot (lstrip dot name))).

End OsPath.

(* ================================================================= *)
(** ** File classification *)

Import PyStr OsPath.

(** [is_nifti_filename] *)
Definition is_nifti_filename (fname : string) : bool :=
  let s := lower (join EmptyString (suffixes fname)) in
  endswith s ".nii" || endswith s ".nii.gz".

(** The key under which the scan counts a file:
    [os.path.splitext(file)[1].lower()]. *)
Definition file_ext (file : string) : string :=
  lower (snd (splitext file)).

(** The compound suffix in the words of the specification: everything from
    the first dot that follows the leading dots of the name. *)
Fixpoint from_first_dot (s : string) : string :=
  match s with
  | EmptyString => EmptyString
  | String a t => if Ascii.eqb a dot then s else from_first_dot t
  end.

Definition compound_suffix (fname : string) : string :=
  from_first_dot (lstrip dot fname).

(** The status of a subject, from the body of the status loop of
    [create_subfolder_sheet]. *)
Definition subject_status_of_counts (mat dat ima : Z) : string :=
  if 0 <? mat then "Processed"
  else if 0 <? dat + ima then "Not Processed"
  else "Unknown".

(* ================================================================= *)
(** ** Python containers *)

(** Keys of a [dict]: a type with a decidable equality. *)
Class PyKey (K : Type) := {
  key_eqb : K -> K -> bool;
  key_eqb_spec : forall a b, reflect (a = b) (key_eqb a b)
}.

#[export] Instance string_PyKey : PyKey string :=
  {| key_eqb := String.eqb; key_eqb_spec := String.eqb_spec |}.

#[export] Instance Z_PyKey : PyKey Z :=
  {| key_eqb := Z.eqb; key_eqb_spec := Z.eqb_spec |}.

(** A [dict]: pairs in insertion order; the operations keep keys distinct. *)
Module Dict.
Section Ops.
Context {K V : Type} `{PyKey K}.

(** [d.get(k)] *)
Fixpoint get (d : list (K * V)) (k : K) : option V :=
  match d with
  | [] => None
  | (k', v) :: r => if key_eqb k' k then Some v else get r k
  end.

(** [d[k] = v]: overwrite in place, or append a new key. *)
Fixpoint set (d : list (K * V)) (k : K) (v : V) : list (K * V) :=
  match d with
  | [] => [(k, v)]
  | (k', v') :: r =>
      if key_eqb k' k then (k', v) :: r else (k', v') :: set r k v
  end.

(** [k in d] *)
Definition mem (d : list (K * V)) (k : K) : bool :=
  match get d k with Some _ => true | None => false end.

Definition keys (d : list (K * V)) : list K := map fst d.
Definition values (d : list (K * V)) : list V := map snd d.

End Ops.
End Dict.

(** [len(xs)] of a list *)
Definition len {A : Type} (xs : list A) : Z := Z.of_nat (List.length xs).

(** [sum(xs)] *)
Definition sumZ (xs : list Z) : Z := fold_right Z.add 0 xs.

(** [max(xs) if xs else default] *)
Definition max_or (default : Z) (xs : list Z) : Z :=
  match xs with
  | [] => default
  | x :: r => fold_left Z.max r x
  end.

(** [collections.Counter] *)
Definition Counter (K : Type) : Type := list (K * Z).

Section CounterOps.
Context {K : Type} `{PyKey K}.

(** [c[k]], also [c.get(k, 0)]: a missing key counts 0. *)
Definition count (c : Counter K) (k : K) : Z :=
  match Dict.get c k with Some n => n | None => 0 end.

(** [c[k] += n] *)
Definition add_count (c : Counter K) (k : K) (n : Z) : Counter K :=
  Dict.set c k (count c k + n).

(** [for k, n in other.items(): c[k] += n] *)
Definition add_counts (c other : Counter K) : Counter K :=
  fold_left (fun acc kn => add_count acc (fst kn) (snd kn)) other c.

(** [sum(c.values())] *)
Definition total (c : Counter K) : Z := sumZ (Dict.values c).

End CounterOps.

(** A stable sort: [sorted] and the sorts of pandas keep the input order
    of elements that compare equal.  Insertion of the head into the sorted
    tail, in front of the first element it does not exceed. *)
Section StableSort.
Context {A : Type} (leb : A -> A -> bool).

Fixpoint insert_sorted (x : A) (l : list A) : list A :=
  match l with
  | [] => [x]
  | y :: r => if leb x y then x :: l else y :: insert_sorted x r
  end.

Fixpoint stable_sort (l : list A) : list A :=
  match l with
  | [] => []
  | x :: r => insert_sorted x (stable_sort r)
  end.

End StableSort.

(** [sorted(items, key=lambda x: x[1], reverse=True)] *)
Definition count_geb {K : Type} (a b : K * Z) : bool := snd b <=? snd a.

Definition sorted_by_count_desc {K : Type} (items : list (K * Z)) : list (K * Z) :=
  stable_sort count_geb items.

(** [c.most_common(n)], which is [sorted(c.items(), key=itemgetter(1),
    reverse=True)[:n]]. *)
Definition most_common {K : Type} (n : nat) (c : Counter K) : list (K * Z) :=
  firstn n (sorted_by_count_desc c).

(** [str(n)] for an integer *)
Definition str_of_Z (n : Z) : string :=
  DecimalString.NilZero.string_of_int (Z.to_int n).

(* ================================================================= *)
(** ** The directory tree and [os.walk] *)

(** A directory entry that its parent reports as a directory.  [Unlisted]
    is an entry whose own listing is not produced: a directory that cannot
    be read, or a link to a directory, which [os.walk] lists among [dirs]
    but does not enter.  At the root, [Unlisted] stands for a path that
    exists but whose [os.listdir] raises; [why] is the text of the error. *)
#[warnings="-register-all"]
Inductive Dir : Type :=
| Folder (name : string) (files : list string) (subdirs : list Dir)
| Unlisted (name : string) (why : string).

Definition dir_name (d : Dir) : string :=
  match d with
  | Folder name _ _ => name
  | Unlisted name _ => name
  end.

(** One item yielded by [os.walk(human_root)]: [(root, dirs, files)],
    together with [os.path.relpath(root, human_root)]. *)
Record walk_item : Type := {
  walk_root : string;
  walk_rel_path : string;
  walk_dirs : list string;
  walk_files : list string
}.

Section Walk.
Variable sep : ascii.
Variable human_root : string.

(** [os.path.join(a, b)] for a relative [b] *)
Definition os_path_join (a b : string) : string :=
  if ((a =? EmptyString)%string || endswith a (String sep EmptyString))%bool then (a ++ b)%string
  else (a ++ String sep b)%string.

(** [os.path.relpath(root, human_root)] of the directory reached from the
    root through the names [segs] *)
Definition rel_of_segments (segs : list string) : string :=
  match segs with
  | [] => "."
  | _ => join (String sep EmptyString) segs
  end.

(** the [root] that [os.walk] reports for that directory *)
Definition root_of_segments (segs : list string) : string :=
  fold_left os_path_join segs human_root.

(** [os.walk(top)], top-down, links not followed, errors ignored *)
Fixpoint os_walk (segs : list string) (d : Dir) : list walk_item :=
  match d with
  | Unlisted _ _ => []
  | Folder _ files subdirs =>
      {| walk_root := root_of_segments segs;
         walk_rel_path := rel_of_segments segs;
         walk_dirs := map dir_name subdirs;
         walk_files := files |}
      :: flat_map (fun c => os_walk (segs ++ [dir_name c]) c) subdirs
  end.

(** [[f for f in os.listdir(top) if os.path.isdir(os.path.join(top, f))]];
    [inl] carries the text of the exception. *)
Definition listdir_dirs (d : Dir) : string + list string :=
  match d with
  | Unlisted _ why => inl why
  | Folder _ _ subdirs => inr (map dir_name subdirs)
  end.

End Walk.

(* ================================================================= *)
(** ** [scan_human_folder_complete] *)

(** [folder_info]: the record of one visited directory *)
Record folder_info : Type := {
  path : string;
  full_path : string;
  depth : Z;
  num_subfolders : Z;
  num_files : Z;
  file_types : Counter string;
  dicom_files : Z;
  dat_files : Z;
  nifti_files : Z;
  subfolder_names : list string
}.

(** [human_data['subfolders'][name]]: the data of one main subfolder *)
Record sf_data : Type := {
  sf_path : string;
  sf_all_folders : list folder_info;
  sf_file_counts : Counter string;
  sf_depth_counts : Counter Z;
  sf_total_files : Z;
  sf_total_folders : Z;
  sf_dicom_files : Z;
  sf_dat_files : Z;
  sf_folder_details : list folder_info
}.

(** [human_data['overview']] *)
Record overview : Type := {
  ov_total_folders : Z;
  ov_total_files : Z;
  ov_main_subfolders : Z;
  ov_total_dicom : Z;
  ov_total_dat : Z;
  ov_total_nifti : Z;
  ov_max_depth : Z
}.

(** [human_data]; its key ['folder_tree'] is reserved and never used. *)
Record human_data : Type := {
  hd_overview : overview;
  hd_subfolders : list (string * sf_data);
  hd_all_folders : list folder_info;
  hd_all_files_by_type : Counter string
}.

(** The variables carried by the loop over the files of one directory. *)
Record file_loop : Type := {
  fl_file_types : Counter string;
  fl_all_files_by_type : Counter string;
  fl_dicom_count : Z;
  fl_dat_count : Z;
  fl_nifti_count : Z
}.

(** One iteration of [for file in files]. *)
Definition count_file (st : file_loop) (file : string) : file_loop :=
  let ext := file_ext file in
  {| fl_file_types := add_count (fl_file_types st) ext 1;
     fl_all_files_by_type := add_count (fl_all_files_by_type st) ext 1;
     fl_dicom_count :=
       if ((ext =? ".dcm")%string || (ext =? ".ima")%string)%bool
       then fl_dicom_count st + 1 else fl_dicom_count st;
     fl_dat_count :=
       if (ext =? ".dat")%string then fl_dat_count st + 1 else fl_dat_count st;
     fl_nifti_count :=
       if is_nifti_filename file then fl_nifti_count st + 1 else fl_nifti_count st |}.

Definition count_files (all_files_by_type : Counter string) (files : list string)
  : file_loop :=
  fold_left count_file files
    {| fl_file_types := [];
       fl_all_files_by_type := all_files_by_type;
       fl_dicom_count := 0;
       fl_dat_count := 0;
       fl_nifti_count := 0 |}.

(** The variables carried by the loop over [os.walk]. *)
Record scan_state : Type := {
  st_subfolders : list (string * sf_data);
  st_all_folders : list folder_info;
  st_all_files_by_type : Counter string;
  st_total_folders : Z;
  st_total_files : Z
}.

Section Scan.
Variable sep : ascii.
Variable human_root : string.

(** The entry created for one main subfolder before the walk. *)
Definition new_sf_data (subfolder : string) : sf_data :=
  {| sf_path := os_path_join sep human_root subfolder;
     sf_all_folders := [];
     sf_file_counts := [];
     sf_depth_counts := [];
     sf_total_files := 0;
     sf_total_folders := 0;
     sf_dicom_files := 0;
     sf_dat_files := 0;
     sf_folder_details := [] |}.

(** [for subfolder in human_subfolders: human_data['subfolders'][subfolder] = {...}] *)
Definition init_subfolders (human_subfolders : list string) : list (string * sf_data) :=
  fold_left (fun d subfolder => Dict.set d subfolder (new_sf_data subfolder))
    human_subfolders [].

(** Main subfolder and depth of a relative path. *)
Definition subfolder_and_depth (rel_path : string) : option string * Z :=
  if (rel_path =? ".")%string then (None, 0)
  else
    let path_parts := split sep rel_path in
    (Some (hd EmptyString path_parts), len path_parts).

(** The [folder_info] of a walk item, given the counts of its files. *)
Definition make_folder_info (it : walk_item) (depth : Z) (fl : file_loop) : folder_info :=
  {| path := walk_rel_path it;
     full_path := walk_root it;
     depth := depth;
     num_subfolders := len (walk_dirs it);
     num_files := len (walk_files it);
     file_types := fl_file_types fl;
     dicom_files := fl_dicom_count fl;
     dat_files := fl_dat_count fl;
     nifti_files := fl_nifti_count fl;
     subfolder_names := firstn 10 (walk_dirs it) |}.

(** The block under "Accumulate into that main subfolder". *)
Definition accumulate (sf : sf_data) (info : folder_info) : sf_data :=
  {| sf_path := sf_path sf;
     sf_all_folders := sf_all_folders sf;
     sf_file_counts := add_counts (sf_file_counts sf) (file_types info);
     sf_depth_counts := add_count (sf_depth_counts sf) (depth info) 1;
     sf_total_files := sf_total_files sf + num_files info;
     sf_total_folders := sf_total_folders sf + 1;
     sf_dicom_files := sf_dicom_files sf + dicom_files info;
     sf_dat_files := sf_dat_files sf + dat_files info;
     sf_folder_details := sf_folder_details sf ++ [info] |}.

(** [if current_subfolder and current_subfolder in human_data['subfolders']] *)
Definition accumulate_into (subfolders : list (string * sf_data))
  (current_subfolder : option string) (info : folder_info)
  : list (string * sf_data) :=
  match current_subfolder with
  | None => subfolders
  | Some name =>
      if (name =? EmptyString)%string then subfolders
      else match Dict.get subfolders name with
           | Some sf => Dict.set subfolders name (accumulate sf info)
           | None => subfolders
           end
  end.

(** One iteration of [for root, dirs, files in os.walk(human_root)]. *)
Definition visit (st : scan_state) (it : walk_item) : scan_state :=
  let total_folders := st_total_folders st + 1 in
  let total_files := st_total_files st + len (walk_files it) in
  let '(current_subfolder, depth) := subfolder_and_depth (walk_rel_path it) in
  let fl := count_files (st_all_files_by_type st) (walk_files it) in
  let info := make_folder_info it depth fl in
  {| st_subfolders := accumulate_into (st_subfolders st) current_subfolder info;
     st_all_folders := st_all_folders st ++ [info];
     st_all_files_by_type := fl_all_files_by_type fl;
     st_total_folders := total_folders;
     st_total_files := total_files |}.

Definition initial_state (human_subfolders : list string) : scan_state :=
  {| st_subfolders := init_subfolders human_subfolders;
     st_all_folders := [];
     st_all_files_by_type := [];
     st_total_folders := 0;
     st_total_files := 0 |}.

(** "Overview stats" *)
Definition make_overview (human_subfolders : list string) (st : scan_state) : overview :=
  {| ov_total_folders := st_total_folders st;
     ov_total_files := st_total_files st;
     ov_main_subfolders := len human_subfolders;
     ov_total_dicom := sumZ (map dicom_files (st_all_folders st));
     ov_total_dat := sumZ (map dat_files (st_all_folders st));
     ov_total_nifti := sumZ (map nifti_files (st_all_folders st));
     ov_max_depth := max_or 0 (map depth (st_all_folders st)) |}.

(** The scan, once the main subfolders are listed: the walk loop and the
    overview. *)
Definition scan_items (human_subfolders : list string) (items : list walk_item)
  : human_data :=
  let st := fold_left visit items (initial_state human_subfolders) in
  {| hd_overview := make_overview human_subfolders st;
     hd_subfolders := st_subfolders st;
     hd_all_folders := st_all_folders st;
     hd_all_files_by_type := st_all_files_by_type st |}.

End Scan.

(* ================================================================= *)
(** ** Console and files

    The program prints and writes one workbook.  The lines that report an
    error and the writing of the workbook are recorded as events; the lines
    that only report progress are left out.

    The workbook is recorded as what the program hands to its writer: the
    [to_excel] calls in order, each with the sheet name it passes and its
    table.  The sheets of the resulting file are the work of pandas and
    openpyxl, which lies outside this development: a call under a name that
    the workbook already holds writes into that sheet, and a new name that
    differs from an old one only by case is renamed by the writer.  Nothing
    here says what the file holds when two calls pass names that collide. *)

Record overview_row : Type := {
  Category : string;
  Total_Folders : Z;
  Total_Files : Z;
  DICOM_Files : Z;
  DAT_Files : Z;
  NIFTI_Files : Z;
  Main_Subfolders : Z;
  Max_Depth : Z
}.

Record subfolder_row : Type := {
  Relative_Path : string;
  Level_1 : string;
  Level_2 : string;
  Level_3 : string;
  Level_4 : string;
  Deeper : string;
  Depth : Z;
  Direct_Subfolders : Z;
  Row_Total_Files : Z;
  DICOM : Z;
  DAT : Z;
  NIFTI : Z;
  File_Types : string;
  Subfolder_Names : string;
  Subject_Status : string
}.

(** The columns kept for the sheet [All_Folders]. *)
Record all_folders_row : Type := {
  af_path : string;
  af_depth : Z;
  af_num_subfolders : Z;
  af_num_files : Z;
  af_dicom_files : Z;
  af_dat_files : Z;
  af_nifti_files : Z
}.

Inductive sheet : Type :=
| OverviewSheet (rows : list overview_row)
| FileTypesSheet (rows : list (string * Z))
| SubfolderSheet (rows : list subfolder_row)
| AllFoldersSheet (rows : list all_folders_row).

(** The [to_excel] calls made on one writer: sheet name passed and table. *)
Definition workbook : Type := list (string * sheet).

Inductive event : Type :=
| Printed (line : string)
| Saved (file : string) (wb : workbook).

(** A computation that emits events and returns a value. *)
Definition IO (A : Type) : Type := list event * A.

Definition ret {A : Type} (a : A) : IO A := ([], a).

Definition bind {A B : Type} (m : IO A) (k : A -> IO B) : IO B :=
  let '(out1, a) := m in
  let '(out2, b) := k a in
  (out1 ++ out2, b).

Definition print (line : string) : IO unit := ([Printed line], tt).

Definition write_workbook (file : string) (wb : workbook) : IO unit :=
  ([Saved file wb], tt).

Notation "x <- m ;; k" := (bind m (fun x => k))
  (at level 61, m at next level, right associativity).
Notation "m ;; k" := (bind m (fun _ => k))
  (at level 61, right associativity).

Definition events {A : Type} (m : IO A) : list event := fst m.
Definition result {A : Type} (m : IO A) : A := snd m.

(** the workbooks written, in order *)
Definition saved_workbooks (out : list event) : list (string * workbook) :=
  flat_map (fun e => match e with
                     | Saved file wb => [(file, wb)]
                     | Printed _ => []
                     end) out.

(* ================================================================= *)
(** ** The sheets *)

(** [create_overview_sheet]: the overview rows and the top 20 file types *)
Definition overview_row_of_subfolder (entry : string * sf_data) : overview_row :=
  let '(subfolder_name, sf) := entry in
  {| Category := subfolder_name;
     Total_Folders := sf_total_folders sf;
     Total_Files := sf_total_files sf;
     DICOM_Files := sf_dicom_files sf;
     DAT_Files := sf_dat_files sf;
     NIFTI_Files := sumZ (map nifti_files (sf_folder_details sf));
     Main_Subfolders :=
       match sf_folder_details sf with
       | first :: _ => num_subfolders first
       | [] => 0
       end;
     Max_Depth := max_or 0 (Dict.keys (sf_depth_counts sf)) |}.

Definition create_overview_sheet (data : human_data)
  : list overview_row * list (string * Z) :=
  let ov := hd_overview data in
  let overview_data :=
    {| Category := "HUMAN FOLDER TOTAL";
       Total_Folders := ov_total_folders ov;
       Total_Files := ov_total_files ov;
       DICOM_Files := ov_total_dicom ov;
       DAT_Files := ov_total_dat ov;
       NIFTI_Files := ov_total_nifti ov;
       Main_Subfolders := ov_main_subfolders ov;
       Max_Depth := ov_max_depth ov |}
    :: map overview_row_of_subfolder (hd_subfolders data) in
  (overview_data, most_common 20 (hd_all_files_by_type data)).

(** The order of [sort_values] on a depth column, then a path column. *)
Definition depth_path_leb (d1 : Z) (p1 : string) (d2 : Z) (p2 : string) : bool :=
  (d1 <? d2) || ((d1 =? d2) && String.leb p1 p2).

Definition subfolder_row_leb (r1 r2 : subfolder_row) : bool :=
  depth_path_leb (Depth r1) (Relative_Path r1) (Depth r2) (Relative_Path r2).

Definition all_folders_row_leb (r1 r2 : all_folders_row) : bool :=
  depth_path_leb (af_depth r1) (af_path r1) (af_depth r2) (af_path r2).

Section Sheets.
Variable sep : ascii.

(** The path parts of a folder of the main subfolder [subfolder_name]. *)
Definition parts_of (subfolder_name : string) (folder : folder_info) : list string :=
  if (path folder =? subfolder_name)%string then [subfolder_name]
  else split sep (path folder).

(** [parts[1] if len(parts) > 1 else ''], and so on *)
Definition part (parts : list string) (i : nat) : string := nth i parts EmptyString.

(** One iteration of the first loop of [create_subfolder_sheet]:
    [subject_ext_counts] is a [defaultdict(Counter)], whose entry for a
    subject appears when a count is first added to it. *)
Definition add_subject_counts (subfolder_name : string)
  (subject_ext_counts : list (string * Counter string)) (folder : folder_info)
  : list (string * Counter string) :=
  let subject := part (parts_of subfolder_name folder) 1 in
  if (subject =? EmptyString)%string then subject_ext_counts
  else
    fold_left
      (fun acc ext_c =>
         let cnts := match Dict.get acc subject with
                     | Some cnts => cnts
                     | None => []
                     end in
         Dict.set acc subject (add_count cnts (fst ext_c) (snd ext_c)))
      (file_types folder) subject_ext_counts.

Definition subject_ext_counts_of (subfolder_name : string)
  (folder_details : list folder_info) : list (string * Counter string) :=
  fold_left (add_subject_counts subfolder_name) folder_details [].

(** "Decide status for each subject" *)
Definition status_of_counter (cnts : Counter string) : string :=
  subject_status_of_counts (count cnts ".mat") (count cnts ".dat") (count cnts ".ima").

Definition subject_status_of (subject_ext_counts : list (string * Counter string))
  : list (string * string) :=
  fold_left
    (fun subject_status subj_cnts =>
       Dict.set subject_status (fst subj_cnts) (status_of_counter (snd subj_cnts)))
    subject_ext_counts [].

(** [f"{ext}({count})"] *)
Definition format_ext_count (ext_count : string * Z) : string :=
  (fst ext_count ++ "(" ++ str_of_Z (snd ext_count) ++ ")")%string.

(** One row of the table of a main subfolder. *)
Definition subfolder_row_of (subfolder_name : string)
  (subject_status : list (string * string)) (folder : folder_info) : subfolder_row :=
  let path_parts := parts_of subfolder_name folder in
  let subj := part path_parts 1 in
  let status :=
    if (subj =? EmptyString)%string then EmptyString
    else match Dict.get subject_status subj with
         | Some s => s
         | None => EmptyString
         end in
  {| Relative_Path := path folder;
     Level_1 := part path_parts 0;
     Level_2 := part path_parts 1;
     Level_3 := part path_parts 2;
     Level_4 := part path_parts 3;
     Deeper := join (String sep EmptyString) (skipn 4 path_parts);
     Depth := depth folder;
     Direct_Subfolders := num_subfolders folder;
     Row_Total_Files := num_files folder;
     DICOM := dicom_files folder;
     DAT := dat_files folder;
     NIFTI := nifti_files folder;
     File_Types :=
       join ", " (map format_ext_count
                    (firstn 5 (sorted_by_count_desc (file_types folder))));
     Subfolder_Names := join ", " (firstn 5 (subfolder_names folder));
     Subject_Status := status |}.

(** [create_subfolder_sheet]; an empty [DataFrame] is an empty list of rows. *)
Definition create_subfolder_sheet (subfolder_name : string) (sf : sf_data)
  : list subfolder_row :=
  match sf_folder_details sf with
  | [] => []
  | _ =>
      let subject_status :=
        subject_status_of (subject_ext_counts_of subfolder_name (sf_folder_details sf)) in
      stable_sort subfolder_row_leb
        (map (subfolder_row_of subfolder_name subject_status) (sf_folder_details sf))
  end.

(** The rows of the sheet [All_Folders]. *)
Definition all_folders_row_of (f : folder_info) : all_folders_row :=
  {| af_path := path f;
     af_depth := depth f;
     af_num_subfolders := num_subfolders f;
     af_num_files := num_files f;
     af_dicom_files := dicom_files f;
     af_dat_files := dat_files f;
     af_nifti_files := nifti_files f |}.

Definition all_folders_sheet (data : human_data) : list all_folders_row :=
  stable_sort all_folders_row_leb (map all_folders_row_of (hd_all_folders data)).

(** the backslash character *)
Definition backslash : ascii := ascii_of_nat 92.

(** [re.sub(...)[:31]] with the character class of backslash, slash, star,
    question mark, colon and the two square brackets *)
Definition sanitize_char (c : ascii) : ascii :=
  if existsb (Ascii.eqb c) [backslash; "/"; "*"; "?"; ":"; "["; "]"]%char
  then "_"%char else c.

Fixpoint sanitize (s : string) : string :=
  match s with
  | EmptyString => EmptyString
  | String c t => String (sanitize_char c) (sanitize t)
  end.

Definition sheet_name_of (subfolder_name : string) : string :=
  take 31 (sanitize subfolder_name).

(** The body of [with pd.ExcelWriter(...) as writer]: the [to_excel] calls
    that it makes, in order.  [sheet_count] is incremented once after each. *)
Definition to_excel_calls (data : human_data) : workbook :=
  let '(df_overview, df_file_types) := create_overview_sheet data in
  [("Overview", OverviewSheet df_overview);
   ("File_Types", FileTypesSheet df_file_types)]
  ++ flat_map
       (fun entry =>
          let df_subfolder := create_subfolder_sheet (fst entry) (snd entry) in
          match df_subfolder with
          | [] => []
          | _ => [(sheet_name_of (fst entry), SubfolderSheet df_subfolder)]
          end)
       (hd_subfolders data)
  ++ match hd_all_folders data with
     | [] => []
     | _ => [("All_Folders", AllFoldersSheet (all_folders_sheet data))]
     end.

End Sheets.

(* ================================================================= *)
(** ** The run *)

Section Run.
Variable sep : ascii.
(** the value of [_timestamp()] at the time of the run *)
Variable timestamp : string.

(** [scan_human_folder_complete(human_root)] on the tree [fs] found at
    [human_root]; [None] is the [return None] of the [except] branch. *)
Definition scan_human_folder_complete (human_root : string) (fs : Dir)
  : IO (option human_data) :=
  match listdir_dirs fs with
  | inl e =>
      print ("Error reading Human folder: " ++ e) ;;
      ret None
  | inr human_subfolders =>
      ret (Some (scan_items sep human_root human_subfolders
                   (os_walk sep human_root [] fs)))
  end.

(** [save_human_analysis_excel] *)
Definition save_human_analysis_excel (data : human_data) (output_folder : string)
  : IO string :=
  let output_file :=
    os_path_join sep output_folder
      ("Human_Detailed_Analysis_" ++ timestamp ++ ".xlsx") in
  write_workbook output_file (to_excel_calls sep data) ;;
  ret output_file.

(** [main(human_root, output_folder)]; [fs] is what the file system holds at
    [human_root], [None] when [os.path.exists] is false. *)
Definition main (human_root output_folder : string) (fs : option Dir)
  : IO (option string) :=
  match fs with
  | None =>
      print ("ERROR: Human folder not found at: " ++ human_root) ;;
      ret None
  | Some d =>
      data <- scan_human_folder_complete human_root d ;;
      match data with
      | None =>
          print "ERROR: Failed to scan Human folder" ;;
          ret None
      | Some human_data =>
          excel_file <- save_human_analysis_excel human_data output_folder ;;
          ret (Some excel_file)
      end
  end.

End Run.

(* ================================================================= *)
(** ** Notions used to state the properties *)

(** [len([x for x in xs if p(x)])] *)
Definition count_where {A : Type} (p : A -> bool) (xs : list A) : Z :=
  len (filter p xs).

(** the test [ext in ('.dcm', '.ima')] *)
Definition is_dicom_ext (ext : string) : bool :=
  ((ext =? ".dcm")%string || (ext =? ".ima")%string)%bool.

(** The keys of a sequence in the order in which each is first met. *)
Definition add_seen {K : Type} `{PyKey K} (seen : list K) (k : K) : list K :=
  if existsb (key_eqb k) seen then seen else seen ++ [k].

Definition first_seen {K : Type} `{PyKey K} (ks : list K) : list K :=
  fold_left add_seen ks [].

(** The total that the pairs of a sequence give to the key [k]. *)
Definition weight {K : Type} `{PyKey K} (k : K) (items : list (K * Z)) : Z :=
  sumZ (map snd (filter (fun kn => key_eqb (fst kn) k) items)).

(** The counter of a subject, empty when the subject has no entry. *)
Definition counter_of (d : list (string * Counter string)) (subject : string)
  : Counter string :=
  match Dict.get d subject with
  | Some cnts => cnts
  | None => []
  end.

(** The sum of a field over the main subfolders. *)
Definition sum_subfolders (f : sf_data -> Z) (subfolders : list (string * sf_data)) : Z :=
  sumZ (map (fun entry => f (snd entry)) subfolders).

(** The pairs that the files of one directory add to a counter. *)
Definition ext_items (files : list string) : list (string * Z) :=
  map (fun file => (file_ext file, 1)) files.

(** The segments of the directories that [os_walk] visits, in its order. *)
Fixpoint walk_segments (segs : list string) (d : Dir) : list (list string) :=
  match d with
  | Unlisted _ _ => []
  | Folder _ _ subdirs =>
      segs :: flat_map (fun c => walk_segments (segs ++ [dir_name c]) c) subdirs
  end.

(** A measure on records that [accumulate] adds to a measure on main
    subfolders. *)
Definition additive (f : sf_data -> Z) (m : folder_info -> Z) : Prop :=
  forall sf info, f (accumulate sf info) = f sf + m info.

Section ScanNotions.
Variable sep : ascii.

(** The record of a walk item, which depends on the item alone. *)
Definition folder_info_of (it : walk_item) : folder_info :=
  make_folder_info it
    (snd (subfolder_and_depth sep (walk_rel_path it)))
    (count_files [] (walk_files it)).

(** The main subfolder that the first path segment of an item names. *)
Definition group_of (it : walk_item) : option string :=
  fst (subfolder_and_depth sep (walk_rel_path it)).

(** The item is accumulated into the main subfolder [name]. *)
Definition in_group (name : string) (it : walk_item) : bool :=
  match group_of it with
  | Some g => (negb (g =? EmptyString)%string && (g =? name)%string)%bool
  | None => false
  end.

(** The item is accumulated into one of the subfolders of [subfolders]. *)
Definition attributed (subfolders : list (string * sf_data)) (it : walk_item) : bool :=
  match group_of it with
  | Some g => (negb (g =? EmptyString)%string && Dict.mem subfolders g)%bool
  | None => false
  end.

(** What one walk item does to the main subfolders. *)
Definition assign (subfolders : list (string * sf_data)) (it : walk_item)
  : list (string * sf_data) :=
  accumulate_into subfolders (group_of it) (folder_info_of it).

(** The subject of a folder of the main subfolder [subfolder_name]. *)
Definition subject_of (subfolder_name : string) (folder : folder_info) : string :=
  part (parts_of sep subfolder_name folder) 1.

(** A name that a directory can bear: not empty, not [.], free of the
    separator. *)
Definition valid_name (name : string) : bool :=
  (negb (name =? EmptyString)%string && negb (name =? ".")%string
   && negb (contains sep name))%bool.

(** [x] occurs in [xs] *)
Definition str_mem (x : string) (xs : list string) : bool :=
  existsb (String.eqb x) xs.

Fixpoint distinct (xs : list string) : bool :=
  match xs with
  | [] => true
  | x :: r => (negb (str_mem x r) && distinct r)%bool
  end.

(** A tree as a file system holds it: valid names, distinct among the
    entries of one directory. *)
Fixpoint well_formed (d : Dir) : bool :=
  match d with
  | Unlisted name _ => valid_name name
  | Folder name _ subdirs =>
      (valid_name name && distinct (map dir_name subdirs)
       && forallb well_formed subdirs)%bool
  end.

(** The same for the tree at the root, whose own name plays no part. *)
Definition well_formed_root (d : Dir) : bool :=
  match d with
  | Unlisted _ _ => true
  | Folder _ _ subdirs =>
      (distinct (map dir_name subdirs) && forallb well_formed subdirs)%bool
  end.

End ScanNotions.

(** The relative path and the status of each row of the table of the main
    subfolder [g], for the run on the tree [fs]. *)
Definition subject_statuses (sep : ascii) (human_root : string) (fs : Dir) (g : string)
  : list (string * string) :=
  match listdir_dirs fs with
  | inl _ => []
  | inr human_subfolders =>
      let data := scan_items sep human_root human_subfolders
                    (os_walk sep human_root [] fs) in
      match Dict.get (hd_subfolders data) g with
      | Some sf =>
          map (fun r => (Relative_Path r, Subject_Status r))
            (create_subfolder_sheet sep g sf)
      | None => []
      end
  end.

(* ================================================================= *)
(** ** Concrete inputs *)

(** A subject whose only file bears [.mat] before its last extension. *)
Definition tree_mat_gz : Dir :=
  Folder "Human" [] [Folder "A" [] [Folder "S1" ["a.mat.gz"] []]].

(** A root that holds a file of its own and one main subfolder. *)
Definition tree_with_root_file : Dir :=
  Folder "Human" ["r.dat"] [Folder "A" ["a.dcm"] []].

(** Two main subfolders with one subject each, and an entry that the walk
    does not enter. *)
Definition tree_two_groups : Dir :=
  Folder "Human" []
    [Folder "A" [] [Folder "S1" ["x.dat"; "y.mat"] []];
     Folder "B" [] [Folder "S2" [] [Folder "T" ["a.ima"; "b.IMA"] []]];
     Unlisted "L" "Permission denied"].

(** Walk items: two directories of the main subfolder [A], and one below
    a directory [B] that is not a main subfolder. *)
Definition item_A : walk_item :=
  {| walk_root := "/data/Human/A"; walk_rel_path := "A";
     walk_dirs := ["S1"]; walk_files := ["a.dat"; "b.nii.gz"] |}.

Definition item_A_S1 : walk_item :=
  {| walk_root := "/data/Human/A/S1"; walk_rel_path := "A/S1";
     walk_dirs := []; walk_files := ["c.mat"] |}.

Definition item_B_x : walk_item :=
  {| walk_root := "/data/Human/B/x"; walk_rel_path := "B/x";
     walk_dirs := []; walk_files := ["f.dat"] |}.

(** The extension counts of the scan of [item_A] and [item_A_S1], as
    another run could have met them. *)
Definition counts_other_order : Counter string :=
  [(".mat", 1); (".dat", 1); (".gz", 1)].

(* ================================================================= *)
(** ** Further notions: files, trees and workbooks *)

(** The part of a string from its last dot, empty when it has none. *)
Definition last_dot_suffix (s : string) : string :=
  match rfind dot s with
  | Some i => drop i s
  | None => EmptyString
  end.

(** The key of a file in the words of the specification: its final
    dot-suffix in lower case, empty for a name without a dot. *)
Definition final_dot_suffix_lowercased (file : string) : string :=
  lower (last_dot_suffix file).

(** The files of the directories that [os_walk] enters, in its order. *)
Fixpoint tree_files (d : Dir) : list string :=
  match d with
  | Unlisted _ _ => []
  | Folder _ files subdirs => files ++ flat_map tree_files subdirs
  end.

(** The number of directories that [os_walk] enters. *)
Fixpoint entered_dirs (d : Dir) : Z :=
  match d with
  | Unlisted _ _ => 0
  | Folder _ _ subdirs => 1 + sumZ (map entered_dirs subdirs)
  end.






(** The characters that a sheet name must not hold. *)
Definition forbidden_in_sheet_name : list ascii :=
  [backslash; "/"; "*"; "?"; ":"; "["; "]"]%char.

(** The files of the directories of the subject [s] of the main subfolder
    [g], among the items of a walk. *)
Definition subject_files (sep : ascii) (g s : string) (items : list walk_item)
  : list string :=
  flat_map walk_files
    (filter (fun it =>
               (in_group sep g it
                && (subject_of sep g (folder_info_of sep it) =? s)%string)%bool)
       items).

(** The status of a subject read off its files: [Processed] when a file
    has the extension [.mat]; else [Not Processed] when a file has the
    extension [.dat] or [.ima]; else [Unknown], or empty without any file. *)
Definition status_of_files (files : list string) : string :=
  if existsb (fun f => (file_ext f =? ".mat")%string) files then "Processed"
  else if existsb (fun f => ((file_ext f =? ".dat")%string
                             || (file_ext f =? ".ima")%string)%bool) files
       then "Not Processed"
       else match files with
            | [] => EmptyString
            | _ => "Unknown"
            end.

(** The number of directories that a directory holds, as [os_walk] reports
    them; none for an entry that is not entered. *)
Definition direct_subdirs (d : Dir) : Z :=
  match d with
  | Unlisted _ _ => 0
  | Folder _ _ subdirs => len subdirs
  end.

(** The number of levels of entered directories, from [d] downwards. *)
Fixpoint levels (d : Dir) : Z :=
  match d with
  | Unlisted _ _ => 0
  | Folder _ _ subdirs => 1 + max_or 0 (map levels subdirs)
  end.

(** The overview row of a tree, read off the tree itself. *)
Definition overview_row_of_tree (category : string) (d : Dir)
  (main_subfolders max_depth : Z) : overview_row :=
  {| Category := category;
     Total_Folders := entered_dirs d;
     Total_Files := len (tree_files d);
     DICOM_Files := count_where (fun f => is_dicom_ext (file_ext f)) (tree_files d);
     DAT_Files := count_where (fun f => (file_ext f =? ".dat")%string) (tree_files d);
     NIFTI_Files := count_where is_nifti_filename (tree_files d);
     Main_Subfolders := main_subfolders;
     Max_Depth := max_depth |}.

(* ================================================================= *)
(** * Properties *)

(* ================================================================= *)
(** ** Strings *)

Section StringFacts.
Import PyStr OsPath.

Lemma append_empty_r (s : string) : (s ++ EmptyString)%string = s.
Proof. induction s as [|a s IH]; simpl; [reflexivity | now rewrite IH]. Qed.

Lemma endswith_iff (s suf : string) :
  endswith s suf = true <-> exists p, s = (p ++ suf)%string.
Proof.
  induction s as [|a s IH]; cbn [endswith].
  - rewrite orb_false_r. split.
    + intros E. apply String.eqb_eq in E. subst suf. now exists EmptyString.
    + intros [p E]. destruct p; simpl in E; [|discriminate].
      subst suf. reflexivity.
  - rewrite orb_true_iff, IH. split.
    + intros [E | [p E]].
      * apply String.eqb_eq in E. subst suf. now exists EmptyString.
      * exists (String a p). simpl. now rewrite E.
    + intros [p E]. destruct p as [|b p]; simpl in E.
      * left. subst suf. apply String.eqb_refl.
      * right. injection E as _ E. now exists p.
Qed.

Lemma last_char_append (p : string) (a : ascii) (t : string) :
  last_char (p ++ String a t) = last_char (String a t).
Proof.
  induction p as [|b p IH]; [reflexivity|].
  change (String b p ++ String a t)%string with (String b (p ++ String a t)).
  destruct p; simpl in *; exact IH.
Qed.

Lemma endswith_last_char (s : string) (a : ascii) (t : string) :
  endswith s (String a t) = true -> last_char s = last_char (String a t).
Proof.
  intros E. apply endswith_iff in E as [p ->]. apply last_char_append.
Qed.

Lemma last_char_lower (s : string) :
  last_char (lower s) = option_map lower_char (last_char s).
Proof.
  induction s as [|a s IH]; [reflexivity|].
  destruct s as [|b s]; [reflexivity|]. exact IH.
Qed.

Lemma last_char_lstrip (c : ascii) (s : string) :
  lstrip c s = EmptyString \/ last_char (lstrip c s) = last_char s.
Proof.
  induction s as [|a s IH]; simpl; [now left|].
  destruct (Ascii.eqb a c); [|now right].
  destruct IH as [E | E]; [now left|].
  destruct s; [now left|]. right. rewrite E. reflexivity.
Qed.

Lemma last_char_from_first_dot (s : string) :
  from_first_dot s = EmptyString \/ last_char (from_first_dot s) = last_char s.
Proof.
  induction s as [|a s IH]; [now left|].
  cbn [from_first_dot]. destruct (Ascii.eqb a dot); [now right|].
  destruct IH as [E | E]; [now left|].
  destruct s; [now left|]. right. rewrite E. reflexivity.
Qed.

Lemma concat_empty_cons (x : string) (l : list string) :
  String.concat EmptyString (x :: l) = (x ++ String.concat EmptyString l)%string.
Proof.
  destruct l as [|y l]; simpl; [now rewrite append_empty_r | reflexivity].
Qed.

Lemma split_nonempty (c : ascii) (s : string) : split c s <> [].
Proof.
  destruct s as [|a s]; simpl; [discriminate|].
  destruct (Ascii.eqb a c); [discriminate|].
  destruct (split c s); discriminate.
Qed.

Lemma join_dotted_split (t : string) :
  join EmptyString (map (fun x => String.append "." x) (split dot t)) = String dot t.
Proof.
  unfold join. induction t as [|a t IH]; [reflexivity|].
  cbn [split]. destruct (Ascii.eqb_spec a dot) as [-> | Hne].
  - cbn [map]. rewrite concat_empty_cons, IH. reflexivity.
  - destruct (split dot t) as [|h r] eqn:E; [now apply split_nonempty in E|].
    cbn [map] in *. rewrite concat_empty_cons in *.
    simpl in *. injection IH as IH. now rewrite IH.
Qed.

Lemma join_suffixes_from_first_dot (s : string) :
  join EmptyString (map (fun x => String.append "." x) (tl (split dot s)))
  = from_first_dot s.
Proof.
  induction s as [|a s IH]; [reflexivity|].
  cbn [split from_first_dot]. destruct (Ascii.eqb_spec a dot) as [-> | Hne].
  - cbn [tl]. apply join_dotted_split.
  - destruct (split dot s) as [|h r] eqn:E; [now apply split_nonempty in E|].
    exact IH.
Qed.

(** [rfind] cuts a string at its last occurrence of the character. *)
Lemma rfind_none_contains (c : ascii) (s : string) :
  rfind c s = None <-> contains c s = false.
Proof.
  induction s as [|a s IH]; simpl; [tauto|].
  destruct (rfind c s) as [i|].
  - split; [discriminate|]. intros E. apply orb_false_iff in E as [_ E].
    apply IH in E. discriminate.
  - destruct (Ascii.eqb a c); simpl; [split; discriminate|]. tauto.
Qed.

Lemma rfind_some (c : ascii) (s : string) (i : nat) :
  rfind c s = Some i ->
  s = (take i s ++ drop i s)%string /\
  exists r, drop i s = String c r /\ contains c r = false.
Proof.
  revert i. induction s as [|a s IH]; intros i; simpl; [discriminate|].
  destruct (rfind c s) as [j|] eqn:E.
  - intros [= <-]. destruct (IH j eq_refl) as [E1 E2]. simpl. split; [|exact E2].
    now rewrite <- E1.
  - destruct (Ascii.eqb_spec a c) as [-> | Hne]; [|discriminate].
    intros [= <-]. simpl. split; [reflexivity|].
    exists s. split; [reflexivity|]. now apply rfind_none_contains.
Qed.

(** The extension is [EmptyString], or the last dot and what follows it. *)
Lemma splitext_parts (p : string) :
  p = (fst (splitext p) ++ snd (splitext p))%string /\
  (snd (splitext p) = EmptyString \/
   exists r, snd (splitext p) = String dot r /\ contains dot r = false).
Proof.
  unfold splitext. destruct (rfind dot p) as [i|] eqn:E.
  - destruct (rfind_some _ _ _ E) as [E1 E2].
    destruct (all_char dot (take i p)); simpl.
    + rewrite append_empty_r. now split; [|left].
    + split; [exact E1 | now right].
  - simpl. rewrite append_empty_r. now split; [|left].
Qed.

Lemma splitext_dot_cons (t : string) :
  snd (splitext (String dot t)) = snd (splitext t).
Proof.
  unfold splitext. simpl. destruct (rfind dot t) as [i|]; [|reflexivity].
  simpl. destruct (all_char dot (take i t)); reflexivity.
Qed.

Lemma splitext_lstrip (p : string) :
  snd (splitext p) = snd (splitext (lstrip dot p)).
Proof.
  induction p as [|a p IH]; [reflexivity|].
  simpl. destruct (Ascii.eqb_spec a dot) as [-> | Hne]; [|reflexivity].
  rewrite <- IH. apply splitext_dot_cons.
Qed.

Lemma splitext_no_dot (p : string) :
  contains dot p = false -> snd (splitext p) = EmptyString.
Proof.
  intros E. apply rfind_none_contains in E. unfold splitext. now rewrite E.
Qed.

Lemma from_first_dot_no_dot (s : string) :
  contains dot s = false -> from_first_dot s = EmptyString.
Proof.
  induction s as [|a s IH]; [reflexivity|]. simpl.
  destruct (Ascii.eqb a dot); simpl; [discriminate | exact IH].
Qed.

Lemma splitext_empty_no_suffix (p : string) :
  snd (splitext p) = EmptyString -> compound_suffix p = EmptyString.
Proof.
  unfold compound_suffix. rewrite splitext_lstrip.
  assert (Hhead : forall a t, lstrip dot p = String a t -> a <> dot).
  { clear. induction p as [|b p IH]; simpl; [discriminate|].
    destruct (Ascii.eqb_spec b dot) as [-> | Hne]; [exact IH|].
    now intros a t [= <- _]. }
  destruct (lstrip dot p) as [|a t]; [reflexivity|].
  specialize (Hhead a t eq_refl). intros E.
  cbn [from_first_dot]. destruct (Ascii.eqb_spec a dot) as [-> | _]; [easy|].
  apply from_first_dot_no_dot. apply rfind_none_contains.
  unfold splitext in E. simpl in E.
  destruct (rfind dot t) as [i|] eqn:Et; [|reflexivity].
  exfalso. simpl in E.
  destruct (Ascii.eqb_spec a dot) as [-> | _]; [easy|]. simpl in E.
  destruct (rfind_some _ _ _ Et) as [_ [r [Er _]]]. rewrite Er in E. discriminate.
Qed.

End StringFacts.

(* ================================================================= *)
(** ** The classifiers *)

Section ClassifierFacts.
Import PyStr OsPath.

Lemma suffixes_compound (fname : string) :
  endswith fname "." = false ->
  join EmptyString (suffixes fname) = compound_suffix fname.
Proof.
  intros E. unfold suffixes, compound_suffix. rewrite E.
  apply join_suffixes_from_first_dot.
Qed.

Lemma last_char_compound_suffix (fname : string) :
  compound_suffix fname = EmptyString \/
  last_char (compound_suffix fname) = last_char fname.
Proof.
  unfold compound_suffix.
  destruct (last_char_from_first_dot (lstrip dot fname)) as [E | E]; [now left|].
  destruct (last_char_lstrip dot fname) as [E' | E'].
  - left. now rewrite E'.
  - right. congruence.
Qed.

Lemma last_char_cons (c : ascii) (t : string) : last_char (String c t) <> None.
Proof.
  revert c. induction t as [|b t IH]; intros c; [discriminate|]. exact (IH b).
Qed.

Lemma trailing_dot_not_nifti (s : string) (c : ascii) (t : string) :
  (s = EmptyString \/ last_char s = Some dot) ->
  last_char (String c t) <> Some dot ->
  lower_char dot = dot ->
  endswith (lower s) (String c t) = false.
Proof.
  intros Hs Hsuf Hdot. destruct (endswith (lower s) (String c t)) eqn:E; [|reflexivity].
  apply endswith_last_char in E. rewrite last_char_lower in E.
  destruct Hs as [-> | Hs]; [symmetry in E; now apply last_char_cons in E|].
  rewrite Hs in E. simpl option_map in E. rewrite Hdot in E. congruence.
Qed.

(** C3: [is_nifti_filename] is a total function of the file name that is
    true exactly when the lowercased concatenation of the name's suffixes
    ends with [.nii] or [.nii.gz], both for the suffixes as [pathlib]
    computes them and for the compound suffix read off the name directly
    (everything from the first dot after the leading dots); it accepts
    [x.nii], [x.NII.GZ] and [x.nii.gz], rejects [x.gz] and [x.niix], and
    rejects every name that has no extension. *)
Theorem is_nifti_filename_spec (fname : string) :
  (is_nifti_filename fname = true <->
     endswith (lower (join EmptyString (suffixes fname))) ".nii" = true \/
     endswith (lower (join EmptyString (suffixes fname))) ".nii.gz" = true) /\
  is_nifti_filename fname
  = (endswith (lower (compound_suffix fname)) ".nii"
     || endswith (lower (compound_suffix fname)) ".nii.gz") /\
  (snd (splitext fname) = EmptyString -> is_nifti_filename fname = false) /\
  (contains dot fname = false -> is_nifti_filename fname = false) /\
  is_nifti_filename "x.nii" = true /\
  is_nifti_filename "x.NII.GZ" = true /\
  is_nifti_filename "x.nii.gz" = true /\
  is_nifti_filename "x.gz" = false /\
  is_nifti_filename "x.niix" = false.
Proof.
  assert (Hc : is_nifti_filename fname
               = (endswith (lower (compound_suffix fname)) ".nii"
                  || endswith (lower (compound_suffix fname)) ".nii.gz")).
  { unfold is_nifti_filename. destruct (endswith fname ".") eqn:E.
    - unfold suffixes. rewrite E. cbn [join String.concat lower].
      assert (Hs : compound_suffix fname = EmptyString \/
                   last_char (compound_suffix fname) = Some dot).
      { destruct (last_char_compound_suffix fname) as [H | H]; [now left|].
        right. rewrite H. now apply endswith_last_char in E. }
      rewrite !(trailing_dot_not_nifti _ _ _ Hs); reflexivity || discriminate.
    - now rewrite suffixes_compound. }
  assert (He : snd (splitext fname) = EmptyString -> is_nifti_filename fname = false).
  { intros E. rewrite Hc, (splitext_empty_no_suffix _ E). reflexivity. }
  split; [|split; [exact Hc|split; [exact He|split]]].
  - unfold is_nifti_filename. cbv zeta. now rewrite orb_true_iff.
  - intros E. apply He. now apply splitext_no_dot.
  - repeat split; reflexivity.
Qed.

Lemma is_nifti_filename_spec_witness :
  snd (splitext "README") = EmptyString /\
  contains dot "README" = false /\
  is_nifti_filename "README" = false.
Proof.
  split; [reflexivity|]. split; [reflexivity|].
  exact (proj1 (proj2 (proj2 (is_nifti_filename_spec "README"))) eq_refl).
Defined.

(** C2: on non-negative counts the status of a subject is a total
    function of [(mat, dat, ima)]: it is [Processed] exactly when
    [mat > 0], whatever the other two counts are; [Not Processed] exactly
    when [mat = 0] and [dat > 0] or [ima > 0]; [Unknown] exactly when all
    three are zero; the three labels are distinct, so exactly one of
    them is produced. *)
Theorem subject_status_of_counts_spec (mat dat ima : Z) :
  0 <= mat -> 0 <= dat -> 0 <= ima ->
  (subject_status_of_counts mat dat ima = "Processed" <-> 0 < mat) /\
  (subject_status_of_counts mat dat ima = "Not Processed" <->
     mat = 0 /\ (0 < dat \/ 0 < ima)) /\
  (subject_status_of_counts mat dat ima = "Unknown" <->
     mat = 0 /\ dat = 0 /\ ima = 0) /\
  (forall dat' ima', 0 < mat ->
     subject_status_of_counts mat dat' ima' = "Processed") /\
  In (subject_status_of_counts mat dat ima) ["Processed"; "Not Processed"; "Unknown"] /\
  NoDup ["Processed"; "Not Processed"; "Unknown"].
Proof.
  intros Hm Hd Hi. unfold subject_status_of_counts.
  assert (Hnd : NoDup ["Processed"; "Not Processed"; "Unknown"]).
  { repeat constructor; simpl; intuition discriminate. }
  destruct (Z.ltb_spec 0 mat) as [H | H];
    destruct (Z.ltb_spec 0 (dat + ima)) as [H' | H'];
    (repeat split; try exact Hnd; intros;
     try discriminate; try reflexivity; try lia; try (simpl; tauto)).
Qed.

Lemma subject_status_of_counts_spec_witness :
  0 <= 0 /\ 0 <= 3 /\ 0 <= 0 /\
  subject_status_of_counts 0 3 0 = "Not Processed".
Proof.
  split; [lia|]. split; [lia|]. split; [lia|].
  apply (proj1 (proj2 (subject_status_of_counts_spec 0 3 0
                         ltac:(lia) ltac:(lia) ltac:(lia)))).
  split; [reflexivity | left; lia].
Defined.

End ClassifierFacts.

(* ================================================================= *)
(** ** Dictionaries and counters *)

Lemma sumZ_cons (x : Z) (a : list Z) : sumZ (x :: a) = x + sumZ a.
Proof. reflexivity. Qed.

Lemma len_cons {A : Type} (x : A) (a : list A) : len (x :: a) = 1 + len a.
Proof. unfold len. cbn [List.length]. lia. Qed.

Lemma sumZ_app (a b : list Z) : sumZ (a ++ b) = sumZ a + sumZ b.
Proof. induction a as [|x a IH]; simpl; lia. Qed.

Lemma sumZ_perm (a b : list Z) : Permutation a b -> sumZ a = sumZ b.
Proof. induction 1; simpl; lia. Qed.

Lemma len_app {A : Type} (a b : list A) : len (a ++ b) = len a + len b.
Proof. unfold len. rewrite length_app. lia. Qed.

Section DictFacts.
Context {K V : Type} `{PyKey K}.
Implicit Types (d : list (K * V)) (k : K) (v : V).

Lemma key_eqb_refl k : key_eqb k k = true.
Proof. now destruct (key_eqb_spec k k). Qed.

Lemma key_eqb_neq k k' : k <> k' -> key_eqb k k' = false.
Proof. intros. now destruct (key_eqb_spec k k'). Qed.

Lemma get_set_same d k v : Dict.get (Dict.set d k v) k = Some v.
Proof.
  induction d as [|[k' v'] d IH]; simpl.
  - now rewrite key_eqb_refl.
  - destruct (key_eqb k' k) eqn:E; simpl; now rewrite E.
Qed.

Lemma get_set_other d k k' v :
  k <> k' -> Dict.get (Dict.set d k v) k' = Dict.get d k'.
Proof.
  intros Hne. induction d as [|[k0 v0] d IH]; simpl.
  - now rewrite key_eqb_neq.
  - destruct (key_eqb_spec k0 k) as [-> | Hk]; simpl.
    + now rewrite key_eqb_neq.
    + now rewrite IH.
Qed.

Lemma get_set d k k' v :
  Dict.get (Dict.set d k v) k' = if key_eqb k k' then Some v else Dict.get d k'.
Proof.
  destruct (key_eqb_spec k k') as [<- | Hne].
  - apply get_set_same.
  - now apply get_set_other.
Qed.

Lemma get_none_keys d k : Dict.get d k = None <-> ~ In k (Dict.keys d).
Proof.
  induction d as [|[k' v'] d IH]; simpl; [tauto|].
  destruct (key_eqb_spec k' k) as [-> | Hne].
  - split; [discriminate | tauto].
  - rewrite IH. tauto.
Qed.

Lemma get_some_in d k v : Dict.get d k = Some v -> In (k, v) d.
Proof.
  induction d as [|[k' v'] d IH]; simpl; [discriminate|].
  destruct (key_eqb_spec k' k) as [-> | Hne].
  - intros [= ->]. now left.
  - intros E. right. now apply IH.
Qed.

Lemma mem_keys d k : Dict.mem d k = true <-> In k (Dict.keys d).
Proof.
  unfold Dict.mem. destruct (Dict.get d k) eqn:E.
  - split; [intros _ | reflexivity].
    apply get_some_in in E. now apply (in_map fst) in E.
  - apply get_none_keys in E. split; [discriminate | tauto].
Qed.

Lemma set_present d k v v0 :
  Dict.get d k = Some v0 -> Dict.keys (Dict.set d k v) = Dict.keys d.
Proof.
  induction d as [|[k' v'] d IH]; simpl; [discriminate|].
  destruct (key_eqb k' k); simpl; [reflexivity|].
  intros E. now rewrite IH.
Qed.

Lemma set_absent d k v : Dict.get d k = None -> Dict.set d k v = d ++ [(k, v)].
Proof.
  induction d as [|[k' v'] d IH]; simpl; [reflexivity|].
  destruct (key_eqb k' k); [discriminate|]. intros E. now rewrite IH.
Qed.

Lemma keys_set d k v :
  Dict.keys (Dict.set d k v) = if Dict.mem d k then Dict.keys d else Dict.keys d ++ [k].
Proof.
  unfold Dict.mem. destruct (Dict.get d k) eqn:E.
  - now apply set_present with (v0 := v0).
  - rewrite set_absent by assumption. unfold Dict.keys. now rewrite map_app.
Qed.

Lemma mem_set d k k' v :
  Dict.mem (Dict.set d k v) k' = (key_eqb k k' || Dict.mem d k')%bool.
Proof.
  unfold Dict.mem. rewrite get_set. now destruct (key_eqb k k').
Qed.

(** The sum of a measure over the values, when one value is replaced. *)
Lemma sum_set_present (f : V -> Z) d k v v0 :
  Dict.get d k = Some v0 ->
  sumZ (map (fun e => f (snd e)) (Dict.set d k v))
  = sumZ (map (fun e => f (snd e)) d) - f v0 + f v.
Proof.
  induction d as [|[k' v'] d IH]; simpl; [discriminate|].
  destruct (key_eqb k' k); simpl.
  - intros [= ->]. lia.
  - intros E. rewrite IH by assumption. lia.
Qed.

Lemma Forall_set (P : K * V -> Prop) d k v :
  Forall P d -> (forall k', P (k', v)) -> Forall P (Dict.set d k v).
Proof.
  intros Hd Hv. induction Hd as [|[k' v'] d Hx Hd IH]; simpl.
  - constructor; [apply Hv | constructor].
  - destruct (key_eqb k' k); constructor; auto.
Qed.

End DictFacts.

Section CounterFacts.
Context {K : Type} `{PyKey K}.
Implicit Types (c : Counter K) (k : K) (n : Z).

Lemma get_add_count c k n k' :
  Dict.get (add_count c k n) k'
  = if key_eqb k k' then Some (count c k + n) else Dict.get c k'.
Proof. unfold add_count. apply get_set. Qed.

Lemma count_add_count c k n k' :
  count (add_count c k n) k' = if key_eqb k k' then count c k + n else count c k'.
Proof. unfold count at 1. rewrite get_add_count. now destruct (key_eqb k k'). Qed.

Lemma mem_add_count c k n k' :
  Dict.mem (add_count c k n) k' = (key_eqb k k' || Dict.mem c k')%bool.
Proof. unfold add_count. apply mem_set. Qed.

Lemma keys_add_count c k n :
  Dict.keys (add_count c k n) = add_seen (Dict.keys c) k.
Proof.
  unfold add_count, add_seen. rewrite keys_set.
  replace (existsb (key_eqb k) (Dict.keys c)) with (Dict.mem c k); [reflexivity|].
  apply eq_true_iff_eq. rewrite mem_keys, existsb_exists. split.
  - intros Hin. exists k. split; [assumption | apply key_eqb_refl].
  - intros [x [Hin E]]. now destruct (key_eqb_spec k x) as [-> |].
Qed.

Lemma total_add_count c k n : total (add_count c k n) = total c + n.
Proof.
  unfold total, Dict.values, add_count, count.
  destruct (Dict.get c k) as [v0|] eqn:E.
  - transitivity (sumZ (map snd c) - v0 + (v0 + n)); [|lia].
    exact (sum_set_present (fun z => z) c k (v0 + n) v0 E).
  - rewrite set_absent by assumption. rewrite map_app, sumZ_app. simpl. lia.
Qed.

Lemma add_counts_app c (a b : list (K * Z)) :
  add_counts c (a ++ b) = add_counts (add_counts c a) b.
Proof. unfold add_counts. apply fold_left_app. Qed.

Lemma total_add_counts c (other : list (K * Z)) :
  total (add_counts c other) = total c + sumZ (map snd other).
Proof.
  revert c. induction other as [|[k n] o IH]; intros c; simpl; [lia|].
  change (add_counts c ((k, n) :: o)) with (add_counts (add_count c k n) o).
  rewrite IH, total_add_count. lia.
Qed.

Lemma count_add_counts c (other : list (K * Z)) k :
  count (add_counts c other) k = count c k + weight k other.
Proof.
  revert c. induction other as [|[k' n] o IH]; intros c.
  - unfold weight. simpl. lia.
  - change (add_counts c ((k', n) :: o)) with (add_counts (add_count c k' n) o).
    rewrite IH, count_add_count. unfold weight. simpl.
    destruct (key_eqb_spec k' k) as [-> | Hne]; simpl; lia.
Qed.

Lemma mem_add_counts c (other : list (K * Z)) k :
  Dict.mem (add_counts c other) k
  = (Dict.mem c k || existsb (fun kn => key_eqb (fst kn) k) other)%bool.
Proof.
  revert c. induction other as [|[k' n] o IH]; intros c.
  - simpl. now rewrite orb_false_r.
  - change (add_counts c ((k', n) :: o)) with (add_counts (add_count c k' n) o).
    rewrite IH, mem_add_count. simpl.
    destruct (key_eqb k' k), (Dict.mem c k); reflexivity.
Qed.

Lemma get_count_mem c k :
  Dict.get c k = if Dict.mem c k then Some (count c k) else None.
Proof. unfold Dict.mem, count. now destruct (Dict.get c k). Qed.

Lemma keys_add_counts c (other : list (K * Z)) :
  Dict.keys (add_counts c other) = fold_left add_seen (map fst other) (Dict.keys c).
Proof.
  revert c. induction other as [|[k n] o IH]; intros c; [reflexivity|].
  change (add_counts c ((k, n) :: o)) with (add_counts (add_count c k n) o).
  rewrite IH, keys_add_count. reflexivity.
Qed.

(** Permuting what is added changes no lookup. *)
Lemma weight_perm k (a b : list (K * Z)) :
  Permutation a b -> weight k a = weight k b.
Proof.
  intros P. unfold weight. apply sumZ_perm, Permutation_map.
  induction P; simpl.
  - constructor.
  - destruct (key_eqb (fst x) k); [now constructor | assumption].
  - destruct (key_eqb (fst x) k), (key_eqb (fst y) k);
      try reflexivity; apply perm_swap.
  - etransitivity; eassumption.
Qed.

Lemma existsb_perm {A : Type} (p : A -> bool) (a b : list A) :
  Permutation a b -> existsb p a = existsb p b.
Proof.
  induction 1; simpl; try congruence.
  destruct (p x), (p y); reflexivity.
Qed.

Lemma get_add_counts_perm c (a b : list (K * Z)) k :
  Permutation a b ->
  Dict.get (add_counts c a) k = Dict.get (add_counts c b) k.
Proof.
  intros P. rewrite !get_count_mem, !mem_add_counts, !count_add_counts.
  now rewrite (weight_perm k a b P), (existsb_perm _ a b P).
Qed.

End CounterFacts.

(* ================================================================= *)
(** ** The loop over the files of a directory *)

Section FileLoopFacts.

Lemma count_where_cons {A : Type} (p : A -> bool) (x : A) (xs : list A) :
  count_where p (x :: xs) = (if p x then 1 else 0) + count_where p xs.
Proof.
  unfold count_where, len. simpl. destruct (p x); cbn [List.length]; lia.
Qed.

Lemma fold_count_file (files : list string) (st : file_loop) :
  fold_left count_file files st
  = {| fl_file_types := add_counts (fl_file_types st) (ext_items files);
       fl_all_files_by_type := add_counts (fl_all_files_by_type st) (ext_items files);
       fl_dicom_count :=
         fl_dicom_count st + count_where (fun f => is_dicom_ext (file_ext f)) files;
       fl_dat_count :=
         fl_dat_count st + count_where (fun f => (file_ext f =? ".dat")%string) files;
       fl_nifti_count := fl_nifti_count st + count_where is_nifti_filename files |}.
Proof.
  revert st. induction files as [|f files IH]; intros st.
  - destruct st. unfold count_where, len. simpl. f_equal; lia.
  - cbn [fold_left]. rewrite IH. rewrite !count_where_cons.
    unfold count_file at 1 2 3 4 5. cbn [fl_file_types fl_all_files_by_type
      fl_dicom_count fl_dat_count fl_nifti_count].
    unfold is_dicom_ext.
    f_equal;
      try (destruct ((file_ext f =? ".dcm")%string || (file_ext f =? ".ima")%string)%bool; lia);
      try (destruct (file_ext f =? ".dat")%string; lia);
      try (destruct (is_nifti_filename f); lia).
Qed.

Lemma count_files_eq (all_files_by_type : Counter string) (files : list string) :
  count_files all_files_by_type files
  = {| fl_file_types := add_counts [] (ext_items files);
       fl_all_files_by_type := add_counts all_files_by_type (ext_items files);
       fl_dicom_count := count_where (fun f => is_dicom_ext (file_ext f)) files;
       fl_dat_count := count_where (fun f => (file_ext f =? ".dat")%string) files;
       fl_nifti_count := count_where is_nifti_filename files |}.
Proof. unfold count_files. rewrite fold_count_file. reflexivity. Qed.

Lemma sumZ_ext_items (files : list string) :
  sumZ (map snd (ext_items files)) = len files.
Proof.
  unfold ext_items. induction files as [|f files IH]; [reflexivity|].
  cbn [map snd]. rewrite sumZ_cons, len_cons, IH. reflexivity.
Qed.

Lemma weight_ext_items (k : string) (files : list string) :
  weight k (ext_items files) = count_where (fun f => (file_ext f =? k)%string) files.
Proof.
  unfold weight, ext_items. induction files as [|f files IH]; [reflexivity|].
  rewrite count_where_cons, <- IH. cbn [map filter fst key_eqb string_PyKey].
  destruct (file_ext f =? k)%string; cbn [map snd]; rewrite ?sumZ_cons; lia.
Qed.

End FileLoopFacts.

(* ================================================================= *)
(** ** The loop over the walk *)

Section ScanFacts.
Variable sep : ascii.
Variable human_root : string.


Lemma folder_info_of_fields (it : walk_item) :
  path (folder_info_of sep it) = walk_rel_path it /\
  num_files (folder_info_of sep it) = len (walk_files it) /\
  num_subfolders (folder_info_of sep it) = len (walk_dirs it) /\
  file_types (folder_info_of sep it) = add_counts [] (ext_items (walk_files it)) /\
  dicom_files (folder_info_of sep it)
  = count_where (fun f => is_dicom_ext (file_ext f)) (walk_files it) /\
  dat_files (folder_info_of sep it)
  = count_where (fun f => (file_ext f =? ".dat")%string) (walk_files it) /\
  nifti_files (folder_info_of sep it) = count_where is_nifti_filename (walk_files it).
Proof.
  unfold folder_info_of, make_folder_info. rewrite count_files_eq. simpl.
  repeat split; reflexivity.
Qed.

Lemma total_file_types (it : walk_item) :
  total (file_types (folder_info_of sep it)) = num_files (folder_info_of sep it).
Proof.
  destruct (folder_info_of_fields it) as (_ & -> & _ & -> & _).
  rewrite total_add_counts, sumZ_ext_items. reflexivity.
Qed.

Lemma visit_eq (st : scan_state) (it : walk_item) :
  visit sep st it
  = {| st_subfolders := assign sep (st_subfolders st) it;
       st_all_folders := st_all_folders st ++ [folder_info_of sep it];
       st_all_files_by_type :=
         add_counts (st_all_files_by_type st) (ext_items (walk_files it));
       st_total_folders := st_total_folders st + 1;
       st_total_files := st_total_files st + len (walk_files it) |}.
Proof.
  unfold visit, assign, group_of,
    folder_info_of.
  destruct (subfolder_and_depth sep (walk_rel_path it)) as [g dp]. cbn [fst snd].
  unfold make_folder_info. rewrite !count_files_eq. reflexivity.
Qed.

Lemma fold_visit (items : list walk_item) (st : scan_state) :
  fold_left (visit sep) items st
  = {| st_subfolders := fold_left (assign sep) items (st_subfolders st);
       st_all_folders := st_all_folders st ++ map (folder_info_of sep) items;
       st_all_files_by_type :=
         add_counts (st_all_files_by_type st)
           (flat_map (fun it => ext_items (walk_files it)) items);
       st_total_folders := st_total_folders st + len items;
       st_total_files :=
         st_total_files st + sumZ (map (fun it => len (walk_files it)) items) |}.
Proof.
  revert st. induction items as [|it items IH]; intros st.
  - destruct st. unfold len. simpl. rewrite app_nil_r. f_equal; lia.
  - cbn [fold_left]. rewrite IH, visit_eq.
    cbn [st_subfolders st_all_folders st_all_files_by_type st_total_folders
         st_total_files map flat_map].
    rewrite <- app_assoc, add_counts_app, len_cons, sumZ_cons.
    f_equal; try reflexivity; lia.
Qed.

(** What one item does to the entry of one main subfolder. *)
Lemma get_assign (d : list (string * sf_data)) (it : walk_item) (g : string) :
  Dict.get (assign sep d it) g
  = if in_group sep g it
    then option_map (fun sf => accumulate sf (folder_info_of sep it)) (Dict.get d g)
    else Dict.get d g.
Proof.
  unfold assign, in_group, accumulate_into.
  destruct (group_of sep it) as [n|]; [|reflexivity].
  destruct (String.eqb_spec n EmptyString) as [-> | Hn]; [reflexivity|].
  cbn [negb andb].
  destruct (String.eqb_spec n g) as [-> | Hg].
  - destruct (Dict.get d g) as [sf|] eqn:E.
    + now rewrite get_set_same.
    + now rewrite E.
  - destruct (Dict.get d n) as [sf|]; [|reflexivity].
    now apply get_set_other.
Qed.

Lemma keys_assign (d : list (string * sf_data)) (it : walk_item) :
  Dict.keys (assign sep d it) = Dict.keys d.
Proof.
  unfold assign, accumulate_into.
  destruct (group_of sep it) as [n|]; [|reflexivity].
  destruct (n =? EmptyString)%string; [reflexivity|].
  destruct (Dict.get d n) as [sf|] eqn:E; [|reflexivity].
  now apply set_present with (v0 := sf).
Qed.

Lemma keys_fold_assign (items : list walk_item) (d : list (string * sf_data)) :
  Dict.keys (fold_left (assign sep) items d) = Dict.keys d.
Proof.
  revert d. induction items as [|it items IH]; intros d; [reflexivity|].
  cbn [fold_left]. now rewrite IH, keys_assign.
Qed.

Lemma get_fold_assign (items : list walk_item) (d : list (string * sf_data)) (g : string) :
  Dict.get (fold_left (assign sep) items d) g
  = option_map
      (fun sf => fold_left accumulate (map (folder_info_of sep) (filter (in_group sep g) items)) sf)
      (Dict.get d g).
Proof.
  revert d. induction items as [|it items IH]; intros d.
  - simpl. now destruct (Dict.get d g).
  - cbn [fold_left filter]. rewrite IH, get_assign.
    destruct (in_group sep g it); [|reflexivity].
    now destruct (Dict.get d g).
Qed.

(** The fields of a main subfolder after it took a list of records. *)
Lemma fold_accumulate (infos : list folder_info) (sf : sf_data) :
  fold_left accumulate infos sf
  = {| sf_path := sf_path sf;
       sf_all_folders := sf_all_folders sf;
       sf_file_counts := add_counts (sf_file_counts sf) (flat_map file_types infos);
       sf_depth_counts :=
         add_counts (sf_depth_counts sf) (map (fun i => (depth i, 1)) infos);
       sf_total_files := sf_total_files sf + sumZ (map num_files infos);
       sf_total_folders := sf_total_folders sf + len infos;
       sf_dicom_files := sf_dicom_files sf + sumZ (map dicom_files infos);
       sf_dat_files := sf_dat_files sf + sumZ (map dat_files infos);
       sf_folder_details := sf_folder_details sf ++ infos |}.
Proof.
  revert sf. induction infos as [|i infos IH]; intros sf.
  - destruct sf. unfold len. simpl. rewrite app_nil_r. f_equal; lia.
  - cbn [fold_left]. rewrite IH. unfold accumulate at 1 2 3 4 5 6 7 8 9.
    cbn [sf_path sf_all_folders sf_file_counts sf_depth_counts sf_total_files
         sf_total_folders sf_dicom_files sf_dat_files sf_folder_details
         map flat_map].
    rewrite <- app_assoc, add_counts_app, len_cons, !sumZ_cons.
    f_equal; try reflexivity; lia.
Qed.

End ScanFacts.

(* ================================================================= *)
(** ** The main subfolders *)

Section SubfolderFacts.
Variable sep : ascii.
Variable human_root : string.

Lemma fold_set_forall (P : string * sf_data -> Prop) (subs : list string)
  (d : list (string * sf_data)) :
  Forall P d -> (forall k s, P (k, new_sf_data sep human_root s)) ->
  Forall P (fold_left (fun d s => Dict.set d s (new_sf_data sep human_root s)) subs d).
Proof.
  intros Hd Hnew. revert d Hd. induction subs as [|s subs IH]; intros d Hd; [exact Hd|].
  cbn [fold_left]. apply IH. apply Forall_set; [exact Hd|]. intros k'. apply Hnew.
Qed.

Lemma init_subfolders_forall (P : string * sf_data -> Prop) (subs : list string) :
  (forall k s, P (k, new_sf_data sep human_root s)) ->
  Forall P (init_subfolders sep human_root subs).
Proof. intros Hnew. apply fold_set_forall; [constructor | exact Hnew]. Qed.

Lemma fold_set_nodup (subs : list string) (d : list (string * sf_data)) :
  NoDup subs -> (forall s, In s subs -> ~ In s (Dict.keys d)) ->
  fold_left (fun d s => Dict.set d s (new_sf_data sep human_root s)) subs d
  = d ++ map (fun s => (s, new_sf_data sep human_root s)) subs.
Proof.
  intros Hnd. revert d. induction Hnd as [|s subs Hs Hnd IH]; intros d Hd.
  - simpl. now rewrite app_nil_r.
  - cbn [fold_left map]. rewrite set_absent.
    + rewrite IH.
      * now rewrite <- app_assoc.
      * intros s' Hin. unfold Dict.keys. rewrite map_app, in_app_iff. simpl.
        intros [H | [H | []]].
        -- now apply (Hd s'); [right|].
        -- now subst s'.
    + apply get_none_keys. apply Hd. now left.
Qed.

Lemma init_subfolders_nodup (subs : list string) :
  NoDup subs ->
  init_subfolders sep human_root subs
  = map (fun s => (s, new_sf_data sep human_root s)) subs.
Proof.
  intros Hnd. unfold init_subfolders. rewrite fold_set_nodup; auto.
Qed.

Lemma keys_init_subfolders (subs : list string) :
  NoDup subs -> Dict.keys (init_subfolders sep human_root subs) = subs.
Proof.
  intros Hnd. rewrite init_subfolders_nodup by assumption.
  unfold Dict.keys. rewrite map_map. simpl. apply map_id.
Qed.

Lemma attributed_assign (d : list (string * sf_data)) (it it' : walk_item) :
  attributed sep (assign sep d it) it' = attributed sep d it'.
Proof.
  unfold attributed. destruct (group_of sep it') as [g|]; [|reflexivity].
  f_equal. apply eq_true_iff_eq. now rewrite !mem_keys, keys_assign.
Qed.

Lemma sum_assign (f : sf_data -> Z) (m : folder_info -> Z)
  (d : list (string * sf_data)) (it : walk_item) :
  additive f m ->
  sum_subfolders f (assign sep d it)
  = sum_subfolders f d
    + (if attributed sep d it then m (folder_info_of sep it) else 0).
Proof.
  intros Hadd. unfold assign, attributed, accumulate_into, Dict.mem.
  destruct (group_of sep it) as [g|]; [|lia].
  destruct (g =? EmptyString)%string; cbn [negb andb]; [lia|].
  destruct (Dict.get d g) as [sf|] eqn:E; [|lia].
  unfold sum_subfolders. rewrite (sum_set_present f d g _ sf E), Hadd. lia.
Qed.

Lemma filter_ext_in_eq {A : Type} (p q : A -> bool) (l : list A) :
  (forall x, In x l -> p x = q x) -> filter p l = filter q l.
Proof.
  induction l as [|x l IH]; intros Hpq; [reflexivity|]. simpl.
  rewrite (Hpq x) by now left. rewrite IH; [reflexivity|].
  intros y Hy. apply Hpq. now right.
Qed.

Lemma sum_fold_assign (f : sf_data -> Z) (m : folder_info -> Z)
  (items : list walk_item) (d : list (string * sf_data)) :
  additive f m ->
  sum_subfolders f (fold_left (assign sep) items d)
  = sum_subfolders f d
    + sumZ (map (fun it => m (folder_info_of sep it)) (filter (attributed sep d) items)).
Proof.
  intros Hadd. revert d. induction items as [|it items IH]; intros d.
  - simpl. lia.
  - cbn [fold_left]. rewrite IH, (sum_assign f m) by assumption.
    rewrite (filter_ext_in_eq (attributed sep (assign sep d it)) (attributed sep d))
      by (intros; apply attributed_assign).
    cbn [filter]. destruct (attributed sep d it); cbn [map]; rewrite ?sumZ_cons; lia.
Qed.

(** The consistency of the totals of one main subfolder. *)
Lemma accumulate_consistent (sf : sf_data) (it : walk_item) :
  sf_total_folders sf = len (sf_folder_details sf) /\
  total (sf_file_counts sf) = sf_total_files sf /\
  sf_total_files sf = sumZ (map num_files (sf_folder_details sf)) ->
  let sf' := accumulate sf (folder_info_of sep it) in
  sf_total_folders sf' = len (sf_folder_details sf') /\
  total (sf_file_counts sf') = sf_total_files sf' /\
  sf_total_files sf' = sumZ (map num_files (sf_folder_details sf')).
Proof.
  intros (H1 & H2 & H3). unfold accumulate.
  cbn [sf_total_folders sf_folder_details sf_file_counts sf_total_files].
  rewrite len_app, map_app, sumZ_app, total_add_counts.
  change (sumZ (map snd (file_types (folder_info_of sep it))))
    with (total (file_types (folder_info_of sep it))).
  rewrite total_file_types. cbn [map]. rewrite sumZ_cons, len_cons.
  change (sumZ []) with 0. change (len (@nil folder_info)) with 0. lia.
Qed.

Lemma assign_forall (P : sf_data -> Prop) (d : list (string * sf_data)) (it : walk_item) :
  (forall sf, P sf -> P (accumulate sf (folder_info_of sep it))) ->
  Forall (fun e => P (snd e)) d ->
  Forall (fun e => P (snd e)) (assign sep d it).
Proof.
  intros Hacc Hd. unfold assign, accumulate_into.
  destruct (group_of sep it) as [g|]; [|exact Hd].
  destruct (g =? EmptyString)%string; [exact Hd|].
  destruct (Dict.get d g) as [sf|] eqn:E; [|exact Hd].
  apply Forall_set; [exact Hd|]. intros k'. cbn [snd]. apply Hacc.
  apply get_some_in in E. rewrite Forall_forall in Hd. exact (Hd _ E).
Qed.

Lemma fold_assign_forall (P : sf_data -> Prop) (items : list walk_item)
  (d : list (string * sf_data)) :
  (forall sf it, P sf -> P (accumulate sf (folder_info_of sep it))) ->
  Forall (fun e => P (snd e)) d ->
  Forall (fun e => P (snd e)) (fold_left (assign sep) items d).
Proof.
  intros Hacc. revert d. induction items as [|it items IH]; intros d Hd; [exact Hd|].
  cbn [fold_left]. apply IH. apply assign_forall; auto.
Qed.

Lemma scan_items_subfolders (subs : list string) (items : list walk_item) :
  hd_subfolders (scan_items sep human_root subs items)
  = fold_left (assign sep) items (init_subfolders sep human_root subs).
Proof. unfold scan_items. cbn [hd_subfolders]. now rewrite fold_visit. Qed.

Lemma scan_items_all_folders (subs : list string) (items : list walk_item) :
  hd_all_folders (scan_items sep human_root subs items)
  = map (folder_info_of sep) items.
Proof. unfold scan_items. cbn [hd_all_folders]. now rewrite fold_visit. Qed.

Lemma scan_items_all_files_by_type (subs : list string) (items : list walk_item) :
  hd_all_files_by_type (scan_items sep human_root subs items)
  = add_counts [] (flat_map (fun it => ext_items (walk_files it)) items).
Proof. unfold scan_items. cbn [hd_all_files_by_type]. now rewrite fold_visit. Qed.

Lemma scan_items_overview (subs : list string) (items : list walk_item) :
  hd_overview (scan_items sep human_root subs items)
  = {| ov_total_folders := len items;
       ov_total_files := sumZ (map (fun it => len (walk_files it)) items);
       ov_main_subfolders := len subs;
       ov_total_dicom := sumZ (map dicom_files (map (folder_info_of sep) items));
       ov_total_dat := sumZ (map dat_files (map (folder_info_of sep) items));
       ov_total_nifti := sumZ (map nifti_files (map (folder_info_of sep) items));
       ov_max_depth := max_or 0 (map depth (map (folder_info_of sep) items)) |}.
Proof.
  unfold scan_items. cbn [hd_overview]. rewrite fold_visit.
  unfold make_overview, initial_state. cbn. f_equal; lia.
Qed.

Lemma subfolders_consistent (subs : list string) (items : list walk_item) :
  Forall (fun entry : string * sf_data =>
            sf_total_folders (snd entry) = len (sf_folder_details (snd entry)) /\
            total (sf_file_counts (snd entry)) = sf_total_files (snd entry) /\
            sf_total_files (snd entry)
            = sumZ (map num_files (sf_folder_details (snd entry))))
    (hd_subfolders (scan_items sep human_root subs items)).
Proof.
  rewrite scan_items_subfolders.
  apply (fold_assign_forall
           (fun sf => sf_total_folders sf = len (sf_folder_details sf) /\
                      total (sf_file_counts sf) = sf_total_files sf /\
                      sf_total_files sf = sumZ (map num_files (sf_folder_details sf)))).
  - intros sf it. apply accumulate_consistent.
  - apply init_subfolders_forall. intros k s. cbn.
    repeat split; reflexivity.
Qed.

(** C4: after every scan, in every main subfolder [total_folders] is the
    number of its folder records, the values of its extension counts sum
    to [total_files], and [total_files] is the sum of [num_files] over its
    folder records; this holds for any list of main subfolders and any
    sequence of walk items, and so for the scan of every tree. *)
Theorem group_totals_consistent (subs : list string) (items : list walk_item) (fs : Dir) :
  let consistent (entry : string * sf_data) :=
    sf_total_folders (snd entry) = len (sf_folder_details (snd entry)) /\
    total (sf_file_counts (snd entry)) = sf_total_files (snd entry) /\
    sf_total_files (snd entry) = sumZ (map num_files (sf_folder_details (snd entry))) in
  Forall consistent (hd_subfolders (scan_items sep human_root subs items)) /\
  match result (scan_human_folder_complete sep human_root fs) with
  | Some data => Forall consistent (hd_subfolders data)
  | None => True
  end.
Proof.
  intros consistent. split; [apply subfolders_consistent|].
  unfold scan_human_folder_complete.
  destruct (listdir_dirs fs); cbn; [exact I | apply subfolders_consistent].
Qed.

End SubfolderFacts.

(* ================================================================= *)
(** ** Group membership of a record *)

Section MembershipFacts.
Variable sep : ascii.
Variable human_root : string.

Lemma group_of_root (it : walk_item) :
  walk_rel_path it = "." -> group_of sep it = None.
Proof. intros E. unfold group_of, subfolder_and_depth. now rewrite E. Qed.

Lemma group_of_other (it : walk_item) :
  walk_rel_path it <> "." ->
  group_of sep it = Some (hd EmptyString (split sep (walk_rel_path it))).
Proof.
  intros E. unfold group_of, subfolder_and_depth.
  now destruct (String.eqb_spec (walk_rel_path it) ".").
Qed.

(** C7: one step of the aggregator always counts the record in the global
    totals and in the list of all folders; a record whose relative path is
    [.] changes no main subfolder; any other record belongs to the main
    subfolder named by its first path segment: when no main subfolder
    bears that name the record changes none of them, and otherwise it is
    accumulated into that one and into no other.  The overview of a scan
    is computed over all records, dropped or not.  (No main subfolder has
    the empty name, as no directory has.) *)
Theorem visit_group_membership (st : scan_state) (it : walk_item)
  (subs : list string) (items : list walk_item) :
  Dict.get (st_subfolders st) EmptyString = None ->
  let st' := visit sep st it in
  let info := folder_info_of sep it in
  let g := hd EmptyString (split sep (walk_rel_path it)) in
  (st_total_folders st' = st_total_folders st + 1 /\
   st_total_files st' = st_total_files st + len (walk_files it) /\
   st_all_folders st' = st_all_folders st ++ [info]) /\
  (walk_rel_path it = "." -> st_subfolders st' = st_subfolders st) /\
  (walk_rel_path it <> "." -> Dict.get (st_subfolders st) g = None ->
   st_subfolders st' = st_subfolders st) /\
  (walk_rel_path it <> "." ->
   forall sf, Dict.get (st_subfolders st) g = Some sf ->
     st_subfolders st' = Dict.set (st_subfolders st) g (accumulate sf info) /\
     Dict.get (st_subfolders st') g = Some (accumulate sf info) /\
     forall g', g' <> g ->
       Dict.get (st_subfolders st') g' = Dict.get (st_subfolders st) g') /\
  (hd_all_folders (scan_items sep human_root subs items)
   = map (folder_info_of sep) items /\
   hd_overview (scan_items sep human_root subs items)
   = {| ov_total_folders := len items;
        ov_total_files := sumZ (map (fun it => len (walk_files it)) items);
        ov_main_subfolders := len subs;
        ov_total_dicom := sumZ (map dicom_files (map (folder_info_of sep) items));
        ov_total_dat := sumZ (map dat_files (map (folder_info_of sep) items));
        ov_total_nifti := sumZ (map nifti_files (map (folder_info_of sep) items));
        ov_max_depth := max_or 0 (map depth (map (folder_info_of sep) items)) |}).
Proof.
  intros Hempty st' info g. subst st'. rewrite visit_eq.
  cbn [st_total_folders st_total_files st_all_folders st_subfolders].
  split; [now repeat split|].
  unfold assign, accumulate_into. fold info.
  split; [|split; [|split]].
  - intros E. now rewrite group_of_root.
  - intros E Hg. rewrite group_of_other by assumption. fold g. rewrite Hg.
    now destruct (g =? EmptyString)%string.
  - intros E sf Hg. rewrite group_of_other by assumption. fold g. rewrite Hg.
    destruct (String.eqb_spec g EmptyString) as [Eg | Eg]; [congruence|].
    split; [reflexivity|]. split; [apply get_set_same|].
    intros g' Hne. apply get_set_other. congruence.
  - split; [apply scan_items_all_folders | apply scan_items_overview].
Qed.

End MembershipFacts.

Lemma visit_group_membership_witness :
  Dict.get (st_subfolders (initial_state "/" "/data/Human" ["A"])) EmptyString = None /\
  st_subfolders (visit "/" (initial_state "/" "/data/Human" ["A"]) item_B_x)
  = st_subfolders (initial_state "/" "/data/Human" ["A"]) /\
  st_total_folders (visit "/" (initial_state "/" "/data/Human" ["A"]) item_B_x)
  = st_total_folders (initial_state "/" "/data/Human" ["A"]) + 1.
Proof.
  pose proof (visit_group_membership "/" "/data/Human"
                (initial_state "/" "/data/Human" ["A"]) item_B_x [] [] eq_refl) as H.
  split; [reflexivity|]. split.
  - apply (proj1 (proj2 (proj2 H))); [discriminate | reflexivity].
  - apply (proj1 (proj1 H)).
Defined.

(* ================================================================= *)
(** ** Relative paths and their segments *)

Section PathFacts.
Variable sep : ascii.

Lemma split_no_sep (s : string) :
  contains sep s = false -> split sep s = [s].
Proof.
  induction s as [|a s IH]; [reflexivity|]. cbn [contains split].
  intros E. apply orb_false_iff in E as [Ea Es]. rewrite Ea, (IH Es). reflexivity.
Qed.

Lemma split_app_sep (n t : string) :
  contains sep n = false ->
  split sep (n ++ String sep t) = n :: split sep t.
Proof.
  induction n as [|a n IH]; intros E.
  - cbn [append split]. now rewrite Ascii.eqb_refl.
  - cbn [contains] in E. apply orb_false_iff in E as [Ea En].
    cbn [append split]. rewrite Ea, (IH En). reflexivity.
Qed.

Lemma join_cons (x y : string) (l : list string) :
  join (String sep EmptyString) (x :: y :: l)
  = (x ++ String sep (join (String sep EmptyString) (y :: l)))%string.
Proof. reflexivity. Qed.

Lemma split_join (l : list string) :
  l <> [] -> Forall (fun s => contains sep s = false) l ->
  split sep (join (String sep EmptyString) l) = l.
Proof.
  induction l as [|x l IH]; [congruence|]. intros _ Hl.
  inversion Hl as [|? ? Hx Hl']; subst.
  destruct l as [|y l].
  - cbn. now apply split_no_sep.
  - rewrite join_cons, split_app_sep by assumption.
    rewrite IH; [reflexivity | discriminate | assumption].
Qed.

Lemma valid_name_iff (n : string) :
  valid_name sep n = true <->
  n <> EmptyString /\ n <> "." /\ contains sep n = false.
Proof.
  unfold valid_name. rewrite !andb_true_iff, !negb_true_iff.
  destruct (String.eqb_spec n EmptyString), (String.eqb_spec n ".");
    intuition congruence.
Qed.

Lemma valid_no_sep (l : list string) :
  Forall (fun n => valid_name sep n = true) l ->
  Forall (fun s => contains sep s = false) l.
Proof.
  apply Forall_impl. intros n Hn. now apply valid_name_iff in Hn.
Qed.

Lemma split_rel (segs : list string) :
  segs <> [] -> Forall (fun n => valid_name sep n = true) segs ->
  split sep (rel_of_segments sep segs) = segs /\ rel_of_segments sep segs <> ".".
Proof.
  intros Hne Hv.
  assert (Hs : split sep (rel_of_segments sep segs) = segs).
  { destruct segs as [|x l]; [congruence|]. cbn [rel_of_segments].
    apply split_join; [discriminate | now apply valid_no_sep]. }
  split; [exact Hs|]. intros E. rewrite E in Hs.
  destruct segs as [|x l]; [congruence|].
  inversion Hv as [|? ? Hx _]; subst. apply valid_name_iff in Hx as (Hx1 & Hx2 & _).
  cbn [split] in Hs. destruct (Ascii.eqb "." sep); injection Hs as Hs _; congruence.
Qed.

Lemma rel_of_segments_inj (a b : list string) :
  Forall (fun n => valid_name sep n = true) a ->
  Forall (fun n => valid_name sep n = true) b ->
  rel_of_segments sep a = rel_of_segments sep b -> a = b.
Proof.
  intros Ha Hb E.
  destruct a as [|x a], b as [|y b]; [reflexivity| | |].
  - symmetry in E. now apply split_rel in E.
  - now apply split_rel in E.
  - destruct (split_rel (x :: a)) as [Ea _]; [discriminate | assumption |].
    destruct (split_rel (y :: b)) as [Eb _]; [discriminate | assumption |].
    congruence.
Qed.

Lemma subfolder_and_depth_rel (x : string) (l : list string) :
  Forall (fun n => valid_name sep n = true) (x :: l) ->
  subfolder_and_depth sep (rel_of_segments sep (x :: l)) = (Some x, len (x :: l)).
Proof.
  intros Hv. destruct (split_rel (x :: l)) as [Es Hne]; [discriminate | assumption |].
  unfold subfolder_and_depth.
  destruct (String.eqb_spec (rel_of_segments sep (x :: l)) "."); [contradiction|].
  now rewrite Es.
Qed.

End PathFacts.

(* ================================================================= *)
(** ** The walk of a tree *)

Section WalkFacts.
Variable sep : ascii.
Variable human_root : string.

(** Induction on a tree, with the hypothesis for every subdirectory. *)
Lemma Dir_induction (P : Dir -> Prop) :
  (forall name why, P (Unlisted name why)) ->
  (forall name files subdirs, Forall P subdirs -> P (Folder name files subdirs)) ->
  forall d, P d.
Proof.
  intros HU HF. fix IH 1. intros [name files subdirs | name why].
  - apply HF. induction subdirs as [|c cs IHcs]; constructor; [apply IH | exact IHcs].
  - apply HU.
Qed.

Lemma distinct_NoDup (xs : list string) : distinct xs = true <-> NoDup xs.
Proof.
  induction xs as [|x xs IH]; cbn [distinct].
  - split; [constructor | reflexivity].
  - rewrite andb_true_iff, negb_true_iff, IH. unfold str_mem. split.
    + intros [Hx Hnd]. constructor; [|assumption]. intros Hin.
      assert (E : existsb (String.eqb x) xs = true)
        by (apply existsb_exists; exists x; split; [assumption | apply String.eqb_refl]).
      congruence.
    + intros Hnd. inversion Hnd as [|? ? Hx Hnd']; subst. split; [|assumption].
      destruct (existsb (String.eqb x) xs) eqn:E; [|reflexivity].
      apply existsb_exists in E as [y [Hy E]]. apply String.eqb_eq in E. now subst y.
Qed.

Lemma flat_map_forall_ext {A B : Type} (f g : A -> list B) (l : list A) :
  Forall (fun x => f x = g x) l -> flat_map f l = flat_map g l.
Proof. induction 1 as [|x l E _ IH]; simpl; [reflexivity | now rewrite E, IH]. Qed.

Lemma map_flat_map {A B C : Type} (h : B -> C) (f : A -> list B) (l : list A) :
  map h (flat_map f l) = flat_map (fun x => map h (f x)) l.
Proof. induction l as [|x l IH]; simpl; [reflexivity | now rewrite map_app, IH]. Qed.

Lemma walk_rel_paths (d : Dir) :
  forall segs,
    map walk_rel_path (os_walk sep human_root segs d)
    = map (rel_of_segments sep) (walk_segments segs d).
Proof.
  induction d as [name why | name files subdirs IH] using Dir_induction; intros segs.
  - reflexivity.
  - cbn [os_walk walk_segments map walk_rel_path]. f_equal.
    rewrite !map_flat_map. apply flat_map_forall_ext.
    eapply Forall_impl; [|exact IH]. intros c Hc. apply Hc.
Qed.

Lemma well_formed_name (d : Dir) :
  well_formed sep d = true -> valid_name sep (dir_name d) = true.
Proof.
  destruct d; cbn [well_formed dir_name]; [|tauto].
  intros H. apply andb_true_iff in H as [H _]. now apply andb_true_iff in H as [H _].
Qed.

Lemma well_formed_as_root (d : Dir) :
  well_formed sep d = true -> well_formed_root sep d = true.
Proof.
  destruct d; cbn [well_formed well_formed_root]; [|reflexivity].
  rewrite !andb_true_iff. tauto.
Qed.

Lemma well_formed_root_children (name : string) (files : list string) (subdirs : list Dir) :
  well_formed_root sep (Folder name files subdirs) = true ->
  NoDup (map dir_name subdirs) /\
  forall c, In c subdirs ->
    well_formed_root sep c = true /\ valid_name sep (dir_name c) = true.
Proof.
  cbn [well_formed_root]. rewrite andb_true_iff, forallb_forall, distinct_NoDup.
  intros [Hnd Hsub]. split; [exact Hnd|]. intros c Hc.
  split; [apply well_formed_as_root | apply well_formed_name]; auto.
Qed.

Lemma walk_segments_extend (d : Dir) :
  well_formed_root sep d = true ->
  forall segs s, In s (walk_segments segs d) ->
    exists more, s = segs ++ more /\ Forall (fun n => valid_name sep n = true) more.
Proof.
  induction d as [name why | name files subdirs IH] using Dir_induction;
    intros Hwf segs s; cbn [walk_segments].
  - intros [].
  - apply well_formed_root_children in Hwf as [_ Hsub].
    intros [<- | Hin].
    + exists []. now rewrite app_nil_r.
    + apply in_flat_map in Hin as [c [Hc Hin]].
      rewrite Forall_forall in IH. destruct (Hsub c Hc) as [Hwc Hvc].
      destruct (IH c Hc Hwc _ _ Hin) as [more [-> Hmore]].
      exists (dir_name c :: more). rewrite <- app_assoc. split; [reflexivity|].
      now constructor.
Qed.

Lemma NoDup_flat_map {A B : Type} (f : A -> list B) (l : list A) :
  NoDup l ->
  (forall x, In x l -> NoDup (f x)) ->
  (forall x y b, In x l -> In y l -> In b (f x) -> In b (f y) -> x = y) ->
  NoDup (flat_map f l).
Proof.
  intros Hnd. induction Hnd as [|x l Hx Hnd IH]; intros Hf Hdisj; simpl; [constructor|].
  apply NoDup_app.
  - apply Hf. now left.
  - apply IH; [intros; apply Hf; now right|].
    intros y z b Hy Hz. apply Hdisj; now right.
  - intros b Hb Hin. apply in_flat_map in Hin as [y [Hy Hin]].
    assert (x = y) by (apply (Hdisj x y b); [now left | now right | assumption..]).
    now subst y.
Qed.

Lemma NoDup_map_eq {A B : Type} (f : A -> B) (l : list A) (x y : A) :
  NoDup (map f l) -> In x l -> In y l -> f x = f y -> x = y.
Proof.
  induction l as [|a l IH]; cbn [map]; [intros _ []|].
  intros Hnd Hx Hy E. inversion Hnd as [|? ? Ha Hnd']; subst.
  destruct Hx as [<- | Hx], Hy as [<- | Hy]; auto.
  - exfalso. apply Ha. rewrite E. now apply in_map.
  - exfalso. apply Ha. rewrite <- E. now apply in_map.
Qed.

Lemma walk_segments_nodup (d : Dir) :
  well_formed_root sep d = true -> forall segs, NoDup (walk_segments segs d).
Proof.
  induction d as [name why | name files subdirs IH] using Dir_induction;
    intros Hwf segs; cbn [walk_segments]; [constructor|].
  pose proof Hwf as Hwf'. apply well_formed_root_children in Hwf' as [Hnd Hsub].
  rewrite Forall_forall in IH. constructor.
  - intros Hin. apply in_flat_map in Hin as [c [Hc Hin]].
    apply walk_segments_extend in Hin as [more [E _]]; [|now apply Hsub].
    apply (f_equal (@List.length string)) in E. rewrite !length_app in E.
    cbn [List.length] in E. lia.
  - apply NoDup_flat_map.
    + now apply NoDup_map_inv in Hnd.
    + intros c Hc. apply IH; [assumption | now apply Hsub].
    + intros x y b Hx Hy Hbx Hby.
      apply walk_segments_extend in Hbx as [mx [Ex _]]; [|now apply Hsub].
      apply walk_segments_extend in Hby as [my [Ey _]]; [|now apply Hsub].
      rewrite Ex, <- !app_assoc in Ey. apply app_inv_head in Ey.
      injection Ey as Ey _. now apply (NoDup_map_eq dir_name subdirs).
Qed.

(** In a well-formed tree the relative paths of the visited directories
    are pairwise distinct. *)
Lemma walk_paths_nodup (d : Dir) :
  well_formed_root sep d = true ->
  NoDup (map walk_rel_path (os_walk sep human_root [] d)).
Proof.
  intros Hwf. rewrite walk_rel_paths. apply NoDup_map_NoDup_ForallPairs.
  - intros a b Ha Hb E.
    apply walk_segments_extend in Ha as [ma [-> Hma]]; [|assumption].
    apply walk_segments_extend in Hb as [mb [-> Hmb]]; [|assumption].
    cbn [app] in *. now apply (rel_of_segments_inj sep).
  - now apply walk_segments_nodup.
Qed.

(** Every directory below the root lies in the main subfolder that its
    first segment names. *)
Lemma walk_below_root (name : string) (files : list string) (subdirs : list Dir)
  (it : walk_item) :
  well_formed_root sep (Folder name files subdirs) = true ->
  In it (flat_map (fun c => os_walk sep human_root [dir_name c] c) subdirs) ->
  exists g, In g (map dir_name subdirs) /\ g <> EmptyString /\
            group_of sep it = Some g.
Proof.
  intros Hwf Hin. pose proof Hwf as Hwf'.
  apply well_formed_root_children in Hwf' as [_ Hsub].
  apply in_flat_map in Hin as [c [Hc Hin]]. destruct (Hsub c Hc) as [Hwc Hvc].
  exists (dir_name c). split; [now apply in_map|].
  split; [now apply valid_name_iff in Hvc|].
  apply (in_map walk_rel_path) in Hin. rewrite walk_rel_paths in Hin.
  apply in_map_iff in Hin as [s [Es Hs]].
  apply walk_segments_extend in Hs as [more [-> Hmore]]; [|assumption].
  unfold group_of. rewrite <- Es. cbn [app].
  rewrite subfolder_and_depth_rel; [reflexivity | now constructor].
Qed.

End WalkFacts.

(* ================================================================= *)
(** ** The overview *)

Section MaxFacts.

Lemma fold_max_ge (l : list Z) (x : Z) :
  x <= fold_left Z.max l x /\ forall y, In y l -> y <= fold_left Z.max l x.
Proof.
  revert x. induction l as [|a l IH]; intros x; cbn [fold_left].
  - split; [lia | intros y []].
  - destruct (IH (Z.max x a)) as [H1 H2]. split; [lia|].
    intros y [<- | Hy]; [lia | now apply H2].
Qed.

Lemma fold_max_in (l : list Z) (x : Z) : In (fold_left Z.max l x) (x :: l).
Proof.
  revert x. induction l as [|a l IH]; intros x; cbn [fold_left]; [now left|].
  destruct (IH (Z.max x a)) as [E | Hin]; [|right; now right].
  rewrite <- E. destruct (Z.max_spec x a) as [[_ ->] | [_ ->]]; [right|]; now left.
Qed.

Lemma max_or_ge (d : Z) (l : list Z) (y : Z) : In y l -> y <= max_or d l.
Proof.
  destruct l as [|x l]; [intros []|]. cbn [max_or].
  destruct (fold_max_ge l x) as [H1 H2]. intros [<- | Hy]; [exact H1 | now apply H2].
Qed.

Lemma max_or_in (d : Z) (l : list Z) : l <> [] -> In (max_or d l) l.
Proof. destruct l as [|x l]; [congruence|]. intros _. apply fold_max_in. Qed.

(** The maximum depends on the elements only. *)
Lemma max_or_same_elements (d : Z) (a b : list Z) :
  (forall x, In x a <-> In x b) -> max_or d a = max_or d b.
Proof.
  intros Hab. destruct a as [|x a], b as [|y b]; [reflexivity| | |].
  - exfalso. apply (Hab y). now left.
  - exfalso. apply (Hab x). now left.
  - apply Z.le_antisymm; apply max_or_ge; apply Hab || apply <- Hab;
      apply max_or_in; discriminate.
Qed.

End MaxFacts.

Section OverviewFacts.
Variable sep : ascii.
Variable human_root : string.

Lemma filter_all {A : Type} (p : A -> bool) (l : list A) :
  (forall x, In x l -> p x = true) -> filter p l = l.
Proof.
  induction l as [|x l IH]; intros Hp; [reflexivity|]. cbn [filter].
  rewrite (Hp x) by now left. rewrite IH; [reflexivity|]. intros y Hy. apply Hp. now right.
Qed.

Lemma sumZ_ones {A : Type} (l : list A) : sumZ (map (fun _ => 1) l) = len l.
Proof.
  induction l as [|x l IH]; [reflexivity|].
  cbn [map]. rewrite sumZ_cons, len_cons, IH. reflexivity.
Qed.

Lemma sum_subfolders_zero (f : sf_data -> Z) (d : list (string * sf_data)) :
  Forall (fun e => f (snd e) = 0) d -> sum_subfolders f d = 0.
Proof.
  unfold sum_subfolders. induction 1 as [|e d He _ IH]; [reflexivity|].
  cbn [map]. rewrite sumZ_cons. lia.
Qed.

Lemma sum_init_subfolders (f : sf_data -> Z) (subs : list string) :
  (forall s, f (new_sf_data sep human_root s) = 0) ->
  sum_subfolders f (init_subfolders sep human_root subs) = 0.
Proof.
  intros Hf. apply sum_subfolders_zero. apply init_subfolders_forall.
  intros k s. apply Hf.
Qed.

(** The items of the walk of a listable root: the root, then the
    directories below it, each attributed to a main subfolder. *)
Lemma attributed_below_root (name : string) (files : list string) (subdirs : list Dir) :
  well_formed_root sep (Folder name files subdirs) = true ->
  let d := init_subfolders sep human_root (map dir_name subdirs) in
  let below := flat_map (fun c => os_walk sep human_root [dir_name c] c) subdirs in
  filter (attributed sep d) (os_walk sep human_root [] (Folder name files subdirs))
  = below.
Proof.
  intros Hwf d below. cbn [os_walk filter]. fold below.
  unfold attributed at 1, group_of at 1. cbn.
  apply filter_all. intros it Hin.
  destruct (walk_below_root sep human_root name files subdirs it Hwf Hin)
    as (g & Hg & Hne & Eg).
  unfold attributed. rewrite Eg.
  destruct (String.eqb_spec g EmptyString); [contradiction|]. cbn [negb andb].
  apply mem_keys. subst d. rewrite keys_init_subfolders; [assumption|].
  now apply well_formed_root_children in Hwf as [Hnd _].
Qed.

Lemma sum_scan_tree (f : sf_data -> Z) (m : folder_info -> Z)
  (name : string) (files : list string) (subdirs : list Dir) :
  well_formed_root sep (Folder name files subdirs) = true ->
  additive f m -> (forall s, f (new_sf_data sep human_root s) = 0) ->
  let items := os_walk sep human_root [] (Folder name files subdirs) in
  sumZ (map (fun it => m (folder_info_of sep it)) items)
  = m (folder_info_of sep (hd {| walk_root := EmptyString; walk_rel_path := EmptyString;
                                 walk_dirs := []; walk_files := [] |} items))
    + sum_subfolders f
        (hd_subfolders (scan_items sep human_root (map dir_name subdirs) items)).
Proof.
  intros Hwf Hadd Hzero items.
  rewrite scan_items_subfolders, (sum_fold_assign sep f m) by assumption.
  rewrite sum_init_subfolders by assumption.
  subst items. rewrite attributed_below_root by assumption.
  cbn [os_walk map hd app]. rewrite sumZ_cons. lia.
Qed.

(** C1 (amended): for the scan of every well-formed tree, each total of
    the overview is the sum of the corresponding totals of the main
    subfolders plus the share of the root directory itself, which belongs
    to no main subfolder: one folder, the files directly in the root, and
    the DICOM and DAT files among them; [max_depth] is the greatest depth
    among the folder records, and [main_subfolders] is the number of main
    subfolders. *)
Theorem overview_totals_with_root (name : string) (files : list string)
  (subdirs : list Dir) :
  well_formed_root sep (Folder name files subdirs) = true ->
  exists data,
    result (scan_human_folder_complete sep human_root (Folder name files subdirs))
    = Some data /\
    ov_total_folders (hd_overview data)
    = 1 + sum_subfolders sf_total_folders (hd_subfolders data) /\
    ov_total_files (hd_overview data)
    = len files + sum_subfolders sf_total_files (hd_subfolders data) /\
    ov_total_dicom (hd_overview data)
    = count_where (fun f => is_dicom_ext (file_ext f)) files
      + sum_subfolders sf_dicom_files (hd_subfolders data) /\
    ov_total_dat (hd_overview data)
    = count_where (fun f => (file_ext f =? ".dat")%string) files
      + sum_subfolders sf_dat_files (hd_subfolders data) /\
    (forall f, In f (hd_all_folders data) -> depth f <= ov_max_depth (hd_overview data)) /\
    (exists f, In f (hd_all_folders data) /\ depth f = ov_max_depth (hd_overview data)) /\
    ov_main_subfolders (hd_overview data) = len (hd_subfolders data).
Proof.
  intros Hwf.
  set (items := os_walk sep human_root [] (Folder name files subdirs)).
  exists (scan_items sep human_root (map dir_name subdirs) items).
  split; [reflexivity|].
  rewrite scan_items_overview, scan_items_all_folders.
  cbn [ov_total_folders ov_total_files ov_total_dicom ov_total_dat ov_max_depth
       ov_main_subfolders].
  pose proof (sum_scan_tree sf_total_folders (fun _ => 1) name files subdirs Hwf
                (fun sf info => eq_refl) (fun s => eq_refl)) as H1.
  pose proof (sum_scan_tree sf_total_files num_files name files subdirs Hwf
                (fun sf info => eq_refl) (fun s => eq_refl)) as H2.
  pose proof (sum_scan_tree sf_dicom_files dicom_files name files subdirs Hwf
                (fun sf info => eq_refl) (fun s => eq_refl)) as H3.
  pose proof (sum_scan_tree sf_dat_files dat_files name files subdirs Hwf
                (fun sf info => eq_refl) (fun s => eq_refl)) as H4.
  cbv beta zeta in H1, H2, H3, H4. fold items in H1, H2, H3, H4.
  assert (Hroot : hd {| walk_root := EmptyString; walk_rel_path := EmptyString;
                        walk_dirs := []; walk_files := [] |} items
                  = {| walk_root := root_of_segments sep human_root [];
                       walk_rel_path := ".";
                       walk_dirs := map dir_name subdirs;
                       walk_files := files |}) by reflexivity.
  rewrite Hroot in H2, H3, H4.
  destruct (folder_info_of_fields sep
              {| walk_root := root_of_segments sep human_root [];
                 walk_rel_path := ".";
                 walk_dirs := map dir_name subdirs;
                 walk_files := files |}) as (_ & Ef & _ & _ & Ed & Eda & _).
  cbn [walk_files] in Ef, Ed, Eda. rewrite Ef in H2. rewrite Ed in H3. rewrite Eda in H4.
  rewrite !map_map.
  pose proof (sumZ_ones items) as Hlen.
  assert (Hfiles : sumZ (map (fun it => num_files (folder_info_of sep it)) items)
                   = sumZ (map (fun it => len (walk_files it)) items)).
  { apply f_equal, map_ext. intros it.
    now destruct (folder_info_of_fields sep it) as (_ & -> & _). }
  split; [lia|]. split; [lia|]. split; [exact H3|]. split; [exact H4|].
  split; [|split].
  - intros f Hf. apply max_or_ge. rewrite <- map_map. now apply in_map.
  - pose proof (max_or_in 0 (map (fun it => depth (folder_info_of sep it)) items)) as Hin.
    apply in_map_iff in Hin as [it [E Hit]]; [|discriminate].
    exists (folder_info_of sep it). split; [now apply in_map | exact E].
  - rewrite scan_items_subfolders. unfold len. f_equal.
    rewrite <- (length_map fst
                  (fold_left (assign sep) items
                     (init_subfolders sep human_root (map dir_name subdirs)))).
    change (map fst ?d) with (Dict.keys d).
    rewrite keys_fold_assign, keys_init_subfolders; [now rewrite length_map|].
    now apply well_formed_root_children in Hwf as [Hnd _].
Qed.

End OverviewFacts.

Lemma overview_totals_with_root_witness :
  well_formed_root "/" tree_with_root_file = true /\
  exists data,
    result (scan_human_folder_complete "/" "/data/Human" tree_with_root_file)
    = Some data /\
    ov_total_folders (hd_overview data)
    = 1 + sum_subfolders sf_total_folders (hd_subfolders data).
Proof.
  split; [reflexivity|].
  destruct (overview_totals_with_root "/" "/data/Human" "Human" ["r.dat"]
              [Folder "A" ["a.dcm"] []] eq_refl) as (data & E & H & _).
  exists data. split; [exact E | exact H].
Defined.

(** C1 as stated fails: on a root that holds the file [r.dat] and the
    main subfolder [A] with the file [a.dcm], the overview counts 2 folders,
    2 files and 1 DAT file, while the main subfolders sum to 1 folder,
    1 file and no DAT file. *)
Lemma overview_totals_counterexample :
  exists data,
    result (scan_human_folder_complete "/" "/data/Human" tree_with_root_file)
    = Some data /\
    ov_total_folders (hd_overview data) = 2 /\
    sum_subfolders sf_total_folders (hd_subfolders data) = 1 /\
    ov_total_files (hd_overview data) = 2 /\
    sum_subfolders sf_total_files (hd_subfolders data) = 1 /\
    ov_total_dat (hd_overview data) = 1 /\
    sum_subfolders sf_dat_files (hd_subfolders data) = 0 /\
    ~ (ov_total_folders (hd_overview data)
       = sum_subfolders sf_total_folders (hd_subfolders data) /\
       ov_total_files (hd_overview data)
       = sum_subfolders sf_total_files (hd_subfolders data) /\
       ov_total_dicom (hd_overview data)
       = sum_subfolders sf_dicom_files (hd_subfolders data) /\
       ov_total_dat (hd_overview data)
       = sum_subfolders sf_dat_files (hd_subfolders data)).
Proof.
  eexists. split; [reflexivity|].
  repeat (split; [vm_compute; reflexivity|]).
  vm_compute. intros [H _]. discriminate H.
Qed.

(* ================================================================= *)
(** ** Independence of the walk order *)

Section OrderFacts.
Variable sep : ascii.
Variable human_root : string.

Lemma Permutation_filter {A : Type} (p : A -> bool) (a b : list A) :
  Permutation a b -> Permutation (filter p a) (filter p b).
Proof.
  induction 1 as [| x a b _ IH | x y a | a b c _ IH1 _ IH2]; cbn [filter].
  - constructor.
  - destruct (p x); [now constructor | exact IH].
  - destruct (p x), (p y); try reflexivity. apply perm_swap.
  - etransitivity; eassumption.
Qed.

Lemma max_or_perm (d : Z) (a b : list Z) :
  Permutation a b -> max_or d a = max_or d b.
Proof.
  intros P. apply max_or_same_elements. intros x. split; apply Permutation_in;
    [exact P | now apply Permutation_sym].
Qed.

Lemma max_keys_same_lookups {V : Type} (a b : list (Z * V)) :
  (forall k, Dict.get a k = Dict.get b k) ->
  max_or 0 (Dict.keys a) = max_or 0 (Dict.keys b).
Proof.
  intros E. apply max_or_same_elements. intros k.
  rewrite <- !mem_keys. unfold Dict.mem. now rewrite E.
Qed.

(** The fields of a main subfolder that do not depend on the order in
    which it took its records. *)
Lemma fold_accumulate_perm (sf : sf_data) (a b : list folder_info) :
  Permutation a b ->
  let sa := fold_left accumulate a sf in
  let sb := fold_left accumulate b sf in
  sf_total_folders sa = sf_total_folders sb /\
  sf_total_files sa = sf_total_files sb /\
  sf_dicom_files sa = sf_dicom_files sb /\
  sf_dat_files sa = sf_dat_files sb /\
  (forall ext, Dict.get (sf_file_counts sa) ext = Dict.get (sf_file_counts sb) ext) /\
  (forall dp, Dict.get (sf_depth_counts sa) dp = Dict.get (sf_depth_counts sb) dp) /\
  max_or 0 (Dict.keys (sf_depth_counts sa)) = max_or 0 (Dict.keys (sf_depth_counts sb)) /\
  Permutation (sf_folder_details sa) (sf_folder_details sb).
Proof.
  intros P sa sb. subst sa sb. rewrite !fold_accumulate.
  cbn [sf_total_folders sf_total_files sf_dicom_files sf_dat_files sf_file_counts
       sf_depth_counts sf_folder_details].
  assert (Hdepth : forall dp,
             Dict.get (add_counts (sf_depth_counts sf) (map (fun i => (depth i, 1)) a)) dp
             = Dict.get (add_counts (sf_depth_counts sf) (map (fun i => (depth i, 1)) b)) dp).
  { intros dp. apply get_add_counts_perm. now apply Permutation_map. }
  repeat split.
  - unfold len. now rewrite (Permutation_length P).
  - now rewrite (sumZ_perm _ _ (Permutation_map num_files P)).
  - now rewrite (sumZ_perm _ _ (Permutation_map dicom_files P)).
  - now rewrite (sumZ_perm _ _ (Permutation_map dat_files P)).
  - intros ext. apply get_add_counts_perm. now apply Permutation_flat_map.
  - exact Hdepth.
  - now apply max_keys_same_lookups.
  - now apply Permutation_app_head.
Qed.

(** C5: the final totals do not depend on the order in which the
    aggregator takes the records: for two sequences of walk items that are
    permutations of each other, the overviews are equal, the global
    extension counts agree at every extension, the main subfolders are the
    same, and in every main subfolder the folder, file, DICOM and DAT
    totals, every extension count, every entry of the depth histogram and
    the maximal depth are equal. *)
Theorem totals_permutation_invariant (subs : list string) (items items' : list walk_item) :
  Permutation items items' ->
  let a := scan_items sep human_root subs items in
  let b := scan_items sep human_root subs items' in
  hd_overview a = hd_overview b /\
  (forall ext,
     Dict.get (hd_all_files_by_type a) ext = Dict.get (hd_all_files_by_type b) ext) /\
  Dict.keys (hd_subfolders a) = Dict.keys (hd_subfolders b) /\
  forall g,
    match Dict.get (hd_subfolders a) g, Dict.get (hd_subfolders b) g with
    | Some sa, Some sb =>
        sf_total_folders sa = sf_total_folders sb /\
        sf_total_files sa = sf_total_files sb /\
        sf_dicom_files sa = sf_dicom_files sb /\
        sf_dat_files sa = sf_dat_files sb /\
        (forall ext, Dict.get (sf_file_counts sa) ext = Dict.get (sf_file_counts sb) ext) /\
        (forall dp, Dict.get (sf_depth_counts sa) dp = Dict.get (sf_depth_counts sb) dp) /\
        max_or 0 (Dict.keys (sf_depth_counts sa))
        = max_or 0 (Dict.keys (sf_depth_counts sb)) /\
        Permutation (sf_folder_details sa) (sf_folder_details sb)
    | None, None => True
    | _, _ => False
    end.
Proof.
  intros P a b. subst a b.
  rewrite !scan_items_overview, !scan_items_all_files_by_type, !scan_items_subfolders.
  split; [|split; [|split]].
  - pose proof (Permutation_map (folder_info_of sep) P) as Pi.
    f_equal.
    + unfold len. now rewrite (Permutation_length P).
    + apply sumZ_perm. now apply Permutation_map.
    + apply sumZ_perm. now apply Permutation_map.
    + apply sumZ_perm. now apply Permutation_map.
    + apply sumZ_perm. now apply Permutation_map.
    + apply max_or_perm. now apply Permutation_map.
  - intros ext. apply get_add_counts_perm. now apply Permutation_flat_map.
  - now rewrite !keys_fold_assign.
  - intros g. rewrite !get_fold_assign.
    destruct (Dict.get (init_subfolders sep human_root subs) g) as [sf|]; [|exact I].
    cbn [option_map]. apply fold_accumulate_perm.
    apply Permutation_map. now apply Permutation_filter.
Qed.

End OrderFacts.

Lemma totals_permutation_invariant_witness :
  Permutation [item_A; item_A_S1] [item_A_S1; item_A] /\
  hd_overview (scan_items "/" "/data/Human" ["A"] [item_A; item_A_S1])
  = hd_overview (scan_items "/" "/data/Human" ["A"] [item_A_S1; item_A]).
Proof.
  split; [apply perm_swap|].
  exact (proj1 (totals_permutation_invariant "/" "/data/Human" ["A"]
                  [item_A; item_A_S1] [item_A_S1; item_A] (perm_swap _ _ _))).
Defined.

(* ================================================================= *)
(** ** Stable sorting *)

Section SortFacts.
Context {A : Type} (leb : A -> A -> bool).
Hypothesis leb_total : forall a b, leb a b = true \/ leb b a = true.
Hypothesis leb_trans : forall a b c, leb a b = true -> leb b c = true -> leb a c = true.

Lemma insert_sorted_perm (x : A) (l : list A) :
  Permutation (insert_sorted leb x l) (x :: l).
Proof.
  induction l as [|y l IH]; cbn [insert_sorted]; [reflexivity|].
  destruct (leb x y); [reflexivity|].
  etransitivity; [apply perm_skip, IH | apply perm_swap].
Qed.

Lemma stable_sort_perm (l : list A) : Permutation (stable_sort leb l) l.
Proof.
  induction l as [|x l IH]; cbn [stable_sort]; [reflexivity|].
  etransitivity; [apply insert_sorted_perm | now apply perm_skip].
Qed.

Lemma insert_sorted_sorted (x : A) (l : list A) :
  StronglySorted (fun a b => leb a b = true) l -> StronglySorted (fun a b => leb a b = true) (insert_sorted leb x l).
Proof.
  induction 1 as [|y l Hl IH Hy]; cbn [insert_sorted].
  - repeat constructor.
  - destruct (leb x y) eqn:E.
    + constructor; [now constructor|]. constructor; [exact E|].
      eapply Forall_impl; [|exact Hy]. intros z Hz. now apply (leb_trans x y z).
    + constructor; [exact IH|].
      assert (Hyx : leb y x = true) by (destruct (leb_total x y); [congruence | assumption]).
      apply (Permutation_Forall (Permutation_sym (insert_sorted_perm x l))).
      now constructor.
Qed.

Lemma stable_sort_sorted (l : list A) : StronglySorted (fun a b => leb a b = true) (stable_sort leb l).
Proof.
  induction l as [|x l IH]; cbn [stable_sort]; [constructor|].
  now apply insert_sorted_sorted.
Qed.

(** Stability: elements that the order does not separate keep their
    input order. *)
Lemma filter_insert_sorted (p : A -> bool) (x : A) (l : list A) :
  (forall a b, p a = true -> p b = true -> leb a b = true) ->
  filter p (insert_sorted leb x l) = filter p (x :: l).
Proof.
  intros Htied. induction l as [|y l IH]; cbn [insert_sorted]; [reflexivity|].
  destruct (leb x y) eqn:E; [reflexivity|].
  cbn [filter] in *. rewrite IH.
  destruct (p x) eqn:Ex, (p y) eqn:Ey; try reflexivity.
  rewrite (Htied x y Ex Ey) in E. discriminate.
Qed.

Lemma filter_stable_sort (p : A -> bool) (l : list A) :
  (forall a b, p a = true -> p b = true -> leb a b = true) ->
  filter p (stable_sort leb l) = filter p l.
Proof.
  intros Htied. induction l as [|x l IH]; cbn [stable_sort]; [reflexivity|].
  rewrite filter_insert_sorted by assumption. cbn [filter]. now rewrite IH.
Qed.

End SortFacts.

Section SortedFacts.
Context {A : Type} (R : A -> A -> Prop).

(** A list has one sorted arrangement when the order separates its
    elements. *)
Lemma sorted_unique (l1 l2 : list A) :
  StronglySorted R l1 -> StronglySorted R l2 -> Permutation l1 l2 ->
  (forall a b, In a l1 -> In b l1 -> R a b -> R b a -> a = b) ->
  l1 = l2.
Proof.
  intros H1. revert l2. induction H1 as [|a l1 Hl1 IH Ha]; intros l2 H2 P Hanti.
  - apply Permutation_nil in P. now subst.
  - destruct H2 as [|b l2 Hl2 Hb].
    + apply Permutation_sym, Permutation_nil in P. discriminate.
    + assert (E : a = b).
      { assert (Hain : In a (b :: l2)) by (apply (Permutation_in _ P); now left).
        assert (Hbin : In b (a :: l1))
          by (apply (Permutation_in _ (Permutation_sym P)); now left).
        destruct Hain as [-> | Hain]; [reflexivity|].
        destruct Hbin as [-> | Hbin]; [reflexivity|].
        rewrite Forall_forall in Ha, Hb.
        apply Hanti; [now left | now right | now apply Ha | now apply Hb]. }
      subst b. f_equal. apply IH; [assumption | now apply Permutation_cons_inv in P|].
      intros x y Hx Hy. apply Hanti; now right.
Qed.

Lemma sorted_app_le (l1 l2 : list A) :
  StronglySorted R (l1 ++ l2) -> forall a b, In a l1 -> In b l2 -> R a b.
Proof.
  induction l1 as [|x l1 IH]; cbn [app]; [intros _ a b []|].
  intros H a b Ha Hb. inversion H as [|? ? Hs Hx]; subst.
  destruct Ha as [<- | Ha]; [|now apply IH].
  rewrite Forall_forall in Hx. apply Hx. apply in_or_app. now right.
Qed.

Lemma sorted_firstn (n : nat) (l : list A) :
  StronglySorted R l -> StronglySorted R (firstn n l).
Proof.
  intros H. revert n. induction H as [|x l Hl IH Hx]; intros [|n]; cbn [firstn];
    try constructor; [apply IH|].
  rewrite Forall_forall in *. intros y Hy. apply Hx.
  rewrite <- (firstn_skipn n l). apply in_or_app. now left.
Qed.

Lemma sorted_map {B : Type} (S : B -> B -> Prop) (f : A -> B) (l : list A) :
  (forall a b, R a b -> S (f a) (f b)) ->
  StronglySorted R l -> StronglySorted S (map f l).
Proof.
  intros Hf. induction 1 as [|x l Hl IH Hx]; cbn [map]; constructor; [exact IH|].
  rewrite Forall_forall in *. intros y Hy. apply in_map_iff in Hy as [z [<- Hz]].
  now apply Hf, Hx.
Qed.

End SortedFacts.

Lemma filter_firstn_prefix {A : Type} (p : A -> bool) (n : nat) (l : list A) :
  exists later, filter p l = filter p (firstn n l) ++ later.
Proof.
  exists (filter p (skipn n l)). now rewrite <- filter_app, firstn_skipn.
Qed.

(* ================================================================= *)
(** ** The ranking of file types *)

Section RankingFacts.
Context {K : Type} `{PyKey K}.

Lemma count_geb_total (a b : K * Z) : count_geb a b = true \/ count_geb b a = true.
Proof. unfold count_geb. rewrite !Z.leb_le. lia. Qed.

Lemma count_geb_trans (a b c : K * Z) :
  count_geb a b = true -> count_geb b c = true -> count_geb a c = true.
Proof. unfold count_geb. rewrite !Z.leb_le. lia. Qed.

Lemma sorted_by_count_desc_sorted (c : Counter K) :
  StronglySorted (fun a b => snd b <= snd a) (sorted_by_count_desc c).
Proof.
  pose proof (stable_sort_sorted count_geb count_geb_total count_geb_trans c) as Hs.
  eapply StronglySorted_ind with (P := StronglySorted (fun a b : K * Z => snd b <= snd a));
    [constructor | | exact Hs].
  intros a l _ Hl Ha. constructor; [exact Hl|].
  eapply Forall_impl; [|exact Ha]. intros b Hb. now apply Z.leb_le in Hb.
Qed.

Lemma get_in_nodup {V : Type} (d : list (K * V)) (k : K) (v : V) :
  NoDup (Dict.keys d) -> In (k, v) d -> Dict.get d k = Some v.
Proof.
  induction d as [|[k' v'] d IH]; cbn [Dict.keys map fst Dict.get]; [intros _ []|].
  intros Hnd Hin. inversion Hnd as [|? ? Hk Hnd']; subst.
  destruct Hin as [[= -> ->] | Hin].
  - now rewrite key_eqb_refl.
  - destruct (key_eqb_spec k' k) as [-> | Hne]; [|now apply IH].
    exfalso. apply Hk. now apply (in_map fst) in Hin.
Qed.

(** Dictionaries with the same content are permutations of each other. *)
Lemma same_lookups_perm {V : Type} (a b : list (K * V)) :
  NoDup (Dict.keys a) -> NoDup (Dict.keys b) ->
  (forall k, Dict.get a k = Dict.get b k) -> Permutation a b.
Proof.
  intros Ha Hb E. apply NoDup_Permutation.
  - now apply NoDup_map_inv in Ha.
  - now apply NoDup_map_inv in Hb.
  - intros [k v]. split; intros Hin.
    + apply get_some_in. rewrite <- E. now apply get_in_nodup.
    + apply get_some_in. rewrite E. now apply get_in_nodup.
Qed.

Lemma add_seen_nodup (seen : list K) (k : K) :
  NoDup seen -> NoDup (add_seen seen k).
Proof.
  intros Hnd. unfold add_seen. destruct (existsb (key_eqb k) seen) eqn:E; [exact Hnd|].
  apply NoDup_app; [exact Hnd | repeat constructor; intros [] |].
  intros x Hx [-> | []].
  assert (existsb (key_eqb x) seen = true)
    by (apply existsb_exists; exists x; split; [assumption | apply key_eqb_refl]).
  congruence.
Qed.

Lemma fold_add_seen_nodup (ks seen : list K) :
  NoDup seen -> NoDup (fold_left add_seen ks seen).
Proof.
  revert seen. induction ks as [|k ks IH]; intros seen Hnd; [exact Hnd|].
  cbn [fold_left]. now apply IH, add_seen_nodup.
Qed.

Lemma keys_add_counts_nodup (items : list (K * Z)) :
  NoDup (Dict.keys (add_counts [] items)).
Proof. rewrite keys_add_counts. apply fold_add_seen_nodup. constructor. Qed.

(** The properties of [most_common]. *)
Lemma most_common_properties (n : nat) (c : Counter K) :
  List.length (most_common n c) = Nat.min n (List.length c) /\
  (List.length (most_common n c) <= n)%nat /\
  StronglySorted (fun a b => snd b <= snd a) (most_common n c) /\
  (forall v, exists later,
      filter (fun e => snd e =? v) c
      = filter (fun e => snd e =? v) (most_common n c) ++ later) /\
  (exists rest, Permutation c (most_common n c ++ rest) /\
                forall a b, In a (most_common n c) -> In b rest -> snd b <= snd a).
Proof.
  unfold most_common. split.
  { rewrite length_firstn. f_equal. apply Permutation_length, stable_sort_perm. }
  split; [apply firstn_le_length|].
  split; [apply sorted_firstn, sorted_by_count_desc_sorted|]. split.
  - intros v.
    destruct (filter_firstn_prefix (fun e : K * Z => snd e =? v) n (sorted_by_count_desc c))
      as [later E].
    exists later. rewrite <- E. symmetry. apply filter_stable_sort.
    intros a b Ea Eb. apply Z.eqb_eq in Ea, Eb. unfold count_geb. apply Z.leb_le. lia.
  - exists (skipn n (sorted_by_count_desc c)). rewrite firstn_skipn. split.
    + symmetry. apply stable_sort_perm.
    + apply (sorted_app_le (fun a b : K * Z => snd b <= snd a)).
      rewrite firstn_skipn. apply sorted_by_count_desc_sorted.
Qed.

(** Two counters with the same content rank alike. *)
Lemma most_common_same_content (n : nat) (c c' : Counter K) :
  Permutation c c' ->
  map snd (most_common n c) = map snd (most_common n c') /\
  (NoDup (map snd c) -> most_common n c = most_common n c').
Proof.
  intros P.
  assert (Ps : Permutation (sorted_by_count_desc c) (sorted_by_count_desc c')).
  { etransitivity; [apply stable_sort_perm|].
    etransitivity; [exact P | symmetry; apply stable_sort_perm]. }
  unfold most_common. split.
  - rewrite <- !firstn_map. f_equal.
    apply (sorted_unique (fun x y : Z => y <= x)).
    + eapply sorted_map; [|apply sorted_by_count_desc_sorted]. auto.
    + eapply sorted_map; [|apply sorted_by_count_desc_sorted]. auto.
    + now apply Permutation_map.
    + intros; lia.
  - intros Hnd. f_equal.
    apply (sorted_unique (fun a b : K * Z => snd b <= snd a));
      [apply sorted_by_count_desc_sorted.. | exact Ps |].
    intros a b Ha Hb Hab Hba.
    apply (NoDup_map_eq snd c); [assumption | | | lia].
    + apply (Permutation_in _ (stable_sort_perm count_geb c)), Ha.
    + apply (Permutation_in _ (stable_sort_perm count_geb c)), Hb.
Qed.

End RankingFacts.

Section RankingOfScan.
Variable sep : ascii.
Variable human_root : string.

Lemma keys_all_files_by_type (subs : list string) (items : list walk_item) :
  Dict.keys (hd_all_files_by_type (scan_items sep human_root subs items))
  = first_seen (map file_ext (flat_map walk_files items)).
Proof.
  rewrite scan_items_all_files_by_type, keys_add_counts. unfold first_seen. f_equal.
  induction items as [|it items IH]; [reflexivity|].
  cbn [flat_map]. rewrite !map_app, IH. f_equal.
  unfold ext_items. rewrite map_map. reflexivity.
Qed.

(** A counter fed with counts of 1 holds no count below 1. *)
Lemma get_add_counts_pos {K : Type} `{PyKey K} (items : list (K * Z)) (k : K) (n : Z) :
  (forall e, In e items -> snd e = 1) ->
  Dict.get (add_counts [] items) k = Some n -> 1 <= n.
Proof.
  intros Hone Hget. rewrite get_count_mem in Hget.
  destruct (Dict.mem (add_counts [] items) k) eqn:M; [|discriminate].
  injection Hget as <-. rewrite mem_add_counts in M. cbn [Dict.mem Dict.get orb] in M.
  rewrite count_add_counts. unfold count at 1. cbn [Dict.get]. unfold weight.
  induction items as [|e items IH]; [discriminate|].
  cbn [existsb] in M. cbn [filter].
  assert (Hw : 0 <= sumZ (map snd (filter (fun kn => key_eqb (fst kn) k) items))).
  { clear IH M. induction items as [|x items IH]; [cbn; lia|].
    cbn [filter]. destruct (key_eqb (fst x) k); cbn [map].
    - rewrite sumZ_cons, (Hone x) by (right; now left).
      assert (0 <= sumZ (map snd (filter (fun kn => key_eqb (fst kn) k) items)));
        [|lia].
      apply IH. intros y [Hy | Hy]; apply Hone; [now left | right; now right].
    - apply IH. intros y [Hy | Hy]; apply Hone; [now left | right; now right]. }
  destruct (key_eqb (fst e) k); cbn [map].
  - rewrite sumZ_cons, (Hone e) by now left. lia.
  - cbn [orb] in M. apply IH; [|exact M]. intros y Hy. apply Hone. now right.
Qed.

(** C6: the ranking of file types of the overview is [most_common 20] of
    the global extension counts: it has 20 pairs, or as many as there are
    extensions when these are fewer, in descending order of count; each
    pair is an extension with its count, and no extension comes twice; the
    extensions are kept by the counter in the order in which the scan first
    met them, and among pairs of equal count the ranking keeps that order
    and takes the earliest ones; whatever is left out counts no more than
    what is ranked, and nothing is left out when there are at most 20
    extensions.  A run whose final counts are the same at every extension
    yields the same sequence of counts, and the same ranking when no two
    extensions tie. *)
Theorem file_type_ranking (subs : list string) (items : list walk_item)
  (c' : Counter string) :
  let data := scan_items sep human_root subs items in
  let c := hd_all_files_by_type data in
  let ranking := snd (create_overview_sheet data) in
  ranking = most_common 20 c /\
  (List.length ranking <= 20)%nat /\
  StronglySorted (fun a b => snd b <= snd a) ranking /\
  Dict.keys c = first_seen (map file_ext (flat_map walk_files items)) /\
  List.length ranking
  = Nat.min 20 (List.length (first_seen (map file_ext (flat_map walk_files items)))) /\
  NoDup (map fst ranking) /\
  (forall ext n, In (ext, n) ranking -> Dict.get c ext = Some n /\ 1 <= n) /\
  ((List.length c <= 20)%nat -> Permutation ranking c) /\
  (forall v, exists later,
      filter (fun e => snd e =? v) c = filter (fun e => snd e =? v) ranking ++ later) /\
  (exists rest, Permutation c (ranking ++ rest) /\
                forall a b, In a ranking -> In b rest -> snd b <= snd a) /\
  (NoDup (Dict.keys c') -> (forall ext, Dict.get c ext = Dict.get c' ext) ->
   map snd ranking = map snd (most_common 20 c') /\
   (NoDup (map snd c) -> ranking = most_common 20 c')).
Proof.
  intros data c ranking.
  assert (Er : ranking = most_common 20 c) by reflexivity.
  rewrite Er. clear Er ranking.
  destruct (most_common_properties 20 c) as (H0 & H1 & H2 & H3 & H4).
  assert (Hkeys : Dict.keys c = first_seen (map file_ext (flat_map walk_files items)))
    by apply keys_all_files_by_type.
  assert (Hndc : NoDup (Dict.keys c)).
  { subst c data. rewrite scan_items_all_files_by_type. apply keys_add_counts_nodup. }
  assert (Hpos : forall ext n, Dict.get c ext = Some n -> 1 <= n).
  { intros ext n Hget. subst c data.
    rewrite scan_items_all_files_by_type in Hget.
    pose proof (get_add_counts_pos (flat_map (fun it => ext_items (walk_files it)) items)
                  ext n) as Hp.
    apply Hp; [|exact Hget].
    intros e He. apply in_flat_map in He as [it [_ He]].
    unfold ext_items in He. apply in_map_iff in He as [f [<- _]]. reflexivity. }
  destruct H4 as [rest [Hperm Hrest]].
  split; [reflexivity|]. split; [exact H1|]. split; [exact H2|]. split; [exact Hkeys|].
  split; [|split; [|split; [|split; [|split; [exact H3|split]]]]].
  - rewrite H0, <- Hkeys. unfold Dict.keys. now rewrite length_map.
  - apply (Permutation_map fst) in Hperm. rewrite map_app in Hperm.
    apply (Permutation_NoDup Hperm) in Hndc. now apply NoDup_app_remove_r in Hndc.
  - intros ext n Hin.
    assert (Hget : Dict.get c ext = Some n).
    { apply get_in_nodup; [exact Hndc|].
      apply (Permutation_in _ (Permutation_sym Hperm)), in_or_app. now left. }
    split; [exact Hget | now apply (Hpos ext)].
  - intros Hle. apply Permutation_length in Hperm as Hlen.
    rewrite length_app, H0 in Hlen.
    destruct rest as [|r rest]; [|cbn [List.length] in Hlen; lia].
    rewrite app_nil_r in Hperm. now apply Permutation_sym.
  - exists rest. now split.
  - intros Hnd E. apply most_common_same_content.
    apply same_lookups_perm; assumption.
Qed.

End RankingOfScan.

Lemma file_type_ranking_witness :
  NoDup (Dict.keys counts_other_order) /\
  (forall ext,
     Dict.get (hd_all_files_by_type
                 (scan_items "/" "/data/Human" ["A"] [item_A; item_A_S1])) ext
     = Dict.get counts_other_order ext) /\
  map snd (snd (create_overview_sheet
                  (scan_items "/" "/data/Human" ["A"] [item_A; item_A_S1])))
  = map snd (most_common 20 counts_other_order).
Proof.
  assert (Hnd : NoDup (Dict.keys counts_other_order)).
  { repeat constructor; cbn; intuition discriminate. }
  assert (E : forall ext,
             Dict.get (hd_all_files_by_type
                         (scan_items "/" "/data/Human" ["A"] [item_A; item_A_S1])) ext
             = Dict.get counts_other_order ext).
  { intros ext.
    replace (hd_all_files_by_type
               (scan_items "/" "/data/Human" ["A"] [item_A; item_A_S1]))
      with [(".dat", 1); (".gz", 1); (".mat", 1)] by (vm_compute; reflexivity).
    unfold counts_other_order. cbn [Dict.get key_eqb string_PyKey].
    destruct (String.eqb_spec ".dat" ext), (String.eqb_spec ".gz" ext),
      (String.eqb_spec ".mat" ext); congruence. }
  split; [exact Hnd|]. split; [exact E|].
  pose proof (file_type_ranking "/" "/data/Human" ["A"] [item_A; item_A_S1]
                counts_other_order) as H.
  cbv zeta in H. destruct H as (_ & _ & _ & _ & _ & _ & _ & _ & _ & _ & H).
  exact (proj1 (H Hnd E)).
Defined.

(* ================================================================= *)
(** ** The order of the rows *)

Section RowOrderFacts.

Lemma string_compare_le_trans (a b c : string) :
  String.compare a b <> Gt -> String.compare b c <> Gt -> String.compare a c <> Gt.
Proof.
  revert b c. induction a as [|x a IH]; intros [|y b] [|z c]; cbn [String.compare];
    try congruence.
  unfold Ascii.compare.
  destruct (N.compare_spec (N_of_ascii x) (N_of_ascii y)) as [E1 | L1 | G1];
    destruct (N.compare_spec (N_of_ascii y) (N_of_ascii z)) as [E2 | L2 | G2];
    destruct (N.compare_spec (N_of_ascii x) (N_of_ascii z)) as [E3 | L3 | G3];
    try congruence; try lia.
  apply IH.
Qed.

Lemma string_leb_trans (a b c : string) :
  String.leb a b = true -> String.leb b c = true -> String.leb a c = true.
Proof.
  unfold String.leb. intros H1 H2.
  pose proof (string_compare_le_trans a b c) as H.
  destruct (String.compare a b), (String.compare b c), (String.compare a c);
    try reflexivity; try discriminate; exfalso; apply H; congruence.
Qed.

Lemma depth_path_leb_iff (d1 : Z) (p1 : string) (d2 : Z) (p2 : string) :
  depth_path_leb d1 p1 d2 p2 = true <->
  d1 < d2 \/ (d1 = d2 /\ String.leb p1 p2 = true).
Proof.
  unfold depth_path_leb.
  rewrite orb_true_iff, andb_true_iff, Z.ltb_lt, Z.eqb_eq. reflexivity.
Qed.

Lemma depth_path_leb_total (d1 : Z) (p1 : string) (d2 : Z) (p2 : string) :
  depth_path_leb d1 p1 d2 p2 = true \/ depth_path_leb d2 p2 d1 p1 = true.
Proof.
  rewrite !depth_path_leb_iff.
  destruct (Z.lt_trichotomy d1 d2) as [H | [H | H]]; [now left; left | | now right; left].
  destruct (String.leb_total p1 p2); [left | right]; right; auto.
Qed.

Lemma depth_path_leb_trans (d1 : Z) (p1 : string) (d2 : Z) (p2 : string)
  (d3 : Z) (p3 : string) :
  depth_path_leb d1 p1 d2 p2 = true -> depth_path_leb d2 p2 d3 p3 = true ->
  depth_path_leb d1 p1 d3 p3 = true.
Proof.
  rewrite !depth_path_leb_iff.
  intros [H1 | [H1 L1]] [H2 | [H2 L2]]; try (left; lia).
  right. split; [lia | now apply (string_leb_trans p1 p2 p3)].
Qed.

Lemma depth_path_leb_antisym (d1 : Z) (p1 : string) (d2 : Z) (p2 : string) :
  depth_path_leb d1 p1 d2 p2 = true -> depth_path_leb d2 p2 d1 p1 = true ->
  d1 = d2 /\ p1 = p2.
Proof.
  rewrite !depth_path_leb_iff.
  intros [H1 | [H1 L1]] [H2 | [H2 L2]]; try lia.
  split; [assumption | now apply String.leb_antisym].
Qed.

Lemma sorted_impl {A : Type} (R S : A -> A -> Prop) (l : list A) :
  (forall a b, R a b -> S a b) -> StronglySorted R l -> StronglySorted S l.
Proof.
  intros HRS. induction 1 as [|x l Hl IH Hx]; constructor; [exact IH|].
  eapply Forall_impl; [|exact Hx]. auto.
Qed.

(** Keys that are distinct stay distinct among the elements kept by a
    filter. *)
Lemma distinct_keys_filter {A B : Type} (key : A -> B) (keep : A -> bool)
  (xs : list A) (Hnd : NoDup (map key xs)) :
  NoDup (map key (filter keep xs)).
Proof.
  induction xs as [|x xs IH]; cbn [map filter]; [constructor|].
  cbn [map] in Hnd. apply NoDup_cons_iff in Hnd as [Hx Hnd].
  destruct (keep x); [|now apply IH]. cbn [map]. constructor; [|now apply IH].
  intros Hin. apply Hx. apply in_map_iff in Hin as [y [E Hy]].
  apply filter_In in Hy as [Hy _]. rewrite <- E. now apply in_map.
Qed.

(** Sorting by depth, then path, gives one table whatever the order of
    the input rows, when their paths are distinct. *)
Lemma sort_rows_unique {A : Type} (leb : A -> A -> bool) (dp : A -> Z) (pt : A -> string)
  (rows other : list A) :
  (forall a b, leb a b = depth_path_leb (dp a) (pt a) (dp b) (pt b)) ->
  NoDup (map pt rows) ->
  Permutation other (stable_sort leb rows) ->
  StronglySorted (fun a b => leb a b = true) other ->
  other = stable_sort leb rows.
Proof.
  intros Hleb Hnd P Hs.
  apply (sorted_unique (fun a b => leb a b = true)); [exact Hs | | exact P |].
  - apply stable_sort_sorted; intros; rewrite !Hleb in *.
    + apply depth_path_leb_total.
    + eapply depth_path_leb_trans; eassumption.
  - intros a b Ha Hb Hab Hba. rewrite Hleb in Hab, Hba.
    destruct (depth_path_leb_antisym _ _ _ _ Hab Hba) as [_ E].
    assert (Prows : Permutation other rows)
      by (etransitivity; [exact P | apply stable_sort_perm]).
    apply (NoDup_map_eq pt rows); [assumption | | | assumption].
    + now apply (Permutation_in _ Prows).
    + now apply (Permutation_in _ Prows).
Qed.

End RowOrderFacts.

Section SheetFacts.
Variable sep : ascii.
Variable human_root : string.

Lemma create_subfolder_sheet_eq (subfolder_name : string) (sf : sf_data) :
  create_subfolder_sheet sep subfolder_name sf
  = stable_sort subfolder_row_leb
      (map (subfolder_row_of sep subfolder_name
              (subject_status_of
                 (subject_ext_counts_of sep subfolder_name (sf_folder_details sf))))
         (sf_folder_details sf)).
Proof.
  unfold create_subfolder_sheet. now destruct (sf_folder_details sf).
Qed.

Lemma init_subfolders_details (subs : list string) (g : string) (sf : sf_data) :
  Dict.get (init_subfolders sep human_root subs) g = Some sf ->
  sf_folder_details sf = [].
Proof.
  intros E. apply get_some_in in E.
  pose proof (init_subfolders_forall sep human_root
                (fun e => sf_folder_details (snd e) = []) subs
                (fun k s => eq_refl)) as Hall.
  rewrite Forall_forall in Hall. exact (Hall _ E).
Qed.

(** The folder records of a main subfolder are those of the items that
    lie in it, in the order of the walk. *)
Lemma scan_items_folder_details (subs : list string) (items : list walk_item)
  (g : string) (sf : sf_data) :
  Dict.get (hd_subfolders (scan_items sep human_root subs items)) g = Some sf ->
  sf_folder_details sf = map (folder_info_of sep) (filter (in_group sep g) items).
Proof.
  rewrite scan_items_subfolders, get_fold_assign.
  destruct (Dict.get (init_subfolders sep human_root subs) g) as [sf0|] eqn:E0;
    [|discriminate].
  cbn [option_map]. intros [= <-]. rewrite fold_accumulate. cbn [sf_folder_details].
  now rewrite (init_subfolders_details subs g sf0 E0).
Qed.

Lemma map_path_folder_info (items : list walk_item) :
  map path (map (folder_info_of sep) items) = map walk_rel_path items.
Proof. rewrite map_map. apply map_ext. intros it. reflexivity. Qed.

(** C8: the rows of the table of a main subfolder are in ascending order
    of depth, and of relative path among rows of one depth, and so are the
    rows of the table of all folders; each table holds the rows of its
    folder records.  For the scan of a well-formed tree the relative paths
    of the folder records are pairwise distinct, so each table is the only
    arrangement of its rows in that order: any run that produces the same
    rows produces the same table. *)
Theorem sheet_rows_ordered (data : human_data) (subfolder_name : string)
  (sf : sf_data) (fs : Dir) :
  let row_le (r1 r2 : subfolder_row) :=
    Depth r1 < Depth r2 \/
    (Depth r1 = Depth r2 /\ String.leb (Relative_Path r1) (Relative_Path r2) = true) in
  let af_le (r1 r2 : all_folders_row) :=
    af_depth r1 < af_depth r2 \/
    (af_depth r1 = af_depth r2 /\ String.leb (af_path r1) (af_path r2) = true) in
  (StronglySorted row_le (create_subfolder_sheet sep subfolder_name sf) /\
   Permutation (map Relative_Path (create_subfolder_sheet sep subfolder_name sf))
     (map path (sf_folder_details sf))) /\
  (StronglySorted af_le (all_folders_sheet data) /\
   Permutation (all_folders_sheet data) (map all_folders_row_of (hd_all_folders data))) /\
  (well_formed_root sep fs = true ->
   forall data',
     result (scan_human_folder_complete sep human_root fs) = Some data' ->
     NoDup (map path (hd_all_folders data')) /\
     (forall rows,
        Permutation rows (all_folders_sheet data') -> StronglySorted af_le rows ->
        rows = all_folders_sheet data') /\
     (forall g sf' rows,
        Dict.get (hd_subfolders data') g = Some sf' ->
        Permutation rows (create_subfolder_sheet sep g sf') ->
        StronglySorted row_le rows ->
        rows = create_subfolder_sheet sep g sf')).
Proof.
  intros row_le af_le.
  assert (Hrow : forall a b, subfolder_row_leb a b = true <-> row_le a b)
    by (intros; apply depth_path_leb_iff).
  assert (Haf : forall a b, all_folders_row_leb a b = true <-> af_le a b)
    by (intros; apply depth_path_leb_iff).
  assert (Srow : forall l, StronglySorted row_le (stable_sort subfolder_row_leb l)).
  { intros l. apply (sorted_impl (fun a b => subfolder_row_leb a b = true));
      [intros a b; apply Hrow|].
    apply stable_sort_sorted; intros; unfold subfolder_row_leb in *.
    - apply depth_path_leb_total.
    - eapply depth_path_leb_trans; eassumption. }
  assert (Saf : forall l, StronglySorted af_le (stable_sort all_folders_row_leb l)).
  { intros l. apply (sorted_impl (fun a b => all_folders_row_leb a b = true));
      [intros a b; apply Haf|].
    apply stable_sort_sorted; intros; unfold all_folders_row_leb in *.
    - apply depth_path_leb_total.
    - eapply depth_path_leb_trans; eassumption. }
  split; [|split].
  - rewrite create_subfolder_sheet_eq. split; [apply Srow|].
    etransitivity; [apply Permutation_map, stable_sort_perm|].
    rewrite map_map. cbn [subfolder_row_of Relative_Path]. reflexivity.
  - split; [apply Saf | apply stable_sort_perm].
  - intros Hwf data' Hres.
    destruct fs as [name files subdirs | name why]; [|discriminate].
    unfold scan_human_folder_complete in Hres. cbn [listdir_dirs result ret snd] in Hres.
    injection Hres as <-.
    set (items := os_walk sep human_root [] (Folder name files subdirs)).
    assert (Hnd : NoDup (map walk_rel_path items)) by now apply walk_paths_nodup.
    rewrite scan_items_all_folders, map_path_folder_info.
    split; [exact Hnd|]. split.
    + intros rows P Hs. unfold all_folders_sheet in *.
      apply (sort_rows_unique all_folders_row_leb af_depth af_path);
        [reflexivity | | exact P |].
      * rewrite scan_items_all_folders, map_map.
        change (NoDup (map path (map (folder_info_of sep) items))).
        rewrite map_path_folder_info. exact Hnd.
      * eapply sorted_impl; [|exact Hs]. intros a b. apply Haf.
    + intros g sf' rows Hget P Hs. rewrite create_subfolder_sheet_eq in *.
      apply (sort_rows_unique subfolder_row_leb Depth Relative_Path);
        [reflexivity | | exact P |].
      * rewrite map_map. change (NoDup (map path (sf_folder_details sf'))).
        rewrite (scan_items_folder_details _ _ _ _ Hget), map_path_folder_info.
        now apply distinct_keys_filter.
      * eapply sorted_impl; [|exact Hs]. intros a b. apply Hrow.
Qed.

End SheetFacts.

Lemma sheet_rows_ordered_witness :
  well_formed_root "/" tree_two_groups = true /\
  exists data,
    result (scan_human_folder_complete "/" "/data/Human" tree_two_groups) = Some data /\
    NoDup (map path (hd_all_folders data)).
Proof.
  split; [reflexivity|]. eexists. split; [reflexivity|].
  exact (proj1 (proj2 (proj2 (sheet_rows_ordered "/" "/data/Human"
                                (scan_items "/" "/data/Human" [] [])
                                "A" (new_sf_data "/" "/data/Human" "A")
                                tree_two_groups))
                 eq_refl _ eq_refl)).
Defined.

(* ================================================================= *)
(** ** The extension counts of subjects *)

Section SubjectFacts.
Variable sep : ascii.
Variable human_root : string.

Lemma set_nodup {V : Type} (d : list (string * V)) (k : string) (v : V) :
  NoDup (Dict.keys d) -> NoDup (Dict.keys (Dict.set d k v)).
Proof.
  intros Hnd. rewrite keys_set. destruct (Dict.mem d k) eqn:E; [exact Hnd|].
  apply NoDup_app; [exact Hnd | repeat constructor; intros [] |].
  intros x Hx [-> | []]. apply mem_keys in Hx. congruence.
Qed.

Lemma counter_of_set (d : list (string * Counter string)) (k s : string)
  (c : Counter string) :
  counter_of (Dict.set d k c) s = if (k =? s)%string then c else counter_of d s.
Proof.
  unfold counter_of. rewrite get_set. cbn [key_eqb string_PyKey].
  now destruct (k =? s)%string.
Qed.

(** The inner loop of a folder touches the counter of its subject only. *)
Lemma fold_subject_counts (subject : string) (pairs : list (string * Z))
  (acc : list (string * Counter string)) (s : string) :
  counter_of
    (fold_left
       (fun acc ext_c =>
          let cnts := match Dict.get acc subject with
                      | Some cnts => cnts
                      | None => []
                      end in
          Dict.set acc subject (add_count cnts (fst ext_c) (snd ext_c)))
       pairs acc) s
  = if (subject =? s)%string then add_counts (counter_of acc s) pairs
    else counter_of acc s.
Proof.
  revert acc. induction pairs as [|[ext n] pairs IH]; intros acc.
  - cbn [fold_left]. now destruct (subject =? s)%string.
  - cbn [fold_left]. rewrite IH, counter_of_set. cbn [fst snd].
    destruct (String.eqb_spec subject s) as [-> | Hne]; reflexivity.
Qed.

Lemma counter_of_add_subject_counts (g : string)
  (acc : list (string * Counter string)) (f : folder_info) (s : string) :
  s <> EmptyString ->
  counter_of (add_subject_counts sep g acc f) s
  = if (subject_of sep g f =? s)%string
    then add_counts (counter_of acc s) (file_types f)
    else counter_of acc s.
Proof.
  intros Hs. unfold add_subject_counts. fold (subject_of sep g f).
  destruct (String.eqb_spec (subject_of sep g f) EmptyString) as [E | E].
  - rewrite E. destruct (String.eqb_spec EmptyString s) as [Es | Es];
      [congruence | reflexivity].
  - apply fold_subject_counts.
Qed.

Lemma counter_of_fold_subjects (g : string) (folders : list folder_info)
  (acc : list (string * Counter string)) (s : string) :
  s <> EmptyString ->
  counter_of (fold_left (add_subject_counts sep g) folders acc) s
  = add_counts (counter_of acc s)
      (flat_map file_types
         (filter (fun f => (subject_of sep g f =? s)%string) folders)).
Proof.
  intros Hs. revert acc. induction folders as [|f folders IH]; intros acc; [reflexivity|].
  cbn [fold_left filter]. rewrite IH, counter_of_add_subject_counts by assumption.
  destruct (subject_of sep g f =? s)%string; [|reflexivity].
  cbn [flat_map]. now rewrite add_counts_app.
Qed.

(** The counter of a subject holds the extension counts of the folders of
    that subject. *)
Lemma counter_of_subject (g : string) (folders : list folder_info) (s : string) :
  s <> EmptyString ->
  counter_of (subject_ext_counts_of sep g folders) s
  = add_counts []
      (flat_map file_types
         (filter (fun f => (subject_of sep g f =? s)%string) folders)).
Proof. intros Hs. unfold subject_ext_counts_of. now rewrite counter_of_fold_subjects. Qed.

Lemma sumZ_flat_file_types (folders : list folder_info) :
  sumZ (map snd (flat_map file_types folders))
  = sumZ (map (fun f => total (file_types f)) folders).
Proof.
  induction folders as [|f folders IH]; [reflexivity|].
  cbn [flat_map map]. now rewrite map_app, sumZ_app, sumZ_cons, IH.
Qed.

Lemma weight_app (k : string) (a b : list (string * Z)) :
  weight k (a ++ b) = weight k a + weight k b.
Proof. unfold weight. now rewrite filter_app, map_app, sumZ_app. Qed.

Lemma weight_cons (k k' : string) (n : Z) (c : list (string * Z)) :
  weight k ((k', n) :: c) = (if (k' =? k)%string then n else 0) + weight k c.
Proof.
  unfold weight. cbn [filter fst key_eqb string_PyKey].
  destruct (k' =? k)%string; [cbn [map snd]; now rewrite sumZ_cons | lia].
Qed.

(** In a counter the weight of a key is its count. *)
Lemma weight_counter (k : string) (c : Counter string) :
  NoDup (Dict.keys c) -> weight k c = count c k.
Proof.
  induction c as [|[k' n] c IH]; [reflexivity|].
  cbn [Dict.keys map fst]. intros Hnd. inversion Hnd as [|? ? Hk Hnd']; subst.
  rewrite weight_cons, (IH Hnd'). unfold count. cbn [Dict.get key_eqb string_PyKey].
  destruct (String.eqb_spec k' k) as [-> | Hne]; [|lia].
  apply get_none_keys in Hk. rewrite Hk. lia.
Qed.

(** What the folders of a list give to one extension. *)
Lemma weight_flat_file_types (k : string) (items : list walk_item) :
  weight k (flat_map file_types (map (folder_info_of sep) items))
  = sumZ (map (fun it => count_where (fun f => (file_ext f =? k)%string) (walk_files it))
            items).
Proof.
  induction items as [|it items IH]; [reflexivity|].
  cbn [map flat_map]. rewrite weight_app, sumZ_cons, IH. f_equal.
  destruct (folder_info_of_fields sep it) as (_ & _ & _ & -> & _).
  pose proof (count_add_counts [] (ext_items (walk_files it)) k) as Hc.
  rewrite <- weight_ext_items. 
  rewrite weight_counter by apply keys_add_counts_nodup.
  rewrite Hc. unfold count. cbn [Dict.get]. lia.
Qed.

Lemma subject_ext_counts_nodup (g : string) (folders : list folder_info) :
  NoDup (Dict.keys (subject_ext_counts_of sep g folders)).
Proof.
  unfold subject_ext_counts_of.
  assert (Hfold : forall acc, NoDup (Dict.keys acc) ->
             NoDup (Dict.keys (fold_left (add_subject_counts sep g) folders acc))).
  { induction folders as [|f folders IH]; intros acc Hacc; [exact Hacc|].
    cbn [fold_left]. apply IH. unfold add_subject_counts.
    destruct (part (parts_of sep g f) 1 =? EmptyString)%string; [exact Hacc|].
    generalize (file_types f). intros pairs. revert acc Hacc.
    induction pairs as [|p pairs IHp]; intros acc Hacc; [exact Hacc|].
    cbn [fold_left]. apply IHp. now apply set_nodup. }
  apply Hfold. constructor.
Qed.

(** The status of a subject is the classifier applied to its counter. *)
Lemma get_subject_status (d : list (string * Counter string)) (s : string) :
  NoDup (Dict.keys d) ->
  Dict.get (subject_status_of d) s = option_map status_of_counter (Dict.get d s).
Proof.
  unfold subject_status_of.
  assert (Hfold : forall d acc,
             NoDup (Dict.keys d) ->
             Dict.get
               (fold_left
                  (fun subject_status subj_cnts =>
                     Dict.set subject_status (fst subj_cnts)
                       (status_of_counter (snd subj_cnts))) d acc) s
             = match Dict.get d s with
               | Some c => Some (status_of_counter c)
               | None => Dict.get acc s
               end).
  { clear d. induction d as [|[k c] d IH]; intros acc Hnd; [reflexivity|].
    cbn [Dict.keys map fst] in Hnd. inversion Hnd as [|? ? Hk Hnd']; subst.
    cbn [fold_left fst snd Dict.get key_eqb string_PyKey]. rewrite IH by assumption.
    destruct (String.eqb_spec k s) as [-> | Hne].
    - fold (Dict.keys d) in Hk. apply get_none_keys in Hk. rewrite Hk.
      apply get_set_same.
    - destruct (Dict.get d s); [reflexivity|]. now apply get_set_other. }
  intros Hnd. rewrite Hfold by assumption. now destruct (Dict.get d s).
Qed.

End SubjectFacts.

Section ExtensionFacts.
Variable sep : ascii.
Variable human_root : string.

Lemma filter_map_swap {A B : Type} (f : A -> B) (p : B -> bool) (l : list A) :
  filter p (map f l) = map f (filter (fun x => p (f x)) l).
Proof.
  induction l as [|x l IH]; [reflexivity|]. cbn [map filter].
  destruct (p (f x)); cbn [map]; now rewrite IH.
Qed.

Lemma filter_filter {A : Type} (p q : A -> bool) (l : list A) :
  filter p (filter q l) = filter (fun x => (q x && p x)%bool) l.
Proof.
  induction l as [|x l IH]; [reflexivity|]. cbn [filter].
  destruct (q x); cbn [filter andb]; [destruct (p x)|]; now rewrite IH.
Qed.

Lemma count_file_counts (st : file_loop) (file k : string) :
  count (fl_file_types (count_file st file)) k
  = count (fl_file_types st) k + (if (file_ext file =? k)%string then 1 else 0) /\
  count (fl_all_files_by_type (count_file st file)) k
  = count (fl_all_files_by_type st) k + (if (file_ext file =? k)%string then 1 else 0).
Proof.
  unfold count_file. cbn [fl_file_types fl_all_files_by_type].
  rewrite !count_add_count. cbn [key_eqb string_PyKey].
  destruct (String.eqb_spec (file_ext file) k) as [-> | Hne]; split; lia.
Qed.

Lemma rfind_last (stem r : string) :
  contains dot r = false ->
  rfind dot (stem ++ String dot r) = Some (String.length stem) /\
  take (String.length stem) (stem ++ String dot r) = stem /\
  drop (String.length stem) (stem ++ String dot r) = String dot r.
Proof.
  intros Hr. apply rfind_none_contains in Hr.
  induction stem as [|a stem (IH1 & IH2 & IH3)]; cbn [append String.length rfind take drop].
  - rewrite Hr, Ascii.eqb_refl. repeat split; reflexivity.
  - rewrite IH1, IH2, IH3. repeat split; reflexivity.
Qed.

(** The extension of a name cut at its last dot. *)
Lemma file_ext_at_last_dot (stem r : string) :
  contains dot r = false ->
  file_ext (stem ++ String dot r)
  = if all_char dot stem then EmptyString else lower (String dot r).
Proof.
  intros Hr. destruct (rfind_last stem r Hr) as (E1 & E2 & E3).
  unfold file_ext, splitext. rewrite E1, E2, E3.
  destruct (all_char dot stem); reflexivity.
Qed.

(** C10 (amended): every file is counted under one key, the extension of
    [os.path.splitext] in lower case: for a name cut at its last dot, the
    part from that dot in lower case, unless only dots, or nothing, come
    before that dot, when the key is the empty string; a name that holds a
    dot is cut in this way, and a name that holds none has the empty key.
    So the key is the final dot-suffix in lower case, except that it is
    empty on names such as [.bashrc], where only dots, or nothing, come
    before the last dot.  As each file has one key, the extension counts of
    a folder, of a main subfolder, of a subject and of the whole scan sum
    to the number of files of each.  [x.nii.gz] is
    counted under [.gz], not under [.nii.gz], and still counts as NIfTI.
    The status of a subject is the classifier applied to the counts of its
    counter at [.mat], [.dat] and [.ima], and the count at an extension is
    the number of files of the subject with that last extension: a subject
    whose only file is [a.mat.gz] is not [Processed]. *)
Theorem extension_keys (file : string) (st : file_loop) (cnts : Counter string)
  (subs : list string) (items : list walk_item) :
  let data := scan_items sep human_root subs items in
  ((forall stem r,
       file = (stem ++ String dot r)%string -> contains dot r = false ->
       file_ext file = if all_char dot stem then EmptyString else lower (String dot r)) /\
   (contains dot file = true ->
    exists stem r, file = (stem ++ String dot r)%string /\ contains dot r = false) /\
   (file_ext file = final_dot_suffix_lowercased file \/
    file_ext file = EmptyString /\
    exists dots r, file = (dots ++ String dot r)%string /\ all_char dot dots = true /\
                   contains dot r = false)) /\
  (contains dot file = false -> file_ext file = EmptyString) /\
  (forall k,
      count (fl_file_types (count_file st file)) k
      = count (fl_file_types st) k + (if (file_ext file =? k)%string then 1 else 0) /\
      count (fl_all_files_by_type (count_file st file)) k
      = count (fl_all_files_by_type st) k
        + (if (file_ext file =? k)%string then 1 else 0)) /\
  Forall (fun f => total (file_types f) = num_files f) (hd_all_folders data) /\
  Forall (fun e => total (sf_file_counts (snd e)) = sf_total_files (snd e))
    (hd_subfolders data) /\
  total (hd_all_files_by_type data) = ov_total_files (hd_overview data) /\
  (forall g sf subject,
      Dict.get (hd_subfolders data) g = Some sf -> subject <> EmptyString ->
      let d := subject_ext_counts_of sep g (sf_folder_details sf) in
      total (counter_of d subject)
      = sumZ (map num_files
                (filter (fun f => (subject_of sep g f =? subject)%string)
                   (sf_folder_details sf))) /\
      Dict.get (subject_status_of d) subject
      = option_map status_of_counter (Dict.get d subject) /\
      forall k,
        count (counter_of d subject) k
        = sumZ (map (fun it =>
                       count_where (fun f => (file_ext f =? k)%string) (walk_files it))
                  (filter (fun it =>
                             (in_group sep g it
                              && (subject_of sep g (folder_info_of sep it) =? subject)%string)%bool)
                     items))) /\
  (file_ext "x.nii.gz" = ".gz" /\ is_nifti_filename "x.nii.gz" = true /\
   fl_nifti_count (count_file st "x.nii.gz") = fl_nifti_count st + 1 /\
   count (fl_file_types (count_file st "x.nii.gz")) ".nii.gz"
   = count (fl_file_types st) ".nii.gz") /\
  status_of_counter cnts
  = subject_status_of_counts (count cnts ".mat") (count cnts ".dat") (count cnts ".ima") /\
  file_ext "a.mat.gz" = ".gz" /\
  subject_statuses "/" "/data/Human" tree_mat_gz "A" = [("A", EmptyString); ("A/S1", "Unknown")].
Proof.
  intros data.
  split; [|split; [|split; [|split; [|split; [|split; [|split; [|split]]]]]]].
  - assert (Hcut : contains dot file = true ->
                    exists stem r,
                      file = (stem ++ String dot r)%string /\ contains dot r = false).
    { intros Hd. destruct (rfind dot file) as [i|] eqn:E.
      - destruct (rfind_some _ _ _ E) as [E1 [r [E2 Hr]]].
        exists (take i file), r. split; [now rewrite <- E2 | exact Hr].
      - apply rfind_none_contains in E. congruence. }
    split; [|split; [exact Hcut|]].
    + intros stem r -> Hr. now apply file_ext_at_last_dot.
    + destruct (contains dot file) eqn:Hd.
      * destruct (Hcut eq_refl) as (stem & r & -> & Hr).
        rewrite (file_ext_at_last_dot stem r Hr).
        unfold final_dot_suffix_lowercased, last_dot_suffix.
        destruct (rfind_last stem r Hr) as (-> & _ & ->).
        destruct (all_char dot stem) eqn:Ha; [right | now left].
        split; [reflexivity|]. now exists stem, r.
      * left. unfold final_dot_suffix_lowercased, last_dot_suffix, file_ext.
        rewrite splitext_no_dot by assumption.
        apply rfind_none_contains in Hd. now rewrite Hd.
  - intros E. unfold file_ext. now rewrite splitext_no_dot.
  - intros k. apply count_file_counts.
  - subst data. rewrite scan_items_all_folders. apply Forall_forall.
    intros f Hf. apply in_map_iff in Hf as [it [<- _]]. apply total_file_types.
  - eapply Forall_impl; [|apply subfolders_consistent].
    intros e (_ & He & _). exact He.
  - subst data. rewrite scan_items_all_files_by_type, scan_items_overview.
    cbn [ov_total_files]. rewrite total_add_counts. cbn [total Dict.values map sumZ fold_right].
    induction items as [|it its IH]; [reflexivity|].
    cbn [flat_map map]. rewrite map_app, sumZ_app, sumZ_cons, sumZ_ext_items. lia.
  - intros g sf subject Hget Hs d. subst d.
    rewrite (counter_of_subject sep g _ subject Hs).
    split; [|split].
    + rewrite total_add_counts, sumZ_flat_file_types.
      cbn [total Dict.values map sumZ fold_right]. rewrite Z.add_0_l. f_equal.
      apply map_ext_in. intros f Hf. apply filter_In in Hf as [Hf _].
      subst data. rewrite (scan_items_folder_details sep human_root _ _ _ _ Hget) in Hf.
      apply in_map_iff in Hf as [it [<- _]]. apply total_file_types.
    + apply get_subject_status, subject_ext_counts_nodup.
    + intros k. rewrite count_add_counts. unfold count at 1. cbn [Dict.get].
      subst data. rewrite (scan_items_folder_details sep human_root _ _ _ _ Hget).
      rewrite filter_map_swap, filter_filter, weight_flat_file_types. lia.
  - unfold count_file. cbn [fl_nifti_count fl_file_types].
    rewrite count_add_count. repeat split; reflexivity.
  - repeat split; reflexivity.
Qed.

End ExtensionFacts.

(** C10 as stated fails: the name [.bashrc] holds a dot and its final
    dot-suffix in lower case is [.bashrc], but the scan counts it under the
    empty key, as [os.path.splitext] gives it no extension. *)
Lemma extension_keys_counterexample :
  contains dot ".bashrc" = true /\
  final_dot_suffix_lowercased ".bashrc" = ".bashrc" /\
  file_ext ".bashrc" = EmptyString /\
  (forall st,
     count (fl_file_types (count_file st ".bashrc")) EmptyString
     = count (fl_file_types st) EmptyString + 1 /\
     count (fl_file_types (count_file st ".bashrc")) ".bashrc"
     = count (fl_file_types st) ".bashrc") /\
  ~ (forall file, file_ext file = final_dot_suffix_lowercased file).
Proof.
  split; [reflexivity|]. split; [reflexivity|]. split; [reflexivity|]. split.
  - intros st. unfold count_file. cbn [fl_file_types].
    rewrite !count_add_count. split; reflexivity.
  - intros H. specialize (H ".bashrc"). discriminate H.
Qed.

Lemma extension_keys_witness :
  contains dot "README" = false /\ file_ext "README" = EmptyString /\
  exists sf,
    Dict.get (hd_subfolders (scan_items "/" "/data/Human" ["A"] [item_A; item_A_S1])) "A"
    = Some sf /\
    "S1" <> EmptyString /\
    total (counter_of (subject_ext_counts_of "/" "A" (sf_folder_details sf)) "S1")
    = sumZ (map num_files
              (filter (fun f => (subject_of "/" "A" f =? "S1")%string)
                 (sf_folder_details sf))).
Proof.
  pose proof (extension_keys "/" "/data/Human" "README"
                (count_files [] []) [] ["A"] [item_A; item_A_S1]) as H.
  cbv zeta in H. destruct H as (_ & H2 & _ & _ & _ & _ & H7 & _).
  split; [reflexivity|]. split; [exact (H2 eq_refl)|].
  destruct (Dict.get (hd_subfolders (scan_items "/" "/data/Human" ["A"]
                                       [item_A; item_A_S1])) "A") as [sf|] eqn:E.
  - exists sf. split; [reflexivity|]. split; [discriminate|].
    exact (proj1 (H7 "A" sf "S1" E ltac:(discriminate))).
  - vm_compute in E. discriminate E.
Defined.

(* ================================================================= *)
(** ** A run without a readable root *)

Section RunFacts.
Variable sep : ascii.
Variable timestamp : string.

(** C9: when the root does not exist, or exists but cannot be listed, the
    run returns [None] to its caller, prints the lines that report the
    condition, and writes no workbook: no overview, no scan result and no
    table is produced.  (A run on a listable root returns the name of the
    one workbook it writes.) *)
Theorem main_without_root (human_root output_folder : string) (fs : option Dir) :
  (fs = None \/ exists name why, fs = Some (Unlisted name why)) ->
  let run := main sep timestamp human_root output_folder fs in
  result run = None /\
  saved_workbooks (events run) = [] /\
  (fs = None ->
   events run = [Printed ("ERROR: Human folder not found at: " ++ human_root)]) /\
  (forall name why, fs = Some (Unlisted name why) ->
   result (scan_human_folder_complete sep human_root (Unlisted name why)) = None /\
   events run = [Printed ("Error reading Human folder: " ++ why);
                 Printed "ERROR: Failed to scan Human folder"]) /\
  (forall name files subdirs,
     exists file wb,
       result (main sep timestamp human_root output_folder
                 (Some (Folder name files subdirs))) = Some file /\
       events (main sep timestamp human_root output_folder
                 (Some (Folder name files subdirs))) = [Saved file wb]).
Proof.
  intros Hfs run.
  assert (Hlast : forall name files subdirs,
             exists file wb,
               result (main sep timestamp human_root output_folder
                         (Some (Folder name files subdirs))) = Some file /\
               events (main sep timestamp human_root output_folder
                         (Some (Folder name files subdirs))) = [Saved file wb]).
  { intros name files subdirs. eexists. eexists. split; reflexivity. }
  destruct Hfs as [-> | (name & why & ->)]; subst run.
  - split; [reflexivity|]. split; [reflexivity|]. split; [reflexivity|].
    split; [|exact Hlast]. intros name why [=].
  - split; [reflexivity|]. split; [reflexivity|]. split; [discriminate|].
    split; [|exact Hlast]. intros name' why' [= <- <-]. split; reflexivity.
Qed.

End RunFacts.

Lemma main_without_root_witness :
  (Some (Unlisted "Human" "Permission denied") = None \/
   exists name why, Some (Unlisted "Human" "Permission denied") = Some (Unlisted name why)) /\
  result (main "/" "20260101_000000" "/data/Human" "/out"
            (Some (Unlisted "Human" "Permission denied"))) = None /\
  saved_workbooks (events (main "/" "20260101_000000" "/data/Human" "/out"
                             (Some (Unlisted "Human" "Permission denied")))) = [].
Proof.
  assert (H : Some (Unlisted "Human" "Permission denied") = None \/
              exists name why,
                Some (Unlisted "Human" "Permission denied") = Some (Unlisted name why)).
  { right. exists "Human", "Permission denied". reflexivity. }
  split; [exact H|].
  pose proof (main_without_root "/" "20260101_000000" "/data/Human" "/out" _ H) as M.
  cbv zeta in M. split; [exact (proj1 M) | exact (proj1 (proj2 M))].
Defined.

(* ================================================================= *)
(** * Further properties *)

(* ================================================================= *)
(** ** Extensions and categories of a file *)

Section CategoryFacts.
Import PyStr OsPath.

Lemma str_append_assoc (a b c : string) :
  ((a ++ b) ++ c)%string = (a ++ (b ++ c))%string.
Proof. induction a as [|x a IH]; cbn [append]; [reflexivity | now rewrite IH]. Qed.

Lemma lower_char_dot (a : ascii) :
  Ascii.eqb (lower_char a) dot = Ascii.eqb a dot.
Proof.
  destruct a as [b0 b1 b2 b3 b4 b5 b6 b7].
  destruct b0, b1, b2, b3, b4, b5, b6, b7; reflexivity.
Qed.

Lemma contains_dot_lower (s : string) : contains dot (lower s) = contains dot s.
Proof.
  induction s as [|a s IH]; [reflexivity|].
  cbn [lower contains]. now rewrite lower_char_dot, IH.
Qed.

Lemma last_dot_suffix_cons (a : ascii) (t : string) :
  last_dot_suffix (String a t)
  = if contains dot t then last_dot_suffix t
    else if Ascii.eqb a dot then String a t else EmptyString.
Proof.
  unfold last_dot_suffix. cbn [rfind].
  destruct (rfind dot t) as [i|] eqn:E.
  - assert (Hc : contains dot t = true).
    { destruct (contains dot t) eqn:Hc; [reflexivity|].
      apply rfind_none_contains in Hc. congruence. }
    now rewrite Hc.
  - apply rfind_none_contains in E. rewrite E.
    now destruct (Ascii.eqb a dot).
Qed.

Lemma last_dot_suffix_lower (s : string) :
  last_dot_suffix (lower s) = lower (last_dot_suffix s).
Proof.
  induction s as [|a s IH]; [reflexivity|].
  cbn [lower]. rewrite !last_dot_suffix_cons, contains_dot_lower, lower_char_dot, IH.
  destruct (contains dot s); [reflexivity|]. now destruct (Ascii.eqb a dot).
Qed.

Lemma last_dot_suffix_from_first_dot (s : string) :
  last_dot_suffix (from_first_dot s) = last_dot_suffix s.
Proof.
  induction s as [|a s IH]; [reflexivity|]. cbn [from_first_dot].
  destruct (Ascii.eqb a dot) eqn:Ea; [reflexivity|].
  rewrite IH, last_dot_suffix_cons, Ea.
  destruct (contains dot s) eqn:Ec; [reflexivity|].
  rewrite <- IH, (from_first_dot_no_dot s Ec). reflexivity.
Qed.

Lemma contains_append_dot (p r : string) : contains dot (p ++ String dot r) = true.
Proof.
  induction p as [|a p IH]; cbn [append contains].
  - now rewrite Ascii.eqb_refl.
  - rewrite IH. apply orb_true_r.
Qed.

Lemma last_dot_suffix_append (p r : string) :
  contains dot r = false -> last_dot_suffix (p ++ String dot r) = String dot r.
Proof.
  intros Hr. induction p as [|a p IH]; cbn [append].
  - rewrite last_dot_suffix_cons, Hr. now rewrite Ascii.eqb_refl.
  - now rewrite last_dot_suffix_cons, contains_append_dot.
Qed.

Lemma last_dot_suffix_is_suffix (s : string) :
  exists p, s = (p ++ last_dot_suffix s)%string.
Proof.
  unfold last_dot_suffix. destruct (rfind dot s) as [i|] eqn:E.
  - exists (take i s). now apply rfind_some in E as [E _].
  - exists s. now rewrite append_empty_r.
Qed.

Lemma lstrip_head (c : ascii) (s : string) (a : ascii) (t : string) :
  lstrip c s = String a t -> Ascii.eqb a c = false.
Proof.
  induction s as [|b s IH]; cbn [lstrip]; [discriminate|].
  destruct (Ascii.eqb b c) eqn:E; [exact IH|]. now intros [= <- _].
Qed.

(** The extension that [splitext] gives is the last dot suffix of the
    name stripped of its leading dots. *)
Lemma splitext_last_dot_suffix (p : string) :
  snd (splitext p) = last_dot_suffix (lstrip dot p).
Proof.
  rewrite splitext_lstrip.
  destruct (lstrip dot p) as [|a t] eqn:E; [reflexivity|].
  apply lstrip_head in E. unfold splitext, last_dot_suffix. cbn [rfind].
  destruct (rfind dot t) as [i|]; [|now rewrite E].
  cbn [take all_char]. now rewrite E.
Qed.

Lemma file_ext_compound (file : string) :
  file_ext file = last_dot_suffix (lower (compound_suffix file)).
Proof.
  unfold file_ext, compound_suffix.
  now rewrite splitext_last_dot_suffix, last_dot_suffix_lower,
    last_dot_suffix_from_first_dot.
Qed.

(** [is_nifti_filename] as a test on the compound suffix. *)
Lemma is_nifti_by_compound_suffix (fname : string) :
  is_nifti_filename fname
  = (endswith (lower (compound_suffix fname)) ".nii"
     || endswith (lower (compound_suffix fname)) ".nii.gz")%bool.
Proof.
  unfold is_nifti_filename. destruct (endswith fname ".") eqn:E.
  - unfold suffixes. rewrite E. cbn [join String.concat lower].
    assert (Hs : compound_suffix fname = EmptyString \/
                 last_char (compound_suffix fname) = Some dot).
    { destruct (last_char_compound_suffix fname) as [H | H]; [now left|].
      right. rewrite H. now apply endswith_last_char in E. }
    rewrite !(trailing_dot_not_nifti _ _ _ Hs); reflexivity || discriminate.
  - now rewrite suffixes_compound.
Qed.

(** What [is_nifti_filename] says of the extension of a file. *)
Lemma nifti_file_ext (file : string) :
  (is_nifti_filename file = true -> file_ext file = ".nii" \/ file_ext file = ".gz") /\
  (file_ext file = ".nii" -> is_nifti_filename file = true).
Proof.
  rewrite is_nifti_by_compound_suffix, file_ext_compound.
  set (x := lower (compound_suffix file)). split.
  - intros H. apply orb_true_iff in H.
    destruct H as [H | H]; apply endswith_iff in H as [p ->].
    + left. now apply last_dot_suffix_append.
    + right.
      change (p ++ ".nii.gz")%string with (p ++ (".nii" ++ ".gz"))%string.
      rewrite <- str_append_assoc. now apply last_dot_suffix_append.
  - intros E. destruct (last_dot_suffix_is_suffix x) as [p Hp]. rewrite E in Hp.
    apply orb_true_iff. left. apply endswith_iff. now exists p.
Qed.

(** X6: a file that [is_nifti_filename] accepts is counted under the
    extension [.nii] or [.gz], so it is never counted as DICOM or DAT; and
    every file counted under [.nii] is accepted. *)
Theorem nifti_extension (file : string) :
  (is_nifti_filename file = true ->
   (file_ext file = ".nii" \/ file_ext file = ".gz") /\
   is_dicom_ext (file_ext file) = false /\
   (file_ext file =? ".dat")%string = false) /\
  (file_ext file = ".nii" -> is_nifti_filename file = true).
Proof.
  destruct (nifti_file_ext file) as [H1 H2]. split; [|exact H2].
  intros H. specialize (H1 H). split; [exact H1|].
  destruct H1 as [-> | ->]; split; reflexivity.
Qed.

End CategoryFacts.

Lemma nifti_extension_witness :
  is_nifti_filename "scan.NII.GZ" = true /\
  (file_ext "scan.NII.GZ" = ".nii" \/ file_ext "scan.NII.GZ" = ".gz").
Proof.
  split; [reflexivity|].
  exact (proj1 (proj1 (nifti_extension "scan.NII.GZ") eq_refl)).
Defined.

Section CountFacts.

Lemma count_where_nonneg {A : Type} (p : A -> bool) (l : list A) :
  0 <= count_where p l.
Proof. unfold count_where, len. lia. Qed.

Lemma count_where_app {A : Type} (p : A -> bool) (a b : list A) :
  count_where p (a ++ b) = count_where p a + count_where p b.
Proof. unfold count_where. now rewrite filter_app, len_app. Qed.

Lemma count_where_pos {A : Type} (p : A -> bool) (l : list A) :
  1 <= count_where p l <-> exists x, In x l /\ p x = true.
Proof.
  induction l as [|x l IH]; [split; [unfold count_where, len; simpl; lia | intros [? [[] _]]]|].
  rewrite count_where_cons. pose proof (count_where_nonneg p l) as Hn. split.
  - intros H. destruct (p x) eqn:E.
    + exists x. split; [now left | exact E].
    + destruct IH as [IH _]. destruct IH as [y [Hy Ey]]; [lia|].
      exists y. split; [now right | exact Ey].
  - intros [y [[<- | Hy] Ey]].
    + rewrite Ey. lia.
    + assert (1 <= count_where p l) by (apply IH; eauto). destruct (p x); lia.
Qed.

Lemma count_where_or {A : Type} (p q : A -> bool) (l : list A) :
  (forall x, p x = true -> q x = true -> False) ->
  count_where (fun x => (p x || q x)%bool) l = count_where p l + count_where q l.
Proof.
  intros Hd. induction l as [|x l IH]; [reflexivity|].
  rewrite !count_where_cons, IH.
  destruct (p x) eqn:Ep, (q x) eqn:Eq; cbn [orb]; try lia.
  exfalso. now apply (Hd x).
Qed.

Lemma count_where_le {A : Type} (p q : A -> bool) (l : list A) :
  (forall x, p x = true -> q x = true) -> count_where p l <= count_where q l.
Proof.
  intros Hpq. induction l as [|x l IH]; [reflexivity|].
  rewrite !count_where_cons. destruct (p x) eqn:Ep.
  - rewrite (Hpq x Ep). lia.
  - destruct (q x); lia.
Qed.

Lemma count_where_three {A : Type} (p q r : A -> bool) (l : list A) :
  (forall x, p x = true -> q x = true -> False) ->
  (forall x, p x = true -> r x = true -> False) ->
  (forall x, q x = true -> r x = true -> False) ->
  count_where p l + count_where q l + count_where r l <= len l.
Proof.
  intros Hpq Hpr Hqr. induction l as [|x l IH]; [reflexivity|].
  rewrite !count_where_cons, len_cons.
  destruct (p x) eqn:Ep, (q x) eqn:Eq, (r x) eqn:Er; try lia; exfalso; eauto.
Qed.

Lemma count_ext_items (files : list string) (k : string) :
  count (add_counts [] (ext_items files)) k
  = count_where (fun f => (file_ext f =? k)%string) files.
Proof.
  rewrite count_add_counts, weight_ext_items. unfold count. cbn [Dict.get]. lia.
Qed.

Lemma mem_ext_items (files : list string) (k : string) :
  Dict.mem (add_counts [] (ext_items files)) k = true <->
  exists f, In f files /\ file_ext f = k.
Proof.
  rewrite mem_add_counts. cbn [Dict.mem Dict.get orb]. rewrite existsb_exists.
  unfold ext_items. split.
  - intros [[e n] [Hin E]]. apply in_map_iff in Hin as [f [[= <- <-] Hf]].
    exists f. split; [exact Hf|]. now apply String.eqb_eq in E.
  - intros [f [Hf <-]]. exists (file_ext f, 1). split.
    + apply in_map_iff. now exists f.
    + apply String.eqb_refl.
Qed.

End CountFacts.

Section FolderCountFacts.
Variable sep : ascii.

(** The category counts of a record are not negative and never exceed
    the number of files together. *)
Lemma record_category_bounds (it : walk_item) :
  0 <= dicom_files (folder_info_of sep it) /\
  0 <= dat_files (folder_info_of sep it) /\
  0 <= nifti_files (folder_info_of sep it) /\
  dicom_files (folder_info_of sep it) + dat_files (folder_info_of sep it)
  + nifti_files (folder_info_of sep it) <= num_files (folder_info_of sep it).
Proof.
  destruct (folder_info_of_fields sep it) as (_ & -> & _ & _ & -> & -> & ->).
  split; [|split; [|split]]; try apply count_where_nonneg.
  apply count_where_three.
  - intros x E1 E2. apply String.eqb_eq in E2. rewrite E2 in E1. discriminate.
  - intros x E1 E2. unfold is_dicom_ext in E1.
    destruct (proj1 (nifti_file_ext x) E2) as [E | E]; rewrite E in E1; discriminate.
  - intros x E1 E2.
    destruct (proj1 (nifti_file_ext x) E2) as [E | E]; rewrite E in E1; discriminate.
Qed.

(** X5: in the record of a directory the DICOM count is the sum of the
    extension counts at [.dcm] and [.ima], the DAT count is the extension
    count at [.dat], and the NIfTI count lies between the extension count
    at [.nii] and the sum of those at [.nii] and [.gz]; the three categories
    never share a file, so together they do not exceed the number of files;
    an extension is a key of the extension counts exactly when some file of
    the directory bears it, and then its count is at least 1. *)
Theorem folder_category_counts (it : walk_item) (ext : string) :
  let f := folder_info_of sep it in
  dicom_files f = count (file_types f) ".dcm" + count (file_types f) ".ima" /\
  dat_files f = count (file_types f) ".dat" /\
  count (file_types f) ".nii" <= nifti_files f /\
  nifti_files f <= count (file_types f) ".nii" + count (file_types f) ".gz" /\
  0 <= dicom_files f /\ 0 <= dat_files f /\ 0 <= nifti_files f /\
  dicom_files f + dat_files f + nifti_files f <= num_files f /\
  (Dict.mem (file_types f) ext = true <->
   exists file, In file (walk_files it) /\ file_ext file = ext) /\
  (Dict.mem (file_types f) ext = true <-> 1 <= count (file_types f) ext).
Proof.
  intros f. subst f.
  destruct (record_category_bounds it) as (B1 & B2 & B3 & B4).
  destruct (folder_info_of_fields sep it) as (_ & _ & _ & Et & Edi & Eda & Eni).
  split; [|split; [|split; [|split; [|split; [exact B1|split; [exact B2|
    split; [exact B3|split; [exact B4|]]]]]]]];
    clear B1 B2 B3 B4; rewrite ?Et, ?Edi, ?Eda, ?Eni, ?count_ext_items.
  - unfold is_dicom_ext. apply count_where_or.
    intros x E1 E2. apply String.eqb_eq in E1, E2. congruence.
  - reflexivity.
  - apply count_where_le. intros x E. apply String.eqb_eq in E.
    now apply (proj2 (nifti_file_ext x)).
  - rewrite <- count_where_or.
    + apply count_where_le. intros x Hx.
      destruct (proj1 (nifti_file_ext x) Hx) as [-> | ->]; reflexivity.
    + intros x E1 E2. apply String.eqb_eq in E1, E2. congruence.
  - split; [apply mem_ext_items|].
    rewrite mem_ext_items, count_where_pos. split.
    + intros [x [Hx <-]]. exists x. split; [exact Hx | apply String.eqb_refl].
    + intros [x [Hx E]]. exists x. split; [exact Hx | now apply String.eqb_eq].
Qed.

End FolderCountFacts.

(* ================================================================= *)
(** ** Totals of the scan of a tree *)

Section TreeTotalFacts.
Variable sep : ascii.
Variable human_root : string.

Lemma walk_files_of_tree (d : Dir) :
  forall segs, flat_map walk_files (os_walk sep human_root segs d) = tree_files d.
Proof.
  induction d as [name why | name files subdirs IH] using Dir_induction; intros segs;
    [reflexivity|].
  cbn [os_walk tree_files flat_map walk_files]. f_equal.
  induction IH as [|c cs Hc _ IHcs]; [reflexivity|].
  cbn [flat_map]. now rewrite flat_map_app, Hc, IHcs.
Qed.

Lemma walk_length_of_tree (d : Dir) :
  forall segs, len (os_walk sep human_root segs d) = entered_dirs d.
Proof.
  induction d as [name why | name files subdirs IH] using Dir_induction; intros segs;
    [reflexivity|].
  cbn [os_walk entered_dirs]. rewrite len_cons. f_equal.
  induction IH as [|c cs Hc _ IHcs]; [reflexivity|].
  cbn [flat_map map]. now rewrite len_app, sumZ_cons, Hc, IHcs.
Qed.

Lemma sum_len_files (items : list walk_item) :
  sumZ (map (fun it => len (walk_files it)) items) = len (flat_map walk_files items).
Proof.
  induction items as [|it items IH]; [reflexivity|].
  cbn [map flat_map]. now rewrite sumZ_cons, len_app, IH.
Qed.

Lemma sum_count_where_files (p : string -> bool) (items : list walk_item) :
  sumZ (map (fun it => count_where p (walk_files it)) items)
  = count_where p (flat_map walk_files items).
Proof.
  induction items as [|it items IH]; [reflexivity|].
  cbn [map flat_map]. now rewrite sumZ_cons, count_where_app, IH.
Qed.

Lemma ext_items_flat (items : list walk_item) :
  flat_map (fun it => ext_items (walk_files it)) items
  = ext_items (flat_map walk_files items).
Proof.
  induction items as [|it items IH]; [reflexivity|].
  cbn [flat_map]. unfold ext_items in *. now rewrite map_app, IH.
Qed.

(** The totals of the overview, over the files of all the items. *)
Lemma overview_over_files (subs : list string) (items : list walk_item) :
  let data := scan_items sep human_root subs items in
  let all := flat_map walk_files items in
  ov_total_folders (hd_overview data) = len items /\
  ov_total_files (hd_overview data) = len all /\
  ov_total_dicom (hd_overview data) = count_where (fun f => is_dicom_ext (file_ext f)) all /\
  ov_total_dat (hd_overview data) = count_where (fun f => (file_ext f =? ".dat")%string) all /\
  ov_total_nifti (hd_overview data) = count_where is_nifti_filename all /\
  forall k, count (hd_all_files_by_type data) k
            = count_where (fun f => (file_ext f =? k)%string) all.
Proof.
  intros data all. subst data all.
  rewrite scan_items_overview, scan_items_all_files_by_type.
  cbn [ov_total_folders ov_total_files ov_total_dicom ov_total_dat ov_total_nifti].
  rewrite !map_map.
  split; [reflexivity|]. split; [apply sum_len_files|].
  split; [|split; [|split]].
  - rewrite <- sum_count_where_files. apply f_equal, map_ext. intros it.
    now destruct (folder_info_of_fields sep it) as (_ & _ & _ & _ & -> & _).
  - rewrite <- sum_count_where_files. apply f_equal, map_ext. intros it.
    now destruct (folder_info_of_fields sep it) as (_ & _ & _ & _ & _ & -> & _).
  - rewrite <- sum_count_where_files. apply f_equal, map_ext. intros it.
    now destruct (folder_info_of_fields sep it) as (_ & _ & _ & _ & _ & _ & ->).
  - intros k. rewrite ext_items_flat. apply count_ext_items.
Qed.

(** X7: the scan of a listable root counts every directory that the walk
    enters once and every file of those directories once: the overview
    holds the number of entered directories, the number of their files, and
    the numbers of those files that are DICOM, DAT and NIfTI; the global
    extension counts hold, at every extension, the number of files that
    bear it.  Entries that the walk does not enter count nothing. *)
Theorem overview_counts_tree (name : string) (files : list string) (subdirs : list Dir) :
  let fs := Folder name files subdirs in
  exists data,
    result (scan_human_folder_complete sep human_root fs) = Some data /\
    ov_total_folders (hd_overview data) = entered_dirs fs /\
    ov_total_files (hd_overview data) = len (tree_files fs) /\
    ov_total_dicom (hd_overview data)
    = count_where (fun f => is_dicom_ext (file_ext f)) (tree_files fs) /\
    ov_total_dat (hd_overview data)
    = count_where (fun f => (file_ext f =? ".dat")%string) (tree_files fs) /\
    ov_total_nifti (hd_overview data) = count_where is_nifti_filename (tree_files fs) /\
    (forall k, count (hd_all_files_by_type data) k
               = count_where (fun f => (file_ext f =? k)%string) (tree_files fs)) /\
    total (hd_all_files_by_type data) = ov_total_files (hd_overview data).
Proof.
  intros fs. eexists. split; [reflexivity|].
  set (items := os_walk sep human_root [] fs).
  pose proof (overview_over_files (map dir_name subdirs) items) as H.
  cbv zeta in H. subst items.
  rewrite walk_files_of_tree, walk_length_of_tree in H.
  destruct H as (H1 & H2 & H3 & H4 & H5 & H6).
  repeat (split; [assumption|]).
  rewrite scan_items_all_files_by_type, total_add_counts, ext_items_flat, sumZ_ext_items.
  rewrite walk_files_of_tree, H2. reflexivity.
Qed.

End TreeTotalFacts.

(* ================================================================= *)
(** ** What a main subfolder keeps *)

Section GroupInvariantFacts.
Variable sep : ascii.
Variable human_root : string.

Lemma in_fold_add_seen {K : Type} `{PyKey K} (ks seen : list K) (x : K) :
  In x (fold_left add_seen ks seen) <-> In x seen \/ In x ks.
Proof.
  revert seen. induction ks as [|k ks IH]; intros seen; cbn [fold_left].
  - simpl. tauto.
  - rewrite IH. unfold add_seen. destruct (existsb (key_eqb k) seen) eqn:E.
    + apply existsb_exists in E as [y [Hy E]].
      destruct (key_eqb_spec k y) as [-> | ]; [|discriminate].
      simpl. intuition (subst; auto).
    + rewrite in_app_iff. simpl. tauto.
Qed.

Lemma weight_depth_pairs (d : Z) (infos : list folder_info) :
  weight d (map (fun i => (depth i, 1)) infos)
  = count_where (fun f => depth f =? d) infos.
Proof.
  unfold weight. induction infos as [|i infos IH]; [reflexivity|].
  rewrite count_where_cons, <- IH. cbn [map filter fst key_eqb Z_PyKey].
  destruct (depth i =? d); cbn [map snd]; rewrite ?sumZ_cons; lia.
Qed.

(** The depth histogram of a main subfolder is the counter of the depths
    of its folder records. *)
Lemma depth_counts_closed (subs : list string) (items : list walk_item) :
  Forall (fun entry : string * sf_data =>
            sf_depth_counts (snd entry)
            = add_counts [] (map (fun i => (depth i, 1)) (sf_folder_details (snd entry))))
    (hd_subfolders (scan_items sep human_root subs items)).
Proof.
  rewrite scan_items_subfolders.
  apply (fold_assign_forall sep
           (fun sf => sf_depth_counts sf
                      = add_counts [] (map (fun i => (depth i, 1)) (sf_folder_details sf)))).
  - intros sf it E. cbn [accumulate sf_depth_counts sf_folder_details].
    rewrite E, map_app, add_counts_app. reflexivity.
  - apply init_subfolders_forall. intros k s. reflexivity.
Qed.

(** X3: in every main subfolder the depth histogram counts the folder
    records: its entry at a depth is the number of records at that depth,
    its values sum to [total_folders], its keys are distinct, and the
    [Max_Depth] of the overview row of the main subfolder is the greatest
    depth among its folder records (0 when it has none). *)
Theorem depth_histogram (subs : list string) (items : list walk_item) :
  Forall (fun entry : string * sf_data =>
            (forall d, count (sf_depth_counts (snd entry)) d
                       = count_where (fun f => depth f =? d)
                           (sf_folder_details (snd entry))) /\
            total (sf_depth_counts (snd entry)) = sf_total_folders (snd entry) /\
            NoDup (Dict.keys (sf_depth_counts (snd entry))) /\
            Max_Depth (overview_row_of_subfolder entry)
            = max_or 0 (map depth (sf_folder_details (snd entry))))
    (hd_subfolders (scan_items sep human_root subs items)).
Proof.
  pose proof (depth_counts_closed subs items) as Hd.
  pose proof (subfolders_consistent sep human_root subs items) as Hc.
  rewrite Forall_forall in *. intros [g sf] Hin.
  specialize (Hd _ Hin). destruct (Hc _ Hin) as (Hlen & _). cbn [snd] in *.
  cbn [overview_row_of_subfolder Max_Depth]. rewrite Hd.
  split; [|split; [|split]].
  - intros d. rewrite count_add_counts, weight_depth_pairs.
    unfold count. cbn [Dict.get]. lia.
  - rewrite total_add_counts, map_map, Hlen. cbn [snd total Dict.values map].
    rewrite sumZ_ones. reflexivity.
  - apply keys_add_counts_nodup.
  - apply max_or_same_elements. intros x.
    rewrite keys_add_counts, in_fold_add_seen, map_map. cbn [fst Dict.keys map].
    simpl. tauto.
Qed.

(** X4: in every main subfolder the DICOM and DAT totals are the sums of
    the DICOM and DAT counts of its folder records; they are not negative,
    and together with the NIfTI files of the main subfolder they do not
    exceed its [total_files]. *)
Theorem group_category_totals (subs : list string) (items : list walk_item) :
  Forall (fun entry : string * sf_data =>
            sf_dicom_files (snd entry)
            = sumZ (map dicom_files (sf_folder_details (snd entry))) /\
            sf_dat_files (snd entry)
            = sumZ (map dat_files (sf_folder_details (snd entry))) /\
            0 <= sf_dicom_files (snd entry) /\
            0 <= sf_dat_files (snd entry) /\
            0 <= NIFTI_Files (overview_row_of_subfolder entry) /\
            sf_dicom_files (snd entry) + sf_dat_files (snd entry)
            + NIFTI_Files (overview_row_of_subfolder entry)
            <= sf_total_files (snd entry))
    (hd_subfolders (scan_items sep human_root subs items)).
Proof.
  rewrite scan_items_subfolders.
  pose (P := fun sf : sf_data =>
               sf_dicom_files sf = sumZ (map dicom_files (sf_folder_details sf)) /\
               sf_dat_files sf = sumZ (map dat_files (sf_folder_details sf)) /\
               0 <= sf_dicom_files sf /\ 0 <= sf_dat_files sf /\
               0 <= sumZ (map nifti_files (sf_folder_details sf)) /\
               sf_dicom_files sf + sf_dat_files sf
               + sumZ (map nifti_files (sf_folder_details sf)) <= sf_total_files sf).
  assert (Hinv : Forall (fun e : string * sf_data => P (snd e))
                   (fold_left (assign sep) items (init_subfolders sep human_root subs))).
  { apply (fold_assign_forall sep P).
    - intros sf it (H1 & H2 & H3 & H4 & H5 & H6).
      destruct (record_category_bounds sep it) as (R1 & R2 & R3 & R4).
      unfold P. cbn [accumulate sf_dicom_files sf_dat_files sf_folder_details sf_total_files].
      rewrite !map_app, !sumZ_app. cbn [map]. rewrite !sumZ_cons.
      change (sumZ []) with 0. repeat split; lia.
    - apply init_subfolders_forall. intros k s. unfold P. cbn. repeat split; lia. }
  eapply Forall_impl; [|exact Hinv]. intros [g sf] H. exact H.
Qed.

End GroupInvariantFacts.

(* ================================================================= *)
(** ** Sheet names and the calls on the writer *)

Section SheetNameFacts.
Import PyStr.

Lemma length_take (n : nat) (s : string) :
  String.length (take n s) = Nat.min n (String.length s).
Proof.
  revert s. induction n as [|n IH]; intros [|a s]; cbn [take String.length Nat.min];
    try reflexivity. now rewrite IH.
Qed.

Lemma take_all (n : nat) (s : string) :
  (String.length s <= n)%nat -> take n s = s.
Proof.
  revert s. induction n as [|n IH]; intros [|a s]; cbn [take String.length];
    try reflexivity; try lia. intros H. rewrite IH; [reflexivity | lia].
Qed.

Lemma length_sanitize (s : string) : String.length (sanitize s) = String.length s.
Proof. induction s as [|a s IH]; cbn [sanitize String.length]; congruence. Qed.

Lemma contains_take (c : ascii) (n : nat) (s : string) :
  contains c s = false -> contains c (take n s) = false.
Proof.
  revert s. induction n as [|n IH]; intros [|a s]; cbn [take contains];
    try reflexivity. intros H. apply orb_false_iff in H as [Ha Hs].
  now rewrite Ha, IH.
Qed.

Lemma sanitize_char_allowed (x : ascii) :
  existsb (Ascii.eqb (sanitize_char x)) forbidden_in_sheet_name = false.
Proof.
  unfold sanitize_char, forbidden_in_sheet_name.
  destruct (existsb (Ascii.eqb x) [backslash; "/"; "*"; "?"; ":"; "["; "]"]%char) eqn:E;
    [reflexivity | exact E].
Qed.

Lemma contains_sanitize (c : ascii) (s : string) :
  In c forbidden_in_sheet_name -> contains c (sanitize s) = false.
Proof.
  intros Hc. induction s as [|x s IH]; [reflexivity|].
  cbn [sanitize contains]. rewrite IH, orb_false_r.
  destruct (Ascii.eqb_spec (sanitize_char x) c) as [E | E]; [|reflexivity].
  pose proof (sanitize_char_allowed x) as Ha.
  assert (existsb (Ascii.eqb (sanitize_char x)) forbidden_in_sheet_name = true).
  { apply existsb_exists. exists c. split; [exact Hc|]. rewrite E. apply Ascii.eqb_refl. }
  congruence.
Qed.

Lemma sanitize_clean (s : string) :
  (forall c, In c forbidden_in_sheet_name -> contains c s = false) -> sanitize s = s.
Proof.
  induction s as [|x s IH]; intros Hs; [reflexivity|].
  cbn [sanitize]. rewrite IH.
  - f_equal. unfold sanitize_char.
    destruct (existsb (Ascii.eqb x) [backslash; "/"; "*"; "?"; ":"; "["; "]"]%char) eqn:E;
      [|reflexivity].
    apply existsb_exists in E as [c [Hc E]]. apply Ascii.eqb_eq in E. subst c.
    specialize (Hs x Hc). cbn [contains] in Hs. now rewrite Ascii.eqb_refl in Hs.
  - intros c Hc. specialize (Hs c Hc). cbn [contains] in Hs.
    now apply orb_false_iff in Hs as [_ Hs].
Qed.

(** X1: the name given to the sheet of a main subfolder has the length of
    the name of the subfolder, cut at 31, and holds none of the characters
    backslash, slash, star, question mark, colon and square brackets; a name
    of at most 31 characters that holds none of them is kept as it is, and
    naming twice changes nothing more. *)
Theorem sheet_name_properties (subfolder_name : string) :
  String.length (sheet_name_of subfolder_name)
  = Nat.min 31 (String.length subfolder_name) /\
  (forall c, In c forbidden_in_sheet_name ->
             contains c (sheet_name_of subfolder_name) = false) /\
  ((forall c, In c forbidden_in_sheet_name -> contains c subfolder_name = false) ->
   (String.length subfolder_name <= 31)%nat ->
   sheet_name_of subfolder_name = subfolder_name) /\
  sheet_name_of (sheet_name_of subfolder_name) = sheet_name_of subfolder_name.
Proof.
  assert (Hclean : forall c, In c forbidden_in_sheet_name ->
             contains c (sheet_name_of subfolder_name) = false).
  { intros c Hc. unfold sheet_name_of. now apply contains_take, contains_sanitize. }
  assert (Hlen : String.length (sheet_name_of subfolder_name)
                 = Nat.min 31 (String.length subfolder_name)).
  { unfold sheet_name_of. now rewrite length_take, length_sanitize. }
  split; [exact Hlen|]. split; [exact Hclean|]. split.
  - intros Hs Hl. unfold sheet_name_of. rewrite sanitize_clean by assumption.
    now apply take_all.
  - unfold sheet_name_of at 1. rewrite sanitize_clean by assumption.
    apply take_all. rewrite Hlen. lia.
Qed.

End SheetNameFacts.

Lemma sheet_name_properties_witness :
  (forall c, In c forbidden_in_sheet_name -> contains c "Group_01" = false) /\
  (String.length "Group_01" <= 31)%nat /\
  sheet_name_of "Group_01" = "Group_01".
Proof.
  assert (H : forall c, In c forbidden_in_sheet_name -> contains c "Group_01" = false).
  { intros c Hc. unfold forbidden_in_sheet_name in Hc. cbn [In] in Hc.
    repeat (destruct Hc as [<- | Hc]; [reflexivity|]). destruct Hc. }
  assert (L : (String.length "Group_01" <= 31)%nat) by (cbn; lia).
  split; [exact H|]. split; [exact L|].
  exact (proj1 (proj2 (proj2 (sheet_name_properties "Group_01"))) H L).
Defined.

Section WorkbookFacts.
Variable sep : ascii.
Variable timestamp : string.

Lemma create_subfolder_sheet_length (g : string) (sf : sf_data) :
  List.length (create_subfolder_sheet sep g sf) = List.length (sf_folder_details sf).
Proof.
  rewrite create_subfolder_sheet_eq.
  rewrite (Permutation_length (stable_sort_perm _ _)). apply length_map.
Qed.








End WorkbookFacts.

(* ================================================================= *)
(** ** The rows of the table of a main subfolder *)

Section RowFacts.
Variable sep : ascii.
Variable human_root : string.

Lemma join_cons_char (a : ascii) (h : string) (r : list string) :
  join (String sep EmptyString) (String a h :: r)
  = String a (join (String sep EmptyString) (h :: r)).
Proof. destruct r; reflexivity. Qed.

(** Joining the parts of a string gives the string back. *)
Lemma join_split (s : string) : join (String sep EmptyString) (split sep s) = s.
Proof.
  induction s as [|a s IH]; [reflexivity|]. cbn [split].
  destruct (Ascii.eqb_spec a sep) as [-> | Hne].
  - destruct (split sep s) as [|h r] eqn:E; [now apply split_nonempty in E|].
    rewrite join_cons. cbn [append]. now rewrite IH.
  - destruct (split sep s) as [|h r] eqn:E; [now apply split_nonempty in E|].
    now rewrite join_cons_char, IH.
Qed.

Lemma join_parts_of (g : string) (folder : folder_info) :
  join (String sep EmptyString) (parts_of sep g folder) = path folder.
Proof.
  unfold parts_of. destruct (String.eqb_spec (path folder) g) as [-> | Hne].
  - reflexivity.
  - apply join_split.
Qed.

(** X11: the hierarchy columns of a row give its relative path back: for a
    path of at most four parts, joining that many of the columns [Level_1]
    to [Level_4] with the separator gives [Relative_Path], and [Deeper] is
    empty; for a longer path, joining the four levels and [Deeper] gives
    [Relative_Path]. *)
Theorem row_levels_round_trip (g : string) (subject_status : list (string * string))
  (folder : folder_info) :
  let row := subfolder_row_of sep g subject_status folder in
  let parts := parts_of sep g folder in
  let levels := [Level_1 row; Level_2 row; Level_3 row; Level_4 row] in
  join (String sep EmptyString) parts = Relative_Path row /\
  ((List.length parts <= 4)%nat ->
   Deeper row = EmptyString /\
   join (String sep EmptyString) (firstn (List.length parts) levels) = Relative_Path row) /\
  ((4 < List.length parts)%nat ->
   join (String sep EmptyString) (levels ++ [Deeper row]) = Relative_Path row).
Proof.
  intros row parts levels. subst row levels.
  cbn [subfolder_row_of Relative_Path Level_1 Level_2 Level_3 Level_4 Deeper].
  fold parts. pose proof (join_parts_of g folder) as Hj. fold parts in Hj.
  split; [exact Hj|]. rewrite <- Hj. unfold part.
  destruct parts as [|a [|b [|c [|d [|e r]]]]]; cbn [List.length];
    (split; [intros Hl | intros Hl]); try lia; try (split; reflexivity);
    reflexivity.
Qed.

Lemma in_group_facts (g : string) (it : walk_item) :
  in_group sep g it = true ->
  walk_rel_path it <> "." /\ g <> EmptyString /\
  hd EmptyString (split sep (walk_rel_path it)) = g /\
  depth (folder_info_of sep it) = len (split sep (walk_rel_path it)).
Proof.
  unfold in_group, group_of, folder_info_of, subfolder_and_depth.
  destruct (String.eqb_spec (walk_rel_path it) ".") as [E | E]; cbn [fst snd];
    [discriminate|].
  destruct (String.eqb_spec (hd EmptyString (split sep (walk_rel_path it))) EmptyString)
    as [E0 | E0]; cbn [negb andb]; [discriminate|].
  intros H. apply String.eqb_eq in H. rewrite <- H. repeat split; auto.
Qed.

Lemma len_split_pos (s : string) : 1 <= len (split sep s).
Proof.
  destruct (split sep s) eqn:E; [now apply split_nonempty in E|].
  rewrite len_cons. unfold len. lia.
Qed.

(** The rows of the table of a main subfolder come from the items that
    lie in it. *)
Lemma rows_of_group (subs : list string) (items : list walk_item) (g : string)
  (sf : sf_data) (row : subfolder_row) :
  Dict.get (hd_subfolders (scan_items sep human_root subs items)) g = Some sf ->
  In row (create_subfolder_sheet sep g sf) ->
  exists it, In it items /\ in_group sep g it = true /\
             row = subfolder_row_of sep g
                     (subject_status_of
                        (subject_ext_counts_of sep g (sf_folder_details sf)))
                     (folder_info_of sep it).
Proof.
  intros Hget Hin. rewrite create_subfolder_sheet_eq in Hin.
  apply (Permutation_in _ (stable_sort_perm _ _)) in Hin.
  apply in_map_iff in Hin as [f [<- Hf]].
  rewrite (scan_items_folder_details sep human_root _ _ _ _ Hget) in Hf.
  apply in_map_iff in Hf as [it [<- Hit]]. apply filter_In in Hit as [Hit Hg].
  exists it. repeat split; assumption.
Qed.

(** X10: every row of the table of a main subfolder has the name of that
    main subfolder in [Level_1], a relative path other than [.], and a
    depth that is the number of parts of its relative path, at least 1. *)
Theorem group_rows_level_1 (subs : list string) (items : list walk_item) (g : string)
  (sf : sf_data) :
  Dict.get (hd_subfolders (scan_items sep human_root subs items)) g = Some sf ->
  Forall (fun row =>
            Level_1 row = g /\ Relative_Path row <> "." /\
            Depth row = len (split sep (Relative_Path row)) /\ 1 <= Depth row)
    (create_subfolder_sheet sep g sf).
Proof.
  intros Hget. apply Forall_forall. intros row Hin.
  destruct (rows_of_group subs items g sf row Hget Hin) as (it & _ & Hg & ->).
  destruct (in_group_facts g it Hg) as (Hrel & Hne & Hhd & Hd).
  cbn [subfolder_row_of Level_1 Relative_Path Depth].
  change (path (folder_info_of sep it)) with (walk_rel_path it).
  split; [|split; [exact Hrel | split; [exact Hd|]]].
  - unfold parts_of, part.
    change (path (folder_info_of sep it)) with (walk_rel_path it).
    destruct (walk_rel_path it =? g)%string; [reflexivity|].
    rewrite <- Hhd. now destruct (split sep (walk_rel_path it)).
  - rewrite Hd. apply len_split_pos.
Qed.

(** X13: there is one row for each directory: the table of a main
    subfolder has [total_folders] rows, the table of all folders has as
    many rows as the overview counts folders, and the overview table has one
    row for the whole and one for each main subfolder. *)
Theorem sheet_row_counts (subs : list string) (items : list walk_item) :
  let data := scan_items sep human_root subs items in
  Forall (fun entry =>
            len (create_subfolder_sheet sep (fst entry) (snd entry))
            = sf_total_folders (snd entry))
    (hd_subfolders data) /\
  len (all_folders_sheet data) = ov_total_folders (hd_overview data) /\
  len (fst (create_overview_sheet data)) = 1 + len (hd_subfolders data) /\
  map Category (fst (create_overview_sheet data))
  = "HUMAN FOLDER TOTAL" :: Dict.keys (hd_subfolders data).
Proof.
  intros data. split; [|split; [|split]].
  - eapply Forall_impl; [|apply subfolders_consistent].
    intros [g sf] (H & _). cbn [fst snd] in *. rewrite H. unfold len.
    now rewrite create_subfolder_sheet_length.
  - unfold all_folders_sheet, len.
    rewrite (Permutation_length (stable_sort_perm _ _)), length_map.
    subst data. rewrite scan_items_all_folders, scan_items_overview, length_map.
    reflexivity.
  - cbn [create_overview_sheet fst]. rewrite len_cons. unfold len.
    now rewrite length_map.
  - cbn [create_overview_sheet fst map Category]. f_equal.
    unfold Dict.keys. rewrite map_map. apply map_ext. now intros [g sf].
Qed.

End RowFacts.

Lemma row_levels_round_trip_witness :
  (4 < List.length (parts_of "/" "A" (folder_info_of "/"
        {| walk_root := "/data/Human/A/S1/x/y/z/w"; walk_rel_path := "A/S1/x/y/z/w";
           walk_dirs := []; walk_files := [] |})))%nat /\
  join "/" ["A"; "S1"; "x"; "y"; "z/w"] = "A/S1/x/y/z/w".
Proof.
  split; [cbn; lia|].
  refine (proj2 (proj2 (row_levels_round_trip "/" "A" []
                          (folder_info_of "/"
                             {| walk_root := "/data/Human/A/S1/x/y/z/w";
                                walk_rel_path := "A/S1/x/y/z/w";
                                walk_dirs := []; walk_files := [] |}))) _).
  cbn. lia.
Defined.

Lemma group_rows_level_1_witness :
  exists sf,
    Dict.get (hd_subfolders (scan_items "/" "/data/Human" ["A"] [item_A; item_A_S1])) "A"
    = Some sf /\
    Forall (fun row => Level_1 row = "A") (create_subfolder_sheet "/" "A" sf).
Proof.
  destruct (Dict.get (hd_subfolders (scan_items "/" "/data/Human" ["A"]
                                       [item_A; item_A_S1])) "A") as [sf|] eqn:E.
  - exists sf. split; [reflexivity|].
    eapply Forall_impl;
      [|exact (group_rows_level_1 "/" "/data/Human" ["A"] [item_A; item_A_S1] "A" sf E)].
    intros row H. exact (proj1 H).
  - vm_compute in E. discriminate E.
Defined.

(* ================================================================= *)
(** ** The status column *)

Section StatusFacts.
Variable sep : ascii.
Variable human_root : string.

(** The entry of a subject after the inner loop of one folder. *)
Lemma get_fold_subject_counts (subject : string) (pairs : list (string * Z))
  (acc : list (string * Counter string)) (s : string) :
  Dict.get
    (fold_left
       (fun acc ext_c =>
          let cnts := match Dict.get acc subject with
                      | Some cnts => cnts
                      | None => []
                      end in
          Dict.set acc subject (add_count cnts (fst ext_c) (snd ext_c)))
       pairs acc) s
  = if (subject =? s)%string
    then match pairs with
         | [] => Dict.get acc s
         | _ => Some (add_counts (counter_of acc s) pairs)
         end
    else Dict.get acc s.
Proof.
  revert acc. induction pairs as [|[ext n] pairs IH]; intros acc.
  - cbn [fold_left]. now destruct (subject =? s)%string.
  - cbn [fold_left]. rewrite IH. cbn [fst snd].
    rewrite get_set, counter_of_set. cbn [key_eqb string_PyKey].
    destruct (String.eqb_spec subject s) as [-> | Hne]; [|reflexivity].
    destruct pairs; reflexivity.
Qed.

Lemma get_add_subject_counts (g : string) (acc : list (string * Counter string))
  (f : folder_info) (s : string) :
  s <> EmptyString ->
  Dict.get (add_subject_counts sep g acc f) s
  = if (subject_of sep g f =? s)%string
    then match file_types f with
         | [] => Dict.get acc s
         | _ => Some (add_counts (counter_of acc s) (file_types f))
         end
    else Dict.get acc s.
Proof.
  intros Hs. unfold add_subject_counts. fold (subject_of sep g f).
  destruct (String.eqb_spec (subject_of sep g f) EmptyString) as [E | E].
  - rewrite E. destruct (String.eqb_spec EmptyString s) as [Es | Es];
      [congruence | reflexivity].
  - apply get_fold_subject_counts.
Qed.

Lemma get_fold_subjects (g : string) (folders : list folder_info)
  (acc : list (string * Counter string)) (s : string) :
  s <> EmptyString ->
  Dict.get (fold_left (add_subject_counts sep g) folders acc) s
  = match flat_map file_types
            (filter (fun f => (subject_of sep g f =? s)%string) folders) with
    | [] => Dict.get acc s
    | pairs => Some (add_counts (counter_of acc s) pairs)
    end.
Proof.
  intros Hs. revert acc. induction folders as [|f folders IH]; intros acc; [reflexivity|].
  cbn [fold_left filter]. rewrite IH.
  rewrite get_add_subject_counts, counter_of_add_subject_counts by assumption.
  destruct (subject_of sep g f =? s)%string; [|reflexivity].
  cbn [flat_map].
  destruct (file_types f) as [|p ps]; [reflexivity|].
  cbn [app].
  destruct (flat_map file_types
              (filter (fun f0 => (subject_of sep g f0 =? s)%string) folders)) as [|q qs].
  - now rewrite app_nil_r.
  - now rewrite <- add_counts_app.
Qed.

Lemma status_of_counter_cases (cnts : Counter string) :
  In (status_of_counter cnts) ["Processed"; "Not Processed"; "Unknown"].
Proof.
  unfold status_of_counter, subject_status_of_counts.
  destruct (0 <? count cnts ".mat"); [now left|].
  destruct (0 <? count cnts ".dat" + count cnts ".ima"); [right; now left|].
  right; right; now left.
Qed.

(** The status that a row gets, from the folders of the table. *)
Lemma row_status (g : string) (folders : list folder_info) (f : folder_info) :
  let d := subject_ext_counts_of sep g folders in
  let row := subfolder_row_of sep g (subject_status_of d) f in
  let pairs :=
    flat_map file_types
      (filter (fun f' => (subject_of sep g f' =? subject_of sep g f)%string) folders) in
  Level_2 row = subject_of sep g f /\
  (subject_of sep g f = EmptyString -> Subject_Status row = EmptyString) /\
  (subject_of sep g f <> EmptyString ->
   Subject_Status row
   = match pairs with
     | [] => EmptyString
     | _ => status_of_counter (add_counts [] pairs)
     end).
Proof.
  intros d row pairs. subst row.
  cbn [subfolder_row_of Level_2 Subject_Status]. fold (subject_of sep g f).
  split; [reflexivity|]. split.
  - intros ->. reflexivity.
  - intros Hs. destruct (String.eqb_spec (subject_of sep g f) EmptyString); [contradiction|].
    rewrite get_subject_status by apply subject_ext_counts_nodup.
    subst d. unfold subject_ext_counts_of. rewrite get_fold_subjects by assumption.
    fold pairs. cbn [Dict.get counter_of]. now destruct pairs.
Qed.

(** X12: in the table of a main subfolder, [Level_2] of a row is the
    subject of its folder; a row without a subject has an empty status; a
    row with a subject has the status that the classifier gives to the
    extension counts added over all folders of that subject, except that
    the status is empty when none of those folders holds a file; so rows of
    one subject bear one status, which is empty or one of the three
    labels. *)
Theorem subject_status_of_rows (g : string) (folders : list folder_info)
  (f f' : folder_info) :
  let d := subject_ext_counts_of sep g folders in
  let row := subfolder_row_of sep g (subject_status_of d) f in
  let row' := subfolder_row_of sep g (subject_status_of d) f' in
  let pairs :=
    flat_map file_types
      (filter (fun x => (subject_of sep g x =? subject_of sep g f)%string) folders) in
  Level_2 row = subject_of sep g f /\
  (Level_2 row = EmptyString -> Subject_Status row = EmptyString) /\
  (Level_2 row <> EmptyString ->
   Subject_Status row
   = match pairs with
     | [] => EmptyString
     | _ => status_of_counter (add_counts [] pairs)
     end) /\
  (Level_2 row = Level_2 row' -> Subject_Status row = Subject_Status row') /\
  In (Subject_Status row) [EmptyString; "Processed"; "Not Processed"; "Unknown"].
Proof.
  intros d row row' pairs.
  destruct (row_status g folders f) as (H1 & H2 & H3).
  destruct (row_status g folders f') as (H1' & H2' & H3').
  fold d in H1, H2, H3, H1', H2', H3'. fold row in H1, H2, H3. fold row' in H1', H2', H3'.
  fold pairs in H3.
  split; [exact H1|]. rewrite H1. split; [exact H2|]. split; [exact H3|]. split.
  - rewrite H1'. intros E.
    destruct (String.eqb_spec (subject_of sep g f) EmptyString) as [E0 | E0].
    + rewrite H2 by assumption. rewrite H2' by congruence. reflexivity.
    + rewrite H3 by assumption. rewrite H3' by congruence. subst pairs.
      now rewrite E.
  - destruct (String.eqb_spec (subject_of sep g f) EmptyString) as [E0 | E0].
    + rewrite H2 by assumption. now left.
    + rewrite H3 by assumption. destruct pairs; [now left|].
      right. apply status_of_counter_cases.
Qed.

End StatusFacts.

Section StatusOfFiles.
Variable sep : ascii.
Variable human_root : string.

Lemma existsb_count_where {A : Type} (p : A -> bool) (l : list A) :
  existsb p l = (0 <? count_where p l).
Proof.
  apply eq_true_iff_eq. rewrite existsb_exists, Z.ltb_lt.
  rewrite <- (count_where_pos p l). lia.
Qed.

Lemma file_types_nil (it : walk_item) :
  file_types (folder_info_of sep it) = [] <-> walk_files it = [].
Proof.
  destruct (folder_info_of_fields sep it) as (_ & _ & _ & -> & _). split.
  - intros E. destruct (walk_files it) as [|f fs]; [reflexivity|]. exfalso.
    assert (Hm : Dict.mem (add_counts [] (ext_items (f :: fs))) (file_ext f) = true)
      by (apply mem_ext_items; exists f; split; [now left | reflexivity]).
    rewrite E in Hm. discriminate Hm.
  - intros ->. reflexivity.
Qed.

Lemma flat_file_types_nil (items : list walk_item) :
  flat_map file_types (map (folder_info_of sep) items) = [] <->
  flat_map walk_files items = [].
Proof.
  induction items as [|it items IH]; [tauto|].
  cbn [map flat_map]. split; intros E; apply app_eq_nil in E as [E1 E2].
  - apply file_types_nil in E1. apply IH in E2. now rewrite E1, E2.
  - apply file_types_nil in E1. apply IH in E2. now rewrite E1, E2.
Qed.

Lemma count_flat_file_types (items : list walk_item) (k : string) :
  count (add_counts [] (flat_map file_types (map (folder_info_of sep) items))) k
  = count_where (fun f => (file_ext f =? k)%string) (flat_map walk_files items).
Proof.
  rewrite count_add_counts, weight_flat_file_types, sum_count_where_files.
  unfold count. cbn [Dict.get]. lia.
Qed.

Lemma status_of_flat_file_types (items : list walk_item) :
  match flat_map file_types (map (folder_info_of sep) items) with
  | [] => EmptyString
  | _ => status_of_counter
           (add_counts [] (flat_map file_types (map (folder_info_of sep) items)))
  end = status_of_files (flat_map walk_files items).
Proof.
  pose proof (flat_file_types_nil items) as Hnil.
  pose proof (count_flat_file_types items) as Hc.
  unfold status_of_files, status_of_counter, subject_status_of_counts.
  rewrite !Hc.
  rewrite <- (count_where_or (fun f => (file_ext f =? ".dat")%string)
                (fun f => (file_ext f =? ".ima")%string))
    by (intros x E1 E2; apply String.eqb_eq in E1, E2; congruence).
  rewrite <- !existsb_count_where.
  destruct (flat_map file_types (map (folder_info_of sep) items)) as [|p ps] eqn:E.
  - rewrite (proj1 Hnil eq_refl). reflexivity.
  - destruct (existsb _ (flat_map walk_files items)); [reflexivity|].
    destruct (existsb _ (flat_map walk_files items)); [reflexivity|].
    destruct (flat_map walk_files items); [|reflexivity].
    assert (Hp : p :: ps = []) by (apply Hnil; reflexivity). discriminate Hp.
Qed.

(** X14: in the table of a main subfolder of a scan, the row of a
    directory that lies under a subject bears the status read off all files
    of all directories of that subject: [Processed] when one of them has the
    last extension [.mat]; otherwise [Not Processed] when one has [.dat] or
    [.ima]; otherwise [Unknown] when the subject holds a file at all, and
    the empty status when it holds none.  The row of the directory of the
    main subfolder itself has the empty status. *)
Theorem row_status_from_files (subs : list string) (items : list walk_item)
  (g : string) (sf : sf_data) (it : walk_item) :
  Dict.get (hd_subfolders (scan_items sep human_root subs items)) g = Some sf ->
  In it items -> in_group sep g it = true ->
  let s := subject_of sep g (folder_info_of sep it) in
  let row := subfolder_row_of sep g
               (subject_status_of (subject_ext_counts_of sep g (sf_folder_details sf)))
               (folder_info_of sep it) in
  In row (create_subfolder_sheet sep g sf) /\
  Subject_Status row
  = if (s =? EmptyString)%string then EmptyString
    else status_of_files (subject_files sep g s items).
Proof.
  intros Hget Hit Hg s row.
  pose proof (scan_items_folder_details sep human_root _ _ _ _ Hget) as Hd.
  split.
  - rewrite create_subfolder_sheet_eq.
    apply (Permutation_in _ (Permutation_sym (stable_sort_perm _ _))).
    apply in_map. rewrite Hd. apply in_map. apply filter_In. now split.
  - destruct (row_status sep g (sf_folder_details sf) (folder_info_of sep it))
      as (_ & H2 & H3).
    fold row in H2, H3. fold s in H2, H3.
    destruct (String.eqb_spec s EmptyString) as [E | E]; [now apply H2|].
    rewrite (H3 E), Hd, filter_map_swap, filter_filter. unfold subject_files.
    apply status_of_flat_file_types.
Qed.

End StatusOfFiles.

Lemma row_status_from_files_witness :
  exists sf,
    Dict.get (hd_subfolders (scan_items "/" "/data/Human" ["A"] [item_A; item_A_S1])) "A"
    = Some sf /\
    In item_A_S1 [item_A; item_A_S1] /\
    in_group "/" "A" item_A_S1 = true /\
    Subject_Status
      (subfolder_row_of "/" "A"
         (subject_status_of (subject_ext_counts_of "/" "A" (sf_folder_details sf)))
         (folder_info_of "/" item_A_S1))
    = "Processed".
Proof.
  destruct (Dict.get (hd_subfolders (scan_items "/" "/data/Human" ["A"]
                                       [item_A; item_A_S1])) "A") as [sf|] eqn:E.
  - exists sf. split; [reflexivity|].
    assert (Hin : In item_A_S1 [item_A; item_A_S1]) by (right; now left).
    split; [exact Hin|]. split; [reflexivity|].
    exact (proj2 (row_status_from_files "/" "/data/Human" ["A"] [item_A; item_A_S1]
                    "A" sf item_A_S1 E Hin eq_refl)).
  - vm_compute in E. discriminate E.
Defined.
(* ================================================================= *)
(** ** Main subfolders and subtrees *)

Section SubtreeFacts.
Variable sep : ascii.
Variable human_root : string.

Lemma filter_of_flat_map {A B : Type} (p : B -> bool) (f : A -> list B) (l : list A) :
  filter p (flat_map f l) = flat_map (fun x => filter p (f x)) l.
Proof.
  induction l as [|x l IH]; [reflexivity|].
  cbn [flat_map]. now rewrite filter_app, IH.
Qed.

Lemma flat_map_none {A B : Type} (f : A -> list B) (l : list A) :
  (forall x, In x l -> f x = []) -> flat_map f l = [].
Proof.
  induction l as [|x l IH]; intros H; [reflexivity|].
  cbn [flat_map]. rewrite (H x) by now left. apply IH. intros y Hy. apply H. now right.
Qed.

(** Among directories of distinct names, the name of one selects it. *)
Lemma flat_map_select {A : Type} (f : Dir -> list A) (subdirs : list Dir) (c : Dir) :
  NoDup (map dir_name subdirs) -> In c subdirs ->
  flat_map (fun c' => if (dir_name c' =? dir_name c)%string then f c' else []) subdirs
  = f c.
Proof.
  induction subdirs as [|a l IH]; cbn [map]; intros Hnd Hin; [destruct Hin|].
  inversion Hnd as [|? ? Ha Hnd']; subst. cbn [flat_map].
  destruct Hin as [-> | Hin].
  - rewrite String.eqb_refl, flat_map_none; [apply app_nil_r|].
    intros x Hx. destruct (String.eqb_spec (dir_name x) (dir_name c)) as [E|]; [|reflexivity].
    exfalso. apply Ha. rewrite <- E. now apply in_map.
  - destruct (String.eqb_spec (dir_name a) (dir_name c)) as [E|].
    + exfalso. apply Ha. rewrite E. now apply in_map.
    + now apply IH.
Qed.

(** The directories of the subtree of a child of the root lie in the main
    subfolder that the child names. *)
Lemma walk_child_group (c : Dir) (it : walk_item) :
  well_formed_root sep c = true -> valid_name sep (dir_name c) = true ->
  In it (os_walk sep human_root [dir_name c] c) ->
  group_of sep it = Some (dir_name c).
Proof.
  intros Hwc Hvc Hin.
  apply (in_map walk_rel_path) in Hin. rewrite (walk_rel_paths sep human_root) in Hin.
  apply in_map_iff in Hin as [s [Es Hs]].
  apply (walk_segments_extend sep) in Hs as [more [-> Hmore]]; [|assumption].
  unfold group_of. rewrite <- Es. cbn [app].
  rewrite (subfolder_and_depth_rel sep); [reflexivity | now constructor].
Qed.

Lemma filter_group_child (g : string) (c : Dir) :
  well_formed_root sep c = true -> valid_name sep (dir_name c) = true ->
  filter (in_group sep g) (os_walk sep human_root [dir_name c] c)
  = if (dir_name c =? g)%string then os_walk sep human_root [dir_name c] c else [].
Proof.
  intros Hwc Hvc.
  assert (Hg : forall it, In it (os_walk sep human_root [dir_name c] c) ->
                          in_group sep g it = (dir_name c =? g)%string).
  { intros it Hin. unfold in_group. rewrite (walk_child_group c it Hwc Hvc Hin).
    apply (valid_name_iff sep) in Hvc as [Hne _].
    destruct (String.eqb_spec (dir_name c) EmptyString); [contradiction | reflexivity]. }
  destruct (dir_name c =? g)%string.
  - now apply filter_all.
  - induction (os_walk sep human_root [dir_name c] c) as [|it l IH]; [reflexivity|].
    cbn [filter]. rewrite (Hg it) by now left. apply IH.
    intros x Hx. apply Hg. now right.
Qed.

(** The items of a main subfolder are the walk of the child of that name. *)
Lemma filter_group_walk (name : string) (files : list string) (subdirs : list Dir)
  (c : Dir) :
  well_formed_root sep (Folder name files subdirs) = true -> In c subdirs ->
  filter (in_group sep (dir_name c)) (os_walk sep human_root [] (Folder name files subdirs))
  = os_walk sep human_root [dir_name c] c.
Proof.
  intros Hwf Hc. apply (well_formed_root_children sep) in Hwf as [Hnd Hsub].
  cbn [os_walk filter]. unfold in_group at 1, group_of at 1. cbn.
  rewrite filter_of_flat_map.
  rewrite <- (flat_map_select (fun c' => os_walk sep human_root [dir_name c'] c')
                subdirs c Hnd Hc).
  apply flat_map_forall_ext, Forall_forall. intros c' Hc'.
  destruct (Hsub c' Hc') as [Hw Hv]. now apply filter_group_child.
Qed.

Lemma get_tabulated {V : Type} (h : string -> V) (subs : list string) (g : string) :
  In g subs -> Dict.get (map (fun s => (s, h s)) subs) g = Some (h g).
Proof.
  induction subs as [|s subs IH]; [intros []|].
  cbn [map Dict.get]. intros Hin.
  destruct (key_eqb_spec s g) as [-> | Hne]; [reflexivity|].
  destruct Hin as [E | Hin]; [contradiction | now apply IH].
Qed.

(** What the scan of a tree keeps for the child [c] of the root. *)
Lemma group_of_child (name : string) (files : list string) (subdirs : list Dir)
  (c : Dir) :
  well_formed_root sep (Folder name files subdirs) = true -> In c subdirs ->
  Dict.get (hd_subfolders
              (scan_items sep human_root (map dir_name subdirs)
                 (os_walk sep human_root [] (Folder name files subdirs))))
    (dir_name c)
  = Some (fold_left accumulate
            (map (folder_info_of sep) (os_walk sep human_root [dir_name c] c))
            (new_sf_data sep human_root (dir_name c))).
Proof.
  intros Hwf Hc. pose proof Hwf as Hwf'.
  apply (well_formed_root_children sep) in Hwf' as [Hnd _].
  rewrite (scan_items_subfolders sep human_root), (get_fold_assign sep), filter_group_walk by assumption.
  rewrite (init_subfolders_nodup sep human_root), get_tabulated by (assumption || now apply in_map).
  reflexivity.
Qed.

(** The depth of a visited directory is the number of its segments. *)
Lemma walk_depths (d : Dir) (segs : list string) :
  well_formed_root sep d = true ->
  Forall (fun n => valid_name sep n = true) segs ->
  map depth (map (folder_info_of sep) (os_walk sep human_root segs d))
  = map len (walk_segments segs d).
Proof.
  intros Hwf Hv. rewrite map_map.
  change (fun x => depth (folder_info_of sep x))
    with (fun x => snd (subfolder_and_depth sep (walk_rel_path x))).
  rewrite <- (map_map walk_rel_path (fun r => snd (subfolder_and_depth sep r))).
  rewrite (walk_rel_paths sep human_root), map_map. apply map_ext_in. intros s Hs.
  apply (walk_segments_extend sep) in Hs as [more [-> Hmore]]; [|assumption].
  destruct (segs ++ more) as [|x l] eqn:E; [reflexivity|].
  rewrite (subfolder_and_depth_rel sep); [reflexivity|].
  rewrite <- E. apply Forall_app. now split.
Qed.

Lemma max_or_unique (d m : Z) (l : list Z) :
  In m l -> (forall y, In y l -> y <= m) -> max_or d l = m.
Proof.
  intros Hin Hub. apply Z.le_antisymm; [|now apply max_or_ge].
  apply Hub, max_or_in. intros ->. destruct Hin.
Qed.

Lemma max_or_nonneg (l : list Z) : (forall y, In y l -> 0 <= y) -> 0 <= max_or 0 l.
Proof.
  intros H. destruct l as [|x l]; [cbn; lia|].
  apply H, max_or_in. discriminate.
Qed.

Lemma levels_nonneg (d : Dir) : 0 <= levels d.
Proof.
  induction d as [name why | name files subdirs IH] using Dir_induction;
    cbn [levels]; [lia|].
  assert (0 <= max_or 0 (map levels subdirs)); [|lia].
  apply max_or_nonneg. intros y Hy. apply in_map_iff in Hy as [c [<- Hc]].
  rewrite Forall_forall in IH. now apply IH.
Qed.

Lemma len_snoc {A : Type} (l : list A) (x : A) : len (l ++ [x]) = len l + 1.
Proof. rewrite len_app. reflexivity. Qed.

Lemma len_map {A B : Type} (f : A -> B) (l : list A) : len (map f l) = len l.
Proof. unfold len. now rewrite length_map. Qed.

(** The greatest number of segments below [segs] is the number of levels. *)
Lemma levels_of_walk (d : Dir) :
  forall segs,
    max_or 0 (map (fun s => len s - len segs + 1) (walk_segments segs d)) = levels d.
Proof.
  induction d as [name why | name files subdirs IH] using Dir_induction; intros segs;
    [reflexivity|].
  rewrite Forall_forall in IH. cbn [walk_segments levels map].
  set (M := max_or 0 (map levels subdirs)).
  assert (HM : 0 <= M).
  { apply max_or_nonneg. intros y Hy. apply in_map_iff in Hy as [c [<- _]].
    apply levels_nonneg. }
  assert (Hshift : forall (c : Dir) (s : list string),
             len s - len segs + 1 = (len s - len (segs ++ [dir_name c]) + 1) + 1).
  { intros c s. rewrite len_snoc. lia. }
  apply max_or_unique.
  - destruct (Z.eq_dec M 0) as [E0 | Hne]; [left; lia | right].
    assert (Hin : In M (map levels subdirs)).
    { apply max_or_in. intros E. unfold M in Hne. rewrite E in Hne. now apply Hne. }
    apply in_map_iff in Hin as [c [Ec Hc]].
    pose proof (IH c Hc (segs ++ [dir_name c])) as Hlev.
    assert (Hin : In (levels c)
                    (map (fun s => len s - len (segs ++ [dir_name c]) + 1)
                       (walk_segments (segs ++ [dir_name c]) c))).
    { rewrite <- Hlev at 1. apply max_or_in. intros E. rewrite E in Hlev.
      cbn [max_or] in Hlev. lia. }
    apply in_map_iff in Hin as [s [Es Hs]].
    apply in_map_iff. exists s. split; [rewrite (Hshift c); lia|].
    apply in_flat_map. now exists c.
  - intros y [<- | Hy]; [lia|].
    apply in_map_iff in Hy as [s [<- Hs]]. apply in_flat_map in Hs as [c [Hc Hs]].
    rewrite (Hshift c).
    assert (len s - len (segs ++ [dir_name c]) + 1 <= levels c).
    { rewrite <- (IH c Hc (segs ++ [dir_name c])). apply max_or_ge.
      apply in_map_iff. now exists s. }
    assert (levels c <= M) by (apply max_or_ge; now apply in_map).
    lia.
Qed.

Lemma max_or_shift {A : Type} (f : A -> Z) (k : Z) (l : list A) :
  l <> [] -> max_or 0 (map (fun x => f x + k) l) = max_or 0 (map f l) + k.
Proof.
  intros Hne. apply max_or_unique.
  - assert (Hin : In (max_or 0 (map f l)) (map f l)).
    { apply max_or_in. destruct l; [congruence | discriminate]. }
    apply in_map_iff in Hin as [x [E Hx]]. apply in_map_iff. exists x.
    split; [lia | assumption].
  - intros y Hy. apply in_map_iff in Hy as [x [<- Hx]].
    assert (f x <= max_or 0 (map f l)) by (apply max_or_ge; now apply in_map).
    lia.
Qed.

Lemma max_depth_of_keys (infos : list folder_info) :
  max_or 0 (Dict.keys (add_counts [] (map (fun i => (depth i, 1)) infos)))
  = max_or 0 (map depth infos).
Proof.
  apply max_or_same_elements. intros x.
  rewrite keys_add_counts, in_fold_add_seen, map_map. cbn [fst Dict.keys map].
  simpl. tauto.
Qed.

(** The overview row of a main subfolder that took the records of
    [items]. *)
Lemma overview_row_of_items (g : string) (items : list walk_item) :
  overview_row_of_subfolder
    (g, fold_left accumulate (map (folder_info_of sep) items)
          (new_sf_data sep human_root g))
  = {| Category := g;
       Total_Folders := len items;
       Total_Files := len (flat_map walk_files items);
       DICOM_Files :=
         count_where (fun f => is_dicom_ext (file_ext f)) (flat_map walk_files items);
       DAT_Files :=
         count_where (fun f => (file_ext f =? ".dat")%string) (flat_map walk_files items);
       NIFTI_Files := count_where is_nifti_filename (flat_map walk_files items);
       Main_Subfolders :=
         match items with
         | it :: _ => len (walk_dirs it)
         | [] => 0
         end;
       Max_Depth := max_or 0 (map depth (map (folder_info_of sep) items)) |}.
Proof.
  rewrite fold_accumulate.
  cbn [overview_row_of_subfolder new_sf_data sf_total_folders sf_total_files
         sf_dicom_files sf_dat_files sf_folder_details sf_depth_counts app].
  rewrite max_depth_of_keys, len_map, !map_map, !Z.add_0_l.
  f_equal.
  - rewrite <- sum_len_files. apply f_equal, map_ext. intros it.
    now destruct (folder_info_of_fields sep it) as (_ & -> & _).
  - rewrite <- sum_count_where_files. apply f_equal, map_ext. intros it.
    now destruct (folder_info_of_fields sep it) as (_ & _ & _ & _ & -> & _).
  - rewrite <- sum_count_where_files. apply f_equal, map_ext. intros it.
    now destruct (folder_info_of_fields sep it) as (_ & _ & _ & _ & _ & -> & _).
  - rewrite <- sum_count_where_files. apply f_equal, map_ext. intros it.
    now destruct (folder_info_of_fields sep it) as (_ & _ & _ & _ & _ & _ & ->).
  - destruct items as [|it items]; [reflexivity|]. cbn [map].
    now destruct (folder_info_of_fields sep it) as (_ & _ & -> & _).
Qed.

(** Rows computed from the entries of a dictionary, along its keys. *)
Lemma map_along_keys {V B : Type} (F : string * V -> B) (G : Dir -> B)
  (d : list (string * V)) (subdirs : list Dir) :
  Dict.keys d = map dir_name subdirs -> NoDup (Dict.keys d) ->
  (forall c v, In c subdirs -> Dict.get d (dir_name c) = Some v -> F (dir_name c, v) = G c) ->
  map F d = map G subdirs.
Proof.
  revert subdirs. induction d as [|[k v] d IH]; intros [|c cs]; try discriminate;
    [reflexivity|].
  cbn [Dict.keys map fst]. intros [= -> Ek] Hnd HF.
  inversion Hnd as [|? ? Hk Hnd']; subst. f_equal.
  - apply HF; [now left|]. cbn [Dict.get]. now rewrite key_eqb_refl.
  - apply IH; [assumption..|]. intros c' v' Hc' Hget. apply HF; [now right|].
    cbn [Dict.get]. destruct (key_eqb_spec (dir_name c) (dir_name c')) as [E|]; [|assumption].
    exfalso. apply Hk. rewrite Ek, E.
    now apply in_map.
Qed.

(** X8: for a well-formed tree, the main subfolder named after a child [c]
    of the root holds the walk of the subtree of [c] and nothing else: its
    folder records are the records of the directories of that subtree in
    walk order, their paths are the joined segments from [c] downwards and
    their depths the numbers of segments, its path is the root joined with
    the name, its extension counts count the files of the subtree, and it
    has no records exactly when the walk does not enter [c]. *)
Theorem group_holds_subtree (name : string) (files : list string) (subdirs : list Dir)
  (c : Dir) :
  well_formed_root sep (Folder name files subdirs) = true ->
  In c subdirs ->
  exists data sf,
    result (scan_human_folder_complete sep human_root (Folder name files subdirs))
    = Some data /\
    Dict.get (hd_subfolders data) (dir_name c) = Some sf /\
    sf_path sf = os_path_join sep human_root (dir_name c) /\
    sf_folder_details sf
    = map (folder_info_of sep) (os_walk sep human_root [dir_name c] c) /\
    map path (sf_folder_details sf)
    = map (rel_of_segments sep) (walk_segments [dir_name c] c) /\
    map depth (sf_folder_details sf) = map len (walk_segments [dir_name c] c) /\
    (forall k, count (sf_file_counts sf) k
               = count_where (fun f => (file_ext f =? k)%string) (tree_files c)) /\
    (sf_folder_details sf = [] <-> entered_dirs c = 0).
Proof.
  intros Hwf Hc.
  destruct (well_formed_root_children sep name files subdirs Hwf) as [_ Hsub].
  destruct (Hsub c Hc) as [Hwc Hvc].
  eexists. eexists. split; [reflexivity|].
  split; [now apply group_of_child|].
  rewrite fold_accumulate.
  cbn [sf_path sf_folder_details sf_file_counts new_sf_data app].
  split; [reflexivity|]. split; [reflexivity|]. split; [|split; [|split]].
  - rewrite map_map. change (fun x => path (folder_info_of sep x)) with walk_rel_path.
    apply (walk_rel_paths sep human_root).
  - apply walk_depths; [assumption | now constructor].
  - intros k. rewrite (count_flat_file_types sep), (walk_files_of_tree sep human_root).
    reflexivity.
  - rewrite <- (walk_length_of_tree sep human_root c [dir_name c]).
    destruct (os_walk sep human_root [dir_name c] c) as [|it l]; [tauto|].
    cbn [map]. rewrite len_cons. unfold len. split; [discriminate | lia].
Qed.

(** X9: for a well-formed tree, the overview sheet is read off the tree:
    the first row holds the entered directories and files of the whole
    tree, the number of children of the root and the number of levels below
    the root; then comes one row per child of the root, in listing order,
    with the entered directories and files of its subtree, the number of
    its own children and the number of levels of its subtree.  A child that
    the walk does not enter has a row of zeros. *)
Theorem overview_sheet_of_tree (name : string) (files : list string)
  (subdirs : list Dir) :
  well_formed_root sep (Folder name files subdirs) = true ->
  exists data,
    result (scan_human_folder_complete sep human_root (Folder name files subdirs))
    = Some data /\
    fst (create_overview_sheet data)
    = overview_row_of_tree "HUMAN FOLDER TOTAL" (Folder name files subdirs)
        (len subdirs) (levels (Folder name files subdirs) - 1)
      :: map (fun c => overview_row_of_tree (dir_name c) c (direct_subdirs c) (levels c))
           subdirs.
Proof.
  intros Hwf.
  destruct (well_formed_root_children sep name files subdirs Hwf) as [Hnd Hsub].
  eexists. split; [reflexivity|].
  set (fs := Folder name files subdirs).
  set (items := os_walk sep human_root [] fs).
  cbn [create_overview_sheet fst]. f_equal.
  - pose proof (overview_over_files sep human_root (map dir_name subdirs) items) as H.
    cbv zeta in H. unfold items in H.
    rewrite (walk_files_of_tree sep human_root), (walk_length_of_tree sep human_root) in H.
    destruct H as (H1 & H2 & H3 & H4 & H5 & _).
    fold items in H1, H2, H3, H4, H5. rewrite H1, H2, H3, H4, H5.
    unfold overview_row_of_tree. f_equal.
    + rewrite (scan_items_overview sep human_root). cbn [ov_main_subfolders].
      apply len_map.
    + rewrite (scan_items_overview sep human_root). cbn [ov_max_depth].
      unfold items. rewrite walk_depths by (assumption || constructor).
      rewrite <- (levels_of_walk fs []).
      change (len (@nil string)) with 0.
      rewrite (map_ext (fun s : list string => len s - 0 + 1) (fun s => len s + 1))
        by (intros s; lia).
      rewrite max_or_shift by discriminate. lia.
  - apply map_along_keys.
    + rewrite (scan_items_subfolders sep human_root), (keys_fold_assign sep).
      now apply (keys_init_subfolders sep human_root).
    + rewrite (scan_items_subfolders sep human_root), (keys_fold_assign sep),
        (keys_init_subfolders sep human_root) by assumption. assumption.
    + intros c v Hc Hget. fold fs in Hwf. unfold items, fs in Hget.
      rewrite (group_of_child name files subdirs c Hwf Hc) in Hget.
      injection Hget as <-. destruct (Hsub c Hc) as [Hwc Hvc].
      rewrite overview_row_of_items.
      rewrite (walk_files_of_tree sep human_root), (walk_length_of_tree sep human_root).
      unfold overview_row_of_tree. f_equal.
      * destruct c as [n fl subs | n why]; [|reflexivity].
        cbn [os_walk walk_dirs direct_subdirs]. apply len_map.
      * rewrite walk_depths by (assumption || now constructor).
        rewrite <- (levels_of_walk c [dir_name c]). f_equal. apply map_ext.
        intros s. change (len [dir_name c]) with 1. lia.
Qed.

End SubtreeFacts.

Lemma group_holds_subtree_witness :
  exists data sf,
    result (scan_human_folder_complete "/" "/data/Human" tree_two_groups) = Some data /\
    Dict.get (hd_subfolders data) "B" = Some sf /\
    map path (sf_folder_details sf) = ["B"; "B/S2"; "B/S2/T"] /\
    map depth (sf_folder_details sf) = [1; 2; 3].
Proof.
  destruct (group_holds_subtree "/" "/data/Human" "Human" []
              [Folder "A" [] [Folder "S1" ["x.dat"; "y.mat"] []];
               Folder "B" [] [Folder "S2" [] [Folder "T" ["a.ima"; "b.IMA"] []]];
               Unlisted "L" "Permission denied"]
              (Folder "B" [] [Folder "S2" [] [Folder "T" ["a.ima"; "b.IMA"] []]]))
    as (data & sf & H1 & H2 & _ & _ & H5 & H6 & _).
  - reflexivity.
  - right. left. reflexivity.
  - exists data, sf. repeat split; assumption.
Defined.

Lemma overview_sheet_of_tree_witness :
  exists data,
    result (scan_human_folder_complete "/" "/data/Human" tree_two_groups) = Some data /\
    map Max_Depth (fst (create_overview_sheet data)) = [3; 2; 3; 0] /\
    map Total_Folders (fst (create_overview_sheet data)) = [6; 2; 3; 0].
Proof.
  destruct (overview_sheet_of_tree "/" "/data/Human" "Human" []
              [Folder "A" [] [Folder "S1" ["x.dat"; "y.mat"] []];
               Folder "B" [] [Folder "S2" [] [Folder "T" ["a.ima"; "b.IMA"] []]];
               Unlisted "L" "Permission denied"] eq_refl)
    as (data & H1 & H2).
  exists data. split; [exact H1|]. rewrite H2. split; reflexivity.
Defined.
